(** * ptype-physical: the vertical-profile feature pipeline

    A shallow embedding of [ptype/inference.py]: [df_flatten] (the profile
    flattener), [convert_and_interpolate] with [interpolate] (the vertical
    interpolator) and [grid_predictions] (the grid reconstructor), together
    with the numpy, pandas and xarray operations they call.

    Numbers are binary64 floats ([PrimFloat.float]), arrays are C-ordered
    buffers with a shape, Python exceptions are values of [exn], and the one
    function that writes to an object it was handed ([grid_predictions]) runs
    in a state-and-exception monad over that object. *)

From Stdlib Require Import ZArith List Lia Floats.
From stdpp Require Import base option list sorting gmap strings pretty.

Set Default Proof Using "Type".

(* ================================================================== *)
(** ** Exceptions *)
(* ================================================================== *)

(** The Python exceptions the three stages can raise.  None of them is
    defined by the repository: they come from numpy, pandas and xarray. *)
Inductive exn : Type :=
| KeyError (key : string)
| ValueError (msg : string)
| IndexError (msg : string)
| TypeError (msg : string)
| OverflowError (msg : string)
| ZeroDivisionError.

Definition result (A : Type) : Type := exn + A.

Definition ok {A} (a : A) : result A := inr a.
Definition raise {A} (e : exn) : result A := inl e.

Definition rbind {A B} (m : result A) (k : A -> result B) : result B :=
  match m with
  | inl e => inl e
  | inr a => k a
  end.

Declare Scope result_scope.
Delimit Scope result_scope with result.
Notation "'let*' x ':=' m 'in' k" := (rbind m (fun x => k))
  (at level 10, x pattern, m at level 100, k at level 200) : result_scope.
Local Open Scope result_scope.

(** [for x in xs: ...] collecting one value per iteration; the first
    exception stops the loop. *)
Fixpoint mapR {A B} (f : A -> result B) (xs : list A) : result (list B) :=
  match xs with
  | [] => ok []
  | x :: xs' =>
      let* y := f x in
      let* ys := mapR f xs' in
      ok (y :: ys)
  end.

Definition is_ok {A} (r : result A) : Prop := exists a, r = inr a.

(* ================================================================== *)
(** ** Scalars: Python [int], [str] and numpy element types *)
(* ================================================================== *)

(** An integer to float64, as numpy and numba convert an integer operand
    that meets a float64 one: the nearest binary64 value, ties to even
    (exact below 2^53 in magnitude). *)
Definition Z2float (z : Z) : float :=
  SF2Prim (binary_normalize 53 1024 z 0 false).

Definition nat2float (n : nat) : float := Z2float (Z.of_nat n).

(** Python's [int(p)] on a float: truncation toward zero; NaN and the
    infinities raise. *)
Definition int_of_float (p : float) : result Z :=
  match Prim2SF p with
  | S754_nan => raise (ValueError "cannot convert float NaN to integer")
  | S754_infinity _ =>
      raise (OverflowError "cannot convert float infinity to integer")
  | S754_zero _ => ok 0%Z
  | S754_finite s m e =>
      let a := if (0 <=? e)%Z then (Z.pos m * 2 ^ e)%Z
               else (Z.pos m / 2 ^ (- e))%Z in
      ok (if s then (- a)%Z else a)
  end.

(** The f-string [f"{v}_{int(p)}"]. *)
Definition level_column (v : string) (p : float) : result string :=
  let* n := int_of_float p in
  ok (v +:+ "_" +:+ pretty n).

Inductive dtype : Type := float64 | float32 | int64 | uint8.

#[global] Instance dtype_eq_dec : EqDecision dtype.
Proof. solve_decision. Defined.

(** numpy's result type of two element types. *)
Definition promote (d1 d2 : dtype) : dtype :=
  match d1, d2 with
  | float64, _ | _, float64 => float64
  | float32, int64 | int64, float32 => float64
  | float32, _ | _, float32 => float32
  | int64, _ | _, int64 => int64
  | uint8, uint8 => uint8
  end.

(** [astype('float32')] on one element: rounding to nearest-even binary32,
    kept in a binary64 carrier (every binary32 value is a binary64 value). *)
Definition round_float32 (f : float) : float :=
  match Prim2SF f with
  | S754_finite s m e =>
      SF2Prim (binary_normalize 24 128 (cond_Zopp s (Z.pos m)) e s)
  | _ => f
  end.

(** [astype('uint8')] on one element: the C conversion numpy performs.
    In range it truncates toward zero; out of range the C standard leaves
    the result open, and the model follows the x86-64 build (through int32,
    low eight bits). *)
Definition cast_uint8 (f : float) : float :=
  match int_of_float f with
  | inr z =>
      if ((- 2 ^ 31 <=? z) && (z <? 2 ^ 31))%Z
      then Z2float (z mod 256)%Z else 0%float
  | inl _ => 0%float
  end.

Definition cast_int64 (f : float) : float :=
  match int_of_float f with
  | inr z =>
      if ((- 2 ^ 63 <=? z) && (z <? 2 ^ 63))%Z
      then Z2float z else Z2float (- 2 ^ 63)%Z
  | inl _ => Z2float (- 2 ^ 63)%Z
  end.

Definition cast (d : dtype) (f : float) : float :=
  match d with
  | float64 => f
  | float32 => round_float32 f
  | int64 => cast_int64 f
  | uint8 => cast_uint8 f
  end.

(* ================================================================== *)
(** ** numpy arrays *)
(* ================================================================== *)

(** An [ndarray]: a shape, an element type and the C-ordered (row-major)
    buffer.  Elements of every [dtype] are carried as binary64 values. *)
Record ndarray : Type := NDArray {
  shape : list nat;
  arr_dtype : dtype;
  data : list float
}.

Definition size_of (sh : list nat) : nat := foldr Nat.mul 1 sh.

(** The buffer holds exactly the elements the shape announces. *)
Definition wf_array (a : ndarray) : Prop := length (data a) = size_of (shape a).

Definition astype (d : dtype) (a : ndarray) : ndarray :=
  NDArray (shape a) d (cast d <$> data a).

(** Row [i] of a C-ordered buffer whose rows have [w] elements. *)
Definition buf_row (w : nat) (buf : list float) (i : nat) : list float :=
  take w (drop (i * w) buf).

(** [a[i]] for a 2-D array. *)
Definition getrow (a : ndarray) (i : nat) : result (list float) :=
  match shape a with
  | [n; w] =>
      if decide (i < n) then ok (buf_row w (data a) i)
      else raise (IndexError "index out of bounds for axis 0")
  | _ => raise (TypeError "expected a 2-D array")
  end.

(** [a[i, j]] for a 2-D array, as an option. *)
Definition get2 (a : ndarray) (i j : nat) : option float :=
  match shape a with
  | [n; w] => if decide (i < n /\ j < w) then data a !! (i * w + j) else None
  | _ => None
  end.

(** [a.reshape(sh)]. *)
Definition np_reshape (a : ndarray) (sh : list nat) : result ndarray :=
  if decide (size_of sh = length (data a))
  then ok (NDArray sh (arr_dtype a) (data a))
  else raise (ValueError "cannot reshape array")%string.

(** [a.reshape(-1, 1)]: one column holding the buffer. *)
Definition reshape_column (a : ndarray) : ndarray :=
  NDArray [length (data a); 1] (arr_dtype a) (data a).

(** [np.concatenate(arrs, axis=1)] on 2-D arrays (also [np.hstack]). *)
Definition same_rows (n : nat) (b : ndarray) : bool :=
  match shape b with
  | [n'; _] => bool_decide (n = n')
  | _ => false
  end.

Definition ncols (a : ndarray) : nat :=
  match shape a with
  | [_; w] => w
  | _ => 0
  end.

Definition concatenate_axis1 (arrs : list ndarray) : result ndarray :=
  match arrs with
  | [] => raise (ValueError "need at least one array to concatenate")
  | a :: rest =>
      match shape a with
      | [n; _] =>
          if forallb (same_rows n) rest then
            ok (NDArray [n; foldr (fun b acc => ncols b + acc) 0 arrs]
                  (foldr (fun b acc => promote (arr_dtype b) acc)
                         (arr_dtype a) rest)
                  (flat_map (fun i =>
                     flat_map (fun b => buf_row (ncols b) (data b) i) arrs)
                     (seq 0 n)))
          else raise (ValueError "all the input array dimensions except for the concatenation axis must match exactly")
      | _ => raise (ValueError "axis 1 is out of bounds")
      end
  end.

(* ================================================================== *)
(** ** [np.interp] *)
(* ================================================================== *)

(** [np.interp] is library code (numpy, here in numba's compiled
    facsimile of numpy's [arr_interp] and [binary_search_with_guess]);
    the transcription below follows that algorithm: range checks against
    the first and last sample, a linear search for up to four samples, a
    guess-and-bisect search otherwise, then the slope formula. *)

(** Unchecked element read ([arr[i]] in compiled code). *)
Definition fget (arr : list float) (i : Z) : float := nth (Z.to_nat i) arr nan.

Definition LIKELY_IN_CACHE_SIZE : Z := 8.

(** [for (i = 1; i < len && key >= arr[i]; ++i); return i - 1;]
    with [rest] the samples from index [i] on. *)
Fixpoint linear_search (key : float) (rest : list float) (i : Z) : Z :=
  match rest with
  | [] => i - 1
  | a :: rest' =>
      if (a <=? key)%float then linear_search key rest' (i + 1) else i - 1
  end.

(** [while (imin < imax) { imid = imin + ((imax - imin) >> 1); ... }
    return imin - 1;] *)
Fixpoint bisect (fuel : nat) (key : float) (arr : list float)
    (imin imax : Z) : Z :=
  match fuel with
  | O => imin - 1
  | S fuel' =>
      if (imin <? imax)%Z then
        let imid := (imin + Z.shiftr (imax - imin) 1)%Z in
        if (fget arr imid <=? key)%float
        then bisect fuel' key arr (imid + 1) imax
        else bisect fuel' key arr imin imid
      else imin - 1
  end.

Definition binary_search_with_guess (key : float) (arr : list float)
    (guess : Z) : Z :=
  let len := Z.of_nat (length arr) in
  if (fget arr (len - 1) <? key)%float then len
  else if (key <? fget arr 0)%float then (-1)
  else if (len <=? 4)%Z then linear_search key (drop 1 arr) 1
  else
    let guess := if (len - 3 <? guess)%Z then (len - 3)%Z else guess in
    let guess := if (guess <? 1)%Z then 1%Z else guess in
    if (key <? fget arr guess)%float then
      if (key <? fget arr (guess - 1))%float then
        let imax := (guess - 1)%Z in
        let imin :=
          if (LIKELY_IN_CACHE_SIZE <? guess)%Z
             && (fget arr (guess - LIKELY_IN_CACHE_SIZE) <=? key)%float
          then (guess - LIKELY_IN_CACHE_SIZE)%Z else 0%Z in
        bisect (length arr) key arr imin imax
      else (guess - 1)%Z
    else if (key <? fget arr (guess + 1))%float then guess
    else if (key <? fget arr (guess + 2))%float then (guess + 1)%Z
    else
      let imin := (guess + 2)%Z in
      let imax :=
        if (guess <? len - LIKELY_IN_CACHE_SIZE - 1)%Z
           && (key <? fget arr (guess + LIKELY_IN_CACHE_SIZE))%float
        then (guess + LIKELY_IN_CACHE_SIZE)%Z else len in
      bisect (length arr) key arr imin imax.

(** The value between samples [j] and [j + 1], with the fallbacks taken
    when the first formula yields NaN. *)
Definition interp_segment (dx dy : list float) (j : Z) (x_val : float) : float :=
  let slope :=
    ((fget dy (j + 1) - fget dy j) / (fget dx (j + 1) - fget dx j))%float in
  let r := (slope * (x_val - fget dx j) + fget dy j)%float in
  if is_nan r then
    let r' := (slope * (x_val - fget dx (j + 1)) + fget dy (j + 1))%float in
    if is_nan r' && (fget dy j =? fget dy (j + 1))%float then fget dy j else r'
  else r.

(** One pass of the loop over the query points: the value stored and the
    index carried as the next guess. *)
Definition interp_at (dx dy : list float) (j : Z) (x_val : float) : float * Z :=
  if is_nan x_val then (x_val, j)
  else
    let lenxp := Z.of_nat (length dx) in
    let j := binary_search_with_guess x_val dx j in
    let v :=
      if (j =? -1)%Z then fget dy 0
      else if (j =? lenxp)%Z then fget dy (lenxp - 1)
      else if (j =? lenxp - 1)%Z then fget dy j
      else if (fget dx j =? x_val)%float then fget dy j
      else interp_segment dx dy j x_val in
    (v, j).

Fixpoint interp_loop (dx dy : list float) (j : Z) (xs : list float) : list float :=
  match xs with
  | [] => []
  | x_val :: xs' =>
      let '(v, j') := interp_at dx dy j x_val in
      v :: interp_loop dx dy j' xs'
  end.

Definition np_interp (x xp fp : list float) : result (list float) :=
  if decide (length xp = 0) then
    raise (ValueError "array of sample points is empty")
  else if decide (length xp <> length fp) then
    raise (ValueError "fp and xp are not of the same size.")
  else if decide (length xp = 1) then ok ((fun _ => fget fp 0) <$> x)
  else ok (interp_loop xp fp 0 x).

(* ================================================================== *)
(** ** [interpolate] *)
(* ================================================================== *)

(** One pass of the loop of [interpolate]: the row [np.interp] returns.
    The function is compiled with [parallel=True] and the loop is a
    [prange]: an exception that [np.interp] raises inside it (an empty
    profile, abscissae and ordinates of different lengths) is lost, and
    the row keeps the zeros [np.zeros] created it with. *)
Definition interp_row (height_levels xi yi : list float) : list float :=
  match np_interp height_levels xi yi with
  | inr vs => vs
  | inl _ => replicate (length height_levels) 0%float
  end.

(** [interpolate(x, y, height_levels)]: row [i] of the result is
    [np.interp(height_levels, x[i], y[i])].  [height_levels] is the integer
    array built by [np.arange]; its elements meet float64 samples as
    float64.  numba compiles the function for 2-D [x] and [y] and does not
    check the bound of [y[i]]; here a missing row of [y] is an
    [IndexError]. *)
Definition interpolate (x y : ndarray) (height_levels : list Z)
    : result ndarray :=
  match shape x with
  | [n; _] =>
      let* rows :=
        mapR (fun i =>
                let* xi := getrow x i in
                let* yi := getrow y i in
                ok (interp_row (Z2float <$> height_levels) xi yi))
             (seq 0 n) in
      ok (NDArray [n; length height_levels] float64 (concat rows))
  | _ => raise (TypeError "expected a 2-D array")
  end.

(* ================================================================== *)
(** ** pandas frames *)
(* ================================================================== *)

(** A [DataFrame] built from a 2-D array: the column labels, in order
    (pandas allows repeated labels), and the values. *)
Record DataFrame : Type := mkDataFrame {
  columns : list string;
  values : ndarray
}.

(** Positions of the columns carrying [name], counted from [i]. *)
Fixpoint positions (name : string) (cols : list string) (i : nat) : list nat :=
  match cols with
  | [] => []
  | c :: cols' =>
      if decide (c = name) then i :: positions name cols' (S i)
      else positions name cols' (S i)
  end.

(** [data[names].values]: for each requested label every column carrying
    it, in the order requested; a label carried by no column is a
    [KeyError] (the model reports the first such label). *)
Definition select_columns (df : DataFrame) (names : list string)
    : result ndarray :=
  let* idx :=
    mapR (fun name =>
            match positions name (columns df) 0 with
            | [] => raise (KeyError name)
            | ps => ok ps
            end) names in
  let js := concat idx in
  match shape (values df) with
  | [n; w] =>
      ok (NDArray [n; length js] (arr_dtype (values df))
            (flat_map (fun i =>
               (fun j => fget (buf_row w (data (values df)) i) (Z.of_nat j))
                 <$> js)
               (seq 0 n)))
  | _ => raise (TypeError "expected a 2-D array")
  end.

(* ================================================================== *)
(** ** [convert_and_interpolate] *)
(* ================================================================== *)

(** The [height_levels] dictionary of the configuration (YAML integers). *)
Record HeightLevels : Type := mkHeightLevels {
  low : Z;
  high : Z;
  interval : Z
}.

(** Ceiling of [a / b] for [b <> 0]. *)
Definition ceil_div (a b : Z) : Z := (- ((- a) / b))%Z.

(** [np.arange(start, stop, step)] on integers: [ceil((stop - start) / step)]
    elements [start + i * step] (none when that count is not positive).
    The model keeps the int64 elements in [Z]; it is exact while the
    bounds stay below 2^53 in magnitude. *)
Definition np_arange (start stop step : Z) : result (list Z) :=
  if decide (step = 0%Z) then raise ZeroDivisionError
  else
    ok ((fun i => (start + Z.of_nat i * step)%Z)
          <$> seq 0 (Z.to_nat (ceil_div (stop - start) step))).

(** [a[:, 0] = v] with numpy broadcasting of a 1-D [v]. *)
Definition setitem_column0 (a : ndarray) (v : list float) : result ndarray :=
  match shape a with
  | [n; w] =>
      if decide (w = 0) then
        raise (IndexError "index 0 is out of bounds for axis 1 with size 0")
      else if decide (length v = n \/ length v = 1) then
        ok (NDArray [n; w] (arr_dtype a)
              (imap (fun k d =>
                       if decide (k mod w = 0)
                       then cast (arr_dtype a)
                              (fget v (if decide (length v = 1) then 0%Z
                                       else Z.of_nat (k / w)))
                       else d)
                    (data a)))
      else raise (ValueError "could not broadcast input array")
  | _ => raise (TypeError "expected a 2-D array")
  end.

(** [d[key]] on a Python dictionary kept as an association list. *)
Fixpoint dict_get {V} (d : list (string * V)) (key : string) : result V :=
  match d with
  | [] => raise (KeyError key)
  | (k, v) :: d' => if decide (k = key) then ok v else dict_get d' key
  end.

Definition profile_variables : list string := ["t"; "dpt"; "u"; "v"; "hgt_above_sfc"].
Definition variables : list string := ["t"; "dpt"; "u"; "v"].
Definition surface_variables : list string := ["t2m"; "d2m"; "u10"; "v10"].

(** The target height levels. *)
Definition target_levels (height_levels : HeightLevels) : result (list Z) :=
  np_arange (low height_levels)
            (high height_levels + interval height_levels)
            (interval height_levels).

(** [surface_data[sv]]. *)
Definition surface_getitem (surface_data : gmap string (list float))
    (sv : string) : result (list float) :=
  match surface_data !! sv with
  | Some v => ok v
  | None => raise (KeyError sv)
  end.

Definition convert_and_interpolate (data : DataFrame)
    (surface_data : gmap string (list float))
    (pressure_levels : list float) (height_levels : HeightLevels)
    : result ndarray :=
  let* height_levels := target_levels height_levels in
  let* cols :=
    mapR (fun var =>
            let* names := mapR (level_column var) pressure_levels in
            ok (var, names))
         profile_variables in
  let* hgt_cols := dict_get cols "hgt_above_sfc" in
  let* height_data := select_columns data hgt_cols in
  let* var_arrays :=
    mapR (fun '(v, sv) =>
            let* v_cols := dict_get cols v in
            let* pressure_level_data := select_columns data v_cols in
            let* height_interp_data :=
              interpolate height_data pressure_level_data height_levels in
            let* sfc := surface_getitem surface_data sv in
            setitem_column0 height_interp_data sfc)
         (zip variables surface_variables) in
  concatenate_axis1 var_arrays.

(* ================================================================== *)
(** ** xarray datasets *)
(* ================================================================== *)

(** A variable of a dataset: its dimension names, values and attributes. *)
Record DataArray : Type := mkDataArray {
  da_dims : list string;
  da_values : ndarray;
  da_attrs : gmap string string
}.

(** A [Dataset]: dimension sizes, variables (data variables and
    coordinates share one name space) and the names that are coordinates. *)
Record Dataset : Type := mkDataset {
  ds_dims : gmap string nat;
  ds_variables : gmap string DataArray;
  ds_coord_names : gset string;
  ds_attrs : gmap string string
}.

(** [ds[name]]: a variable, or the default index of a dimension that has
    no coordinate variable. *)
Definition ds_getitem (ds : Dataset) (name : string) : result DataArray :=
  match ds_variables ds !! name with
  | Some da => ok da
  | None =>
      match ds_dims ds !! name with
      | Some n =>
          ok (mkDataArray [name] (NDArray [n] int64 (nat2float <$> seq 0 n)) ∅)
      | None => raise (KeyError name)
      end
  end.

(** [ds[name].size]. *)
Definition ds_size (ds : Dataset) (name : string) : result nat :=
  let* da := ds_getitem ds name in
  ok (length (data (da_values da))).

(** The elements met by [for p in da.values] on a 1-D variable. *)
Definition values_1d (da : DataArray) : result (list float) :=
  match shape (da_values da) with
  | [_] => ok (data (da_values da))
  | _ => raise (TypeError "only 1-D level coordinates are iterated")
  end.

(** Positions of the label [p] in an index, counted from [i]. *)
Fixpoint label_positions (p : float) (index : list float) (i : nat) : list nat :=
  match index with
  | [] => []
  | q :: index' =>
      if (q =? p)%float then i :: label_positions p index' (S i)
      else label_positions p index' (S i)
  end.

(** The sub-blocks at positions [ps] of axis [axis], in C order. *)
Definition take_axis (sh : list nat) (buf : list float) (axis : nat)
    (ps : list nat) : list float :=
  let outer := size_of (take axis sh) in
  let n := nth axis sh 0 in
  let inner := size_of (drop (S axis) sh) in
  flat_map (fun o =>
    flat_map (fun p => take inner (drop ((o * n + p) * inner) buf)) ps)
    (seq 0 outer).

(** [da.sel(isobaricInhPa=p).values] for a level [p] read from an array of
    element type [dt].  When the dimension has a coordinate variable, that
    is the index and [p] is looked up as a label: one match drops the level
    axis; several (a non-unique index) keep it.  When it has none, xarray
    hands the label to positional indexing: an integer [p] selects position
    [p] (counted from the end when negative) and drops the axis, and a
    label that is not an integer is refused. *)
Definition sel_isobaricInhPa (ds : Dataset) (da : DataArray) (dt : dtype)
    (p : float) : result ndarray :=
  match list_find (fun d => d = "isobaricInhPa") (da_dims da) with
  | None => raise (KeyError "isobaricInhPa")
  | Some (axis, _) =>
      let a := da_values da in
      match ds_variables ds !! "isobaricInhPa" with
      | Some index =>
          match label_positions p (data (da_values index)) 0 with
          | [] => raise (KeyError "isobaricInhPa")
          | [k] =>
              ok (NDArray (take axis (shape a) ++ drop (S axis) (shape a))
                    (arr_dtype a) (take_axis (shape a) (data a) axis [k]))
          | ks =>
              ok (NDArray (take axis (shape a) ++ length ks
                             :: drop (S axis) (shape a))
                    (arr_dtype a) (take_axis (shape a) (data a) axis ks))
          end
      | None =>
          match dt with
          | int64 | uint8 =>
              let n := Z.of_nat (nth axis (shape a) 0) in
              let* z := int_of_float p in
              if decide (- n <= z < n)%Z then
                let k := Z.to_nat (if (z <? 0)%Z then z + n else z)%Z in
                ok (NDArray (take axis (shape a) ++ drop (S axis) (shape a))
                      (arr_dtype a) (take_axis (shape a) (data a) axis [k]))
              else raise (IndexError "index is out of bounds for the axis")
          | _ => raise (TypeError "invalid indexer, does not have integer dtype")
          end
      end
  end.

(* ================================================================== *)
(** ** [df_flatten] *)
(* ================================================================== *)

Definition df_flatten (ds : Dataset) (varsP : list string)
    (vertical_level_name : string) : result DataFrame :=
  let* cells :=
    mapR (fun v =>
            let* levels := ds_getitem ds vertical_level_name in
            let* ps := values_1d levels in
            mapR (fun p =>
                    let* col := level_column v p in
                    let* da := ds_getitem ds v in
                    let* slice :=
                      sel_isobaricInhPa ds da (arr_dtype (da_values levels)) p in
                    ok (col, reshape_column slice))
                 ps)
         varsP in
  let cols := fst <$> concat cells in
  let pressure_lev_data := snd <$> concat cells in
  let* flat_data := concatenate_axis1 pressure_lev_data in
  ok (mkDataFrame cols flat_data).

(** The call made by [load_data]: the default [vertical_level_name]. *)
Definition df_flatten_default (ds : Dataset) (varsP : list string)
    : result DataFrame :=
  df_flatten ds varsP "isobaricInhPa".

(* ================================================================== *)
(** ** [grid_predictions] *)
(* ================================================================== *)

(** [grid_predictions] assigns into the dataset it is given, so it runs
    over that object as state; an exception leaves the state as it was
    when raised. *)
Definition State (A : Type) : Type := Dataset -> result A * Dataset.

Definition sret {A} (a : A) : State A := fun s => (ok a, s).
Definition sbind {A B} (m : State A) (k : A -> State B) : State B :=
  fun s => match m s with
           | (inl e, s') => (inl e, s')
           | (inr a, s') => k a s'
           end.
Definition slift {A} (r : result A) : State A := fun s => (r, s).
Definition sget : State Dataset := fun s => (ok s, s).
Definition sput (s' : Dataset) : State unit := fun _ => (ok tt, s').

Declare Scope state_scope.
Delimit Scope state_scope with state.
Notation "'let!' x ':=' m 'in' k" := (sbind m (fun x => k))
  (at level 10, x pattern, m at level 100, k at level 200) : state_scope.
Notation "m ';;' k" := (sbind m (fun _ => k))
  (at level 100, k at level 200, right associativity) : state_scope.

(** [for x in xs: body(x)] for its effect. *)
Fixpoint sfor {A} (xs : list A) (body : A -> State unit) : State unit :=
  match xs with
  | [] => sret tt
  | x :: xs' => sbind (body x) (fun _ => sfor xs' body)
  end.

(** [row.argmax()] as numpy evaluates it: the first position holding the
    greatest value, a NaN counting as greatest. *)
Fixpoint argmax_loop (mp : float) (max_ind i : nat) (rest : list float) : nat :=
  match rest with
  | [] => max_ind
  | x :: rest' =>
      if negb (x <=? mp)%float then
        if is_nan x then i else argmax_loop x i (S i) rest'
      else argmax_loop mp max_ind (S i) rest'
  end.

Definition argmax_row (row : list float) : nat :=
  match row with
  | [] => 0
  | mp :: rest => if is_nan mp then 0 else argmax_loop mp 0 1 rest
  end.

(** [a.argmax(axis=1)] on a 2-D array. *)
Definition argmax_axis1 (a : ndarray) : result (list nat) :=
  match shape a with
  | [n; k] =>
      if decide (k = 0) then
        raise (ValueError "attempt to get argmax of an empty sequence")
      else ok ((fun i => argmax_row (buf_row k (data a) i)) <$> seq 0 n)
  | _ => raise (ValueError "axis 1 is out of bounds")
  end.

(** [a[:, :, i]] on a 3-D array. *)
Definition slice_last_axis (a : ndarray) (i : nat) : result ndarray :=
  match shape a with
  | [r; c; k] =>
      if decide (i < k) then
        ok (NDArray [r; c] (arr_dtype a)
              ((fun idx => fget (data a) (Z.of_nat (idx * k + i)))
                 <$> seq 0 (r * c)))
      else raise (IndexError "index is out of bounds for axis 2")
  | _ => raise (IndexError "too many indices for array")
  end.

(** [np.where(a == i, 1, 0)]. *)
Definition where_eq (a : ndarray) (i : nat) : ndarray :=
  NDArray (shape a) int64
    ((fun v => if (v =? nat2float i)%float then 1%float else 0%float)
       <$> data a).

(** The sizes a new variable announces against those of the dataset. *)
Fixpoint merge_dims (dims : gmap string nat) (names : list string)
    (sh : list nat) : result (gmap string nat) :=
  match names, sh with
  | [], [] => ok dims
  | d :: names', n :: sh' =>
      match dims !! d with
      | Some n' =>
          if decide (n = n') then merge_dims dims names' sh'
          else raise (ValueError "conflicting sizes for dimension")
      | None => merge_dims (<[d := n]> dims) names' sh'
      end
  | _, _ => raise (ValueError "dimensions must have the same length as the number of data dimensions")
  end.

(** [data[name] = (dims, values)] and [data[name] = data_array]. *)
Definition ds_setitem (name : string) (dims : list string) (a : ndarray)
    (attrs : gmap string string) : State unit :=
  fun ds =>
    match merge_dims (ds_dims ds) dims (shape a) with
    | inl e => (inl e, ds)
    | inr dims' =>
        (ok tt,
         mkDataset dims'
           (<[name := mkDataArray dims a attrs]> (ds_variables ds))
           (ds_coord_names ds) (ds_attrs ds))
    end.

(** [data[name].attrs = attrs]. *)
Definition ds_set_attrs (name : string) (attrs : gmap string string) : State unit :=
  fun ds =>
    match ds_variables ds !! name with
    | Some da =>
        (ok tt,
         mkDataset (ds_dims ds)
           (<[name := mkDataArray (da_dims da) (da_values da) attrs]>
              (ds_variables ds))
           (ds_coord_names ds) (ds_attrs ds))
    | None => (raise (KeyError name), ds)
    end.

(** [data[name] = data[name].astype(d)]. *)
Definition ds_retype (name : string) (d : dtype) : State unit :=
  fun ds =>
    match ds_variables ds !! name with
    | Some da =>
        ds_setitem name (da_dims da) (astype d (da_values da)) (da_attrs da) ds
    | None => (raise (KeyError name), ds)
    end.

(** [name in data.data_vars] and [name in data.coords]. *)
Definition is_data_var (ds : Dataset) (name : string) : bool :=
  bool_decide (is_Some (ds_variables ds !! name) /\ name ∉ ds_coord_names ds).

Definition is_coord (ds : Dataset) (name : string) : bool :=
  bool_decide (is_Some (ds_variables ds !! name) /\ name ∈ ds_coord_names ds).

(** [data.drop(names)]: a new dataset without the named variables, its
    dimensions those the remaining variables use. *)
Definition ds_drop (ds : Dataset) (names : list string) : Dataset :=
  let vars := foldr delete (ds_variables ds) names in
  mkDataset
    (filter (fun '(d, _) => map_Exists (fun _ da => d ∈ da_dims da) vars)
            (ds_dims ds))
    vars
    (ds_coord_names ds ∖ list_to_set names)
    (ds_attrs ds).

Definition class_names : list (string * string) :=
  zip ["rain"; "snow"; "ice pellets"; "freezing rain"]
      ["rain"; "snow"; "icep"; "frzr"].

Definition description (text : string) : gmap string string :=
  {[ "Description" := text ]}.

Local Open Scope state_scope.

Definition grid_predictions (preds : ndarray) : State Dataset :=
  let! ptype := slift (argmax_axis1 preds) in
  let ptype := NDArray [length ptype; 1] int64 (nat2float <$> ptype) in
  let! preds := slift (concatenate_axis1 [preds; ptype]) in
  let! data := sget in
  let! ny := slift (ds_size data "y") in
  let! nx := slift (ds_size data "x") in
  let! reshaped_preds := slift (np_reshape preds [ny; nx; ncols preds]) in
  sfor (imap pair class_names) (fun '(i, (long_v, v)) =>
    let! prob := slift (slice_last_axis reshaped_preds i) in
    ds_setitem ("ML_" +:+ v) ["y"; "x"] (astype float32 prob) ∅ ;;
    ds_set_attrs ("ML_" +:+ v)
      (description ("Machine Learned Probability of " +:+ long_v)) ;;
    let! last :=
      slift (slice_last_axis reshaped_preds (ncols preds - 1)) in
    ds_setitem ("ML_c" +:+ v) ["y"; "x"] (astype uint8 (where_eq last i)) ∅ ;;
    ds_set_attrs ("ML_c" +:+ v)
      (description ("Machine Learned Categorical " +:+ long_v))) ;;
  sfor ["crain"; "csnow"; "cicep"; "cfrzr"] (fun var =>
    let! data := sget in
    if is_data_var data var then ds_retype var uint8 else sret tt) ;;
  let! data := sget in
  sfor (elements (ds_coord_names data)) (fun v =>
    let! data := sget in
    if is_coord data v then
      match ds_variables data !! v with
      | Some da =>
          if decide (arr_dtype (da_values da) = float64)
          then ds_retype v float32 else sret tt
      | None => sret tt
      end
    else sret tt) ;;
  let! data := sget in
  let drop_vars :=
    filter (fun v => is_coord data v = true)
           ["isobaricInhPa"; "heightAboveGround"; "surface"] in
  sret (ds_drop data drop_vars).

Local Close Scope state_scope.

(** The spec's wording of the level sequence: it starts at [low], ends at
    [high] and climbs by [interval]. *)
Definition closed_range (hl : HeightLevels) (ls : list Z) : Prop :=
  head ls = Some (low hl) /\ last ls = Some (high hl) /\
  forall i a b, ls !! i = Some a -> ls !! S i = Some b ->
                (b = a + interval hl /\ a < b)%Z.

(** An ascending profile: each abscissa is at most every later one (which
    also rules out NaN among them). *)
Definition ascending (xp : list float) : Prop :=
  forall i j a b, i <= j -> xp !! i = Some a -> xp !! j = Some b ->
                  (a <=? b)%float = true.

(** The spec's clamp: a query below the least abscissa takes the ordinate
    recorded there, a query above the greatest abscissa the ordinate
    recorded there. *)
Definition clamps_to_range_ends (xp fp : list float) (t v : float) : Prop :=
  (forall k a b, xp !! k = Some a -> fp !! k = Some b ->
     (forall a', a' ∈ xp -> (a <=? a')%float = true) ->
     (t <? a)%float = true -> v = b) /\
  (forall k a b, xp !! k = Some a -> fp !! k = Some b ->
     (forall a', a' ∈ xp -> (a' <=? a)%float = true) ->
     (a <? t)%float = true -> v = b).

(** Shape [n; w] with a buffer of matching length. *)
Definition table (n w : nat) (a : ndarray) : Prop :=
  shape a = [n; w] /\ length (data a) = n * w.

(** A flat profile table of two points and two pressure levels (1000 and
    900 hPa), and surface observations for the two points. *)
Definition example_frame : DataFrame :=
  mkDataFrame
    ["t_1000"; "t_900"; "dpt_1000"; "dpt_900"; "u_1000"; "u_900";
     "v_1000"; "v_900"; "hgt_above_sfc_1000"; "hgt_above_sfc_900"]
    (NDArray [2; 10] float64
       [10; 5; 8; 3; 1; 2; 3; 4; 100; 1100;
        20; 15; 18; 13; 11; 12; 13; 14; 200; 1200]%float).

Definition example_surface : gmap string (list float) :=
  list_to_map [("t2m", [11; 21]%float); ("d2m", [9; 19]%float);
               ("u10", [0; 1]%float); ("v10", [2; 3]%float)].

(** The spec's wording of the surface override: in the result of a call
    the column of the lowest target level of each core variable holds
    the surface observations. *)
Definition surface_at_lowest_level (df : DataFrame)
    (surface_data : gmap string (list float)) (pressure_levels : list float)
    (height_levels : HeightLevels) : Prop :=
  forall out ls j lowest,
    convert_and_interpolate df surface_data pressure_levels height_levels = ok out ->
    target_levels height_levels = ok ls ->
    ls !! j = Some lowest -> (forall l, l ∈ ls -> (lowest <= l)%Z) ->
    forall k sv vec i s,
      surface_variables !! k = Some sv -> surface_data !! sv = Some vec ->
      vec !! i = Some s ->
      get2 out i (k * length ls + j) = Some s.

(** Column [c] of a frame, and the columns carrying a label. *)
Definition column (df : DataFrame) (c : nat) : list float :=
  match shape (values df) with
  | [n; w] =>
      (fun i => fget (buf_row w (data (values df)) i) (Z.of_nat c)) <$> seq 0 n
  | _ => []
  end.

Definition labelled (df : DataFrame) (name : string) : list (list float) :=
  column df <$> positions name (columns df) 0.

(** The columns of [example_frame] for the level 1000 hPa alone. *)
Definition example_frame_1000 : DataFrame :=
  mkDataFrame
    ["t_1000"; "dpt_1000"; "u_1000"; "v_1000"; "hgt_above_sfc_1000"]
    (NDArray [2; 5] float64
       [10; 8; 1; 3; 100;
        20; 18; 11; 13; 200]%float).

(** The spec's wording of the level-count check: a table whose number of
    level columns differs from the number the configuration implies is
    refused. *)
Definition level_count_checked (df : DataFrame)
    (surface_data : gmap string (list float)) (pressure_levels : list float)
    (height_levels : HeightLevels) : Prop :=
  length (columns df) <> length profile_variables * length pressure_levels ->
  exists e, convert_and_interpolate df surface_data pressure_levels height_levels
            = raise e.

(** Every variable of the dataset has one size per dimension name, the
    size the dataset records for that dimension. *)
Definition wf_dataset (ds : Dataset) : Prop :=
  forall name da, ds_variables ds !! name = Some da ->
    Forall2 (fun d n => ds_dims ds !! d = Some n)
            (da_dims da) (shape (da_values da)).

(** A variable after [astype(d)]. *)
Definition retype (d : dtype) (da : DataArray) : DataArray :=
  mkDataArray (da_dims da) (astype d (da_values da)) (da_attrs da).

(** The two fields [grid_predictions] writes for class [i], read from the
    stacked table [stacked] (the probabilities and, last, the class
    index) of [k] columns over an [ny] by [nx] grid. *)
Definition ml_probability (stacked : ndarray) (ny nx k i : nat)
    (long_v : string) : DataArray :=
  mkDataArray ["y"; "x"]
    (astype float32
       (NDArray [ny; nx] (arr_dtype stacked)
          ((fun idx => fget (data stacked) (Z.of_nat (idx * k + i)))
             <$> seq 0 (ny * nx))))
    (description ("Machine Learned Probability of " +:+ long_v)).

Definition ml_categorical (stacked : ndarray) (ny nx k i : nat)
    (long_v : string) : DataArray :=
  mkDataArray ["y"; "x"]
    (astype uint8
       (where_eq
          (NDArray [ny; nx] (arr_dtype stacked)
             ((fun idx => fget (data stacked) (Z.of_nat (idx * k + (k - 1))))
                <$> seq 0 (ny * nx)))
          i))
    (description ("Machine Learned Categorical " +:+ long_v)).

Definition categorical_names : list string := ["crain"; "csnow"; "cicep"; "cfrzr"].

(** What the two narrowing loops of [grid_predictions] make of a variable
    the dataset already held. *)
Definition narrowed (ds : Dataset) (name : string) (da : DataArray) : DataArray :=
  let da1 :=
    if bool_decide (name ∈ categorical_names) && is_data_var ds name
    then retype uint8 da else da in
  if is_coord ds name && bool_decide (arr_dtype (da_values da1) = float64)
  then retype float32 da1 else da1.

(** The class-index column [grid_predictions] appends to the table. *)
Definition ptype_column (preds : ndarray) (n k : nat) : ndarray :=
  NDArray [n; 1] int64
    (nat2float <$> ((fun i => argmax_row (buf_row k (data preds) i)) <$> seq 0 n)).

Definition ml_names : list string :=
  ["ML_rain"; "ML_crain"; "ML_snow"; "ML_csnow";
   "ML_icep"; "ML_cicep"; "ML_frzr"; "ML_cfrzr"].

(** The test of the coordinate-narrowing loop. *)
Definition is_float64_coord (ds : Dataset) (v : string) : bool :=
  is_coord ds v &&
  match ds_variables ds !! v with
  | Some da => bool_decide (arr_dtype (da_values da) = float64)
  | None => false
  end.

(** The dataset after the loop over the four classes. *)
Definition with_ml_fields (stacked : ndarray) (ny nx k : nat) (ds : Dataset)
    : Dataset :=
  mkDataset (ds_dims ds)
    (<["ML_cfrzr" := ml_categorical stacked ny nx k 3 "freezing rain"]>
     (<["ML_frzr" := ml_probability stacked ny nx k 3 "freezing rain"]>
     (<["ML_cicep" := ml_categorical stacked ny nx k 2 "ice pellets"]>
     (<["ML_icep" := ml_probability stacked ny nx k 2 "ice pellets"]>
     (<["ML_csnow" := ml_categorical stacked ny nx k 1 "snow"]>
     (<["ML_snow" := ml_probability stacked ny nx k 1 "snow"]>
     (<["ML_crain" := ml_categorical stacked ny nx k 0 "rain"]>
     (<["ML_rain" := ml_probability stacked ny nx k 0 "rain"]>
        (ds_variables ds)))))))))
    (ds_coord_names ds) (ds_attrs ds).

(** The names [grid_predictions] drops from the dataset it returns. *)
Definition dropped_names (ds : Dataset) : list string :=
  filter (fun v => is_coord ds v = true)
         ["isobaricInhPa"; "heightAboveGround"; "surface"].

(** A labeled field on a 2 by 2 grid with two pressure levels: a surface
    variable, a categorical variable, a float64 coordinate, the level
    coordinate and one pressure-level variable. *)
Definition example_field : Dataset :=
  mkDataset
    (list_to_map [("y", 2); ("x", 2); ("isobaricInhPa", 2)])
    (list_to_map
       [("t2m", mkDataArray ["y"; "x"]
                  (NDArray [2; 2] float32 [1; 2; 3; 4]%float) ∅);
        ("crain", mkDataArray ["y"; "x"]
                    (NDArray [2; 2] float32 [1; 0; 0; 1]%float) ∅);
        ("latitude", mkDataArray ["y"; "x"]
                       (NDArray [2; 2] float64 [40.5; 40.5; 41.5; 41.5]%float) ∅);
        ("isobaricInhPa", mkDataArray ["isobaricInhPa"]
                            (NDArray [2] float64 [1000; 900]%float) ∅);
        ("t", mkDataArray ["isobaricInhPa"; "y"; "x"]
                (NDArray [2; 2; 2] float32 [1; 2; 3; 4; 5; 6; 7; 8]%float) ∅)])
    (list_to_set ["latitude"; "isobaricInhPa"])
    ∅.

(** Class probabilities for its four points. *)
Definition example_preds : ndarray :=
  NDArray [4; 4] float32
    [0.5; 0.5; 0; 0;
     0.125; 0.25; 0.5; 0.125;
     0; 0; 0; 1;
     0.25; 0.5; 0.25; 0]%float.

(** A 10 by 10 grid without variables, and a table of 99 rows. *)
Definition example_grid_10 : Dataset :=
  mkDataset (list_to_map [("y", 10); ("x", 10)]) ∅ ∅ ∅.

Definition example_preds_99 : ndarray :=
  NDArray [99; 4] float32 (replicate 396 0.25%float).

(** numpy's order for a maximum: a NaN counts as greatest. *)
Definition np_le (a b : float) : bool := is_nan b || (a <=? b)%float.

(** [j] is the first (lowest) position of [row] holding its maximum. *)
Definition first_max (row : list float) (j : nat) : Prop :=
  exists y, row !! j = Some y /\
    (forall i x, row !! i = Some x -> np_le x y = true) /\
    (forall i x, i < j -> row !! i = Some x -> np_le y x = false).

Definition level_coordinates : list string :=
  ["isobaricInhPa"; "heightAboveGround"; "surface"].

(** [a[k, i, j]] for a 3-D array, as an option. *)
Definition get3 (a : ndarray) (k i j : nat) : option float :=
  match shape a with
  | [l; n; w] =>
      if decide (k < l /\ i < n /\ j < w) then data a !! ((k * n + i) * w + j)
      else None
  | _ => None
  end.

(** The five profile variables on two pressure levels (1000 and 900 hPa)
    over a grid of one row and two columns; flattened, they give
    [example_frame]. *)
Definition example_profiles : Dataset :=
  let var (buf : list float) :=
    mkDataArray ["isobaricInhPa"; "y"; "x"] (NDArray [2; 1; 2] float64 buf) ∅ in
  mkDataset
    (list_to_map [("y", 1); ("x", 2); ("isobaricInhPa", 2)])
    (list_to_map
       [("isobaricInhPa", mkDataArray ["isobaricInhPa"]
                            (NDArray [2] float64 [1000; 900]%float) ∅);
        ("t", var [10; 20; 5; 15]%float);
        ("dpt", var [8; 18; 3; 13]%float);
        ("u", var [1; 11; 2; 12]%float);
        ("v", var [3; 13; 4; 14]%float);
        ("hgt_above_sfc", var [100; 200; 1100; 1200]%float)])
    (list_to_set ["isobaricInhPa"])
    ∅.

(* ================================================================== *)
(** ** [run_inference]: the forecast hours *)
(* ================================================================== *)

(** Python's [range(start, stop, step)], materialised; the length is
    CPython's: [1 + (stop - 1 - start) // step] for a positive step and
    [start < stop], the mirrored count for a negative step, else 0. *)
Definition py_range (start stop step : Z) : result (list Z) :=
  if decide (step = 0%Z) then raise (ValueError "range() arg 3 must not be zero")
  else
    let len :=
      if (0 <? step)%Z then
        if (start <? stop)%Z then (1 + (stop - 1 - start) / step)%Z else 0%Z
      else
        if (stop <? start)%Z then (1 + (start - 1 - stop) / (- step))%Z else 0%Z in
    ok ((fun i => (start + Z.of_nat i * step)%Z) <$> seq 0 (Z.to_nat len)).

(** The [forecast_range] dictionary of the configuration. *)
Record ForecastRange : Type := mkForecastRange {
  fr_start : Z;
  fr_end : Z;
  fr_interval : Z
}.

Definition forecast_hours (fr : ForecastRange) : result (list Z) :=
  py_range (fr_start fr) (fr_end fr + fr_interval fr) (fr_interval fr).

(** [itertools.product([config], [username], dates, forecast_hours)]: the
    (date, forecast hour) pairs [main] is run on, date by date. *)
Definition main_args {D} (dates : list D) (hours : list Z) : list (D * Z) :=
  flat_map (fun d => (fun h => (d, h)) <$> hours) dates.

(* ================================================================== *)
(** ** [data.load_ptype_data]: the files of each split *)
(* ================================================================== *)

(** [x[-16:-8]] on a file name: the eight characters before the last
    eight (fewer when the name is shorter than sixteen). *)
Definition date_of_filename (x : string) : string :=
  let n := String.length x in
  String.substring (n - 16) ((n - 8) - (n - 16)) x.

(** [f"{source}_rap_{date}.parquet"]. *)
Definition parquet_name (source date : string) : string :=
  source +:+ "_rap_" +:+ date +:+ ".parquet".

(** The order of [sorted] on [str]. *)
Definition str_le (s1 s2 : string) : Prop := String.leb s1 s2 = true.

#[global] Instance str_le_dec (s1 s2 : string) : Decision (str_le s1 s2).
Proof. unfold str_le. apply _. Defined.


(** [l.index(x)]. *)
Definition list_index (x : string) (l : list string) : result nat :=
  match list_find (fun y => y = x) l with
  | Some (i, _) => ok i
  | None => raise (ValueError ("'" +:+ x +:+ "' is not in list"))
  end.




(* ================================================================== *)
(** ** [data.reshape_data_1dCNN] *)
(* ================================================================== *)

(** Python's [var in x] on strings. *)
Definition str_contains (var x : string) : bool :=
  match String.index 0 var x with
  | Some _ => true
  | None => false
  end.

(** [arr[:, :, i] = vals] on a 3-D array, with numpy's broadcasting of a
    2-D [vals] and the conversion to the element type of [arr]. *)
Definition setitem_last (arr : ndarray) (i : nat) (vals : ndarray)
    : result ndarray :=
  match shape arr, shape vals with
  | [n; L; k], [n'; m] =>
      if decide (k <= i) then
        raise (IndexError "index is out of bounds for axis 2")
      else if decide ((n' = n \/ n' = 1) /\ (m = L \/ m = 1)) then
        ok (NDArray [n; L; k] (arr_dtype arr)
              (flat_map (fun r =>
                 flat_map (fun l =>
                   (fun c =>
                      if decide (c = i) then
                        cast (arr_dtype arr)
                          (fget (data vals)
                             (Z.of_nat ((if decide (n' = 1) then 0 else r) * m
                                        + (if decide (m = 1) then 0 else l))))
                      else fget (data arr) (Z.of_nat ((r * L + l) * k + c)))
                   <$> seq 0 k)
                 (seq 0 L))
              (seq 0 n)))
      else raise (ValueError "could not broadcast input array")
  | _, _ => raise (TypeError "expected a 3-D array and a 2-D value")
  end.

(** The loop over [enumerate(base_variables)], from index [i] on. *)
Fixpoint reshape_loop (df : DataFrame) (i : nat) (vars : list string)
    (arr : ndarray) : result ndarray :=
  match vars with
  | [] => ok arr
  | var :: vars' =>
      let profile_vars := List.filter (str_contains var) (columns df) in
      let* sel := select_columns df profile_vars in
      let* arr' := setitem_last arr i (astype float32 sel) in
      reshape_loop df (S i) vars' arr'
  end.

Definition reshape_data_1dCNN (df : DataFrame) (base_variables : list string)
    (n_levels : nat) : result ndarray :=
  match shape (values df) with
  | [n; _] =>
      let k := length base_variables in
      let arr :=
        astype float32
          (NDArray [n; n_levels; k] float64 (replicate (n * n_levels * k) 0%float)) in
      reshape_loop df 0 base_variables arr
  | _ => raise (TypeError "expected a 2-D array")
  end.

(** Positions of the columns whose label contains [var], counted from [i]. *)
Fixpoint containing (var : string) (cols : list string) (i : nat) : list nat :=
  match cols with
  | [] => []
  | c :: cols' =>
      if str_contains var c then i :: containing var cols' (S i)
      else containing var cols' (S i)
  end.

(** Shape [n; L; k] with a buffer of matching length. *)
Definition cube (n L k : nat) (a : ndarray) : Prop :=
  shape a = [n; L; k] /\ length (data a) = n * (L * k).

(** Soundings of two points: temperature and u-wind at two heights. *)
Definition example_soundings : DataFrame :=
  mkDataFrame ["TEMP_C_0_m"; "TEMP_C_250_m"; "UGRD_m/s_0_m"; "UGRD_m/s_250_m"]
    (NDArray [2; 4] float64 [1; 2; 3; 4; 5; 6; 7; 8]%float).

(** A field whose vertical dimension has no coordinate variable: one
    variable on two levels over a grid of one row and two columns. *)
Definition example_unlabelled : Dataset :=
  mkDataset
    (list_to_map [("isobaricInhPa", 2); ("y", 1); ("x", 2)])
    (list_to_map
       [("t", mkDataArray ["isobaricInhPa"; "y"; "x"]
                (NDArray [2; 1; 2] float32 [1; 2; 3; 4]%float) ∅)])
    ∅ ∅.

(* ================================================================== *)
(** ** Binary64 comparisons *)
(* ================================================================== *)

Module FloatOrder.

(** Order facts about binary64 comparisons, from their specification on
    [spec_float]. *)

Definition sf_not_nan (x : spec_float) : bool :=
  match x with S754_nan => false | _ => true end.

Lemma compare_cont_Eq (p q : positive) :
  PosDef.Pos.compare_cont Eq p q = (p ?= q)%positive.
Proof. reflexivity. Qed.

Ltac fold_pos_compare :=
  repeat match goal with
  | |- context [PosDef.Pos.compare_cont Eq ?a ?b] =>
      change (PosDef.Pos.compare_cont Eq a b) with (Pos.compare a b)
  end.

Ltac cmp_cases :=
  repeat match goal with
  | H : context [Z.compare ?a ?b] |- _ => destruct (Z.compare_spec a b); subst
  | |- context [Z.compare ?a ?b] => destruct (Z.compare_spec a b); subst
  | H : context [Pos.compare ?a ?b] |- _ => destruct (Pos.compare_spec a b); subst
  | |- context [Pos.compare ?a ?b] => destruct (Pos.compare_spec a b); subst
  end.

Lemma SFcompare_antisym (x y : spec_float) (c : comparison) :
  SFcompare x y = Some c -> SFcompare y x = Some (CompOpp c).
Proof.
  destruct x as [[]|[]| |[] m1 e1], y as [[]|[]| |[] m2 e2]; simpl;
    intros H; try discriminate; injection H as <-; try reflexivity;
    fold_pos_compare; f_equal; cmp_cases; simpl; try reflexivity; lia.
Qed.

Lemma SFcompare_total (x y : spec_float) :
  sf_not_nan x = true -> sf_not_nan y = true -> exists c, SFcompare x y = Some c.
Proof.
  destruct x as [[]|[]| |[] m1 e1], y as [[]|[]| |[] m2 e2]; simpl;
    intros; try discriminate; eauto.
Qed.

Definition le_cmp (c : comparison) : bool :=
  match c with Gt => false | _ => true end.

Lemma SFcompare_trans (x y z : spec_float) (c1 c2 : comparison) :
  SFcompare x y = Some c1 -> SFcompare y z = Some c2 ->
  le_cmp c1 = true -> le_cmp c2 = true ->
  exists c3, SFcompare x z = Some c3 /\ le_cmp c3 = true /\
             (c3 = Eq -> c1 = Eq /\ c2 = Eq).
Proof.
  destruct x as [[]|[]| |[] m1 e1], y as [[]|[]| |[] m2 e2], z as [[]|[]| |[] m3 e3];
    simpl; intros H1 H2; try discriminate;
    injection H1 as <-; injection H2 as <-; fold_pos_compare;
    intros L1 L2; try discriminate; eexists; (split; [reflexivity|]);
    cmp_cases; simpl in *; try discriminate; try lia; try (split; [reflexivity|]);
    try (intros; split; congruence); try (intros; discriminate).
Qed.


Lemma Prim2SF_not_nan (x : float) : sf_not_nan (Prim2SF x) = negb (is_nan x).
Proof.
  unfold Prim2SF. destruct (is_nan x); [reflexivity|].
  destruct (is_zero x); [reflexivity|].
  destruct (is_infinity x); [reflexivity|].
  destruct (Z.frexp x) as [r e].
  destruct (shr_fexp _ _ _ _ _) as [sh e'].
  destruct (shr_m sh); reflexivity.
Qed.

Definition fcmp (x y : float) : option comparison := SFcompare (Prim2SF x) (Prim2SF y).

Lemma ltb_fcmp x y : (x <? y)%float = true <-> fcmp x y = Some Lt.
Proof.
  rewrite ltb_spec. unfold SFltb, fcmp.
  destruct (SFcompare _ _) as [[]|]; split; congruence.
Qed.

Lemma leb_fcmp x y :
  (x <=? y)%float = true <-> exists c, fcmp x y = Some c /\ le_cmp c = true.
Proof.
  rewrite leb_spec. unfold SFleb, fcmp.
  destruct (SFcompare _ _) as [[]|]; split; try congruence; eauto;
    intros (c & [= <-] & Hc); try reflexivity; discriminate.
Qed.

Lemma fcmp_total x y :
  is_nan x = false -> is_nan y = false -> exists c, fcmp x y = Some c.
Proof.
  intros Hx Hy. apply SFcompare_total; rewrite Prim2SF_not_nan, ?Hx, ?Hy; reflexivity.
Qed.

Lemma ltb_leb_false x y : (x <? y)%float = true -> (y <=? x)%float = false.
Proof.
  rewrite ltb_fcmp. intros H. apply SFcompare_antisym in H.
  rewrite leb_spec. unfold SFleb. unfold fcmp in *. rewrite H. reflexivity.
Qed.

Lemma leb_ltb_false x y : (x <=? y)%float = true -> (y <? x)%float = false.
Proof.
  intros H. destruct (y <? x)%float eqn:E; [|reflexivity].
  apply ltb_leb_false in E. congruence.
Qed.

Lemma not_leb_ltb x y :
  is_nan x = false -> is_nan y = false ->
  (x <=? y)%float = false -> (y <? x)%float = true.
Proof.
  intros Hx Hy H. destruct (fcmp_total x y Hx Hy) as [c Hc].
  apply ltb_fcmp. unfold fcmp in *. rewrite (SFcompare_antisym _ _ _ Hc).
  rewrite leb_spec in H. unfold SFleb in H. rewrite Hc in H.
  destruct c; try discriminate. reflexivity.
Qed.

Lemma not_ltb_leb x y :
  is_nan x = false -> is_nan y = false ->
  (x <? y)%float = false -> (y <=? x)%float = true.
Proof.
  intros Hx Hy H. destruct (y <=? x)%float eqn:E; [reflexivity|].
  apply not_leb_ltb in E; congruence.
Qed.

Lemma ltb_leb x y : (x <? y)%float = true -> (x <=? y)%float = true.
Proof.
  rewrite ltb_fcmp, leb_fcmp. intros H. exists Lt. split; [assumption|reflexivity].
Qed.

Lemma leb_trans x y z :
  (x <=? y)%float = true -> (y <=? z)%float = true -> (x <=? z)%float = true.
Proof.
  rewrite !leb_fcmp. intros (c1 & H1 & L1) (c2 & H2 & L2).
  destruct (SFcompare_trans _ _ _ _ _ H1 H2 L1 L2) as (c3 & H3 & L3 & _). eauto.
Qed.

Lemma leb_ltb_trans x y z :
  (x <=? y)%float = true -> (y <? z)%float = true -> (x <? z)%float = true.
Proof.
  rewrite leb_fcmp, !ltb_fcmp. intros (c1 & H1 & L1) H2.
  destruct (SFcompare_trans _ _ _ _ _ H1 H2 L1 eq_refl) as (c3 & H3 & L3 & E).
  unfold fcmp. rewrite H3. destruct c3; try discriminate; [|reflexivity].
  destruct E; [reflexivity|discriminate].
Qed.

Lemma ltb_leb_trans x y z :
  (x <? y)%float = true -> (y <=? z)%float = true -> (x <? z)%float = true.
Proof.
  rewrite leb_fcmp, !ltb_fcmp. intros H1 (c2 & H2 & L2).
  destruct (SFcompare_trans _ _ _ _ _ H1 H2 eq_refl L2) as (c3 & H3 & L3 & E).
  unfold fcmp. rewrite H3. destruct c3; try discriminate; [|reflexivity].
  destruct E; [reflexivity|discriminate].
Qed.

Lemma fcmp_not_nan x y c : fcmp x y = Some c -> is_nan x = false /\ is_nan y = false.
Proof.
  unfold fcmp. intros H.
  pose proof (Prim2SF_not_nan x) as Hx. pose proof (Prim2SF_not_nan y) as Hy.
  destruct (is_nan x), (is_nan y); [exfalso..|split; reflexivity];
    destruct (Prim2SF x), (Prim2SF y); discriminate.
Qed.

Lemma leb_not_nan x y : (x <=? y)%float = true -> is_nan x = false /\ is_nan y = false.
Proof. rewrite leb_fcmp. intros (c & H & _). exact (fcmp_not_nan _ _ _ H). Qed.

Lemma ltb_not_nan x y : (x <? y)%float = true -> is_nan x = false /\ is_nan y = false.
Proof. intros H. apply leb_not_nan, ltb_leb, H. Qed.

Lemma leb_refl x : is_nan x = false -> (x <=? x)%float = true.
Proof.
  intros Hx. destruct (x <=? x)%float eqn:E; [reflexivity|].
  pose proof (not_leb_ltb _ _ Hx Hx E) as H.
  apply ltb_fcmp in H. pose proof (SFcompare_antisym _ _ _ H) as H'.
  unfold fcmp in H. simpl in H'. congruence.
Qed.

End FloatOrder.

Import FloatOrder.

(* ================================================================== *)
(** ** The target height levels *)
(* ================================================================== *)

Section TargetLevels.
Local Open Scope Z_scope.


Lemma ceil_div_bounds (a b : Z) :
  0 < b -> a <= b * ceil_div a b < a + b.
Proof.
  intros Hb. unfold ceil_div.
  pose proof (Z.div_mod (- a) b ltac:(lia)) as E.
  pose proof (Z.mod_pos_bound (- a) b Hb) as B.
  lia.
Qed.

Lemma np_arange_lookup (start stop step : Z) (ls : list Z) (i : nat) :
  np_arange start stop step = ok ls ->
  (i < length ls)%nat -> ls !! i = Some (start + Z.of_nat i * step).
Proof.
  unfold np_arange. case_decide; [discriminate|]. intros [= <-].
  rewrite length_fmap, length_seq. intros Hi.
  rewrite list_lookup_fmap, lookup_seq_lt by assumption. reflexivity.
Qed.

Lemma np_arange_length (start stop step : Z) (ls : list Z) :
  np_arange start stop step = ok ls ->
  length ls = Z.to_nat (ceil_div (stop - start) step).
Proof.
  unfold np_arange. case_decide; [discriminate|]. intros [= <-].
  rewrite length_fmap, length_seq. reflexivity.
Qed.

(** C2, counterexample: with low 0, high 3000 and interval 700 the
    sequence runs past [high] to 3500, so it is not the closed range
    [low, high] with both ends included. *)
Lemma target_levels_overshoot :
  target_levels (mkHeightLevels 0 3000 700)
    = ok [0; 700; 1400; 2100; 2800; 3500] /\
  ~ closed_range (mkHeightLevels 0 3000 700) [0; 700; 1400; 2100; 2800; 3500].
Proof.
  split; [reflexivity|]. intros (_ & H & _). discriminate H.
Qed.

(** C2, amended: for a positive interval and [low <= high] the sequence
    starts at [low], climbs by [interval] (so it is strictly increasing)
    and ends at the first value [top] not below [high]; [top] is [high]
    exactly when [interval] divides [high - low].  For low 0, high 3000,
    interval 250 it is the thirteen values 0, 250, ..., 3000. *)
Theorem target_levels_ascending :
  (forall hl : HeightLevels,
     0 < interval hl -> low hl <= high hl ->
     exists ls top,
       target_levels hl = ok ls /\
       head ls = Some (low hl) /\
       last ls = Some top /\
       high hl <= top < high hl + interval hl /\
       (top = high hl <-> (interval hl | high hl - low hl)) /\
       (forall i : nat, (i < length ls)%nat ->
          ls !! i = Some (low hl + Z.of_nat i * interval hl)) /\
       (forall i a b, ls !! i = Some a -> ls !! S i = Some b ->
          b = a + interval hl /\ a < b)) /\
  target_levels (mkHeightLevels 0 3000 250)
    = ok [0; 250; 500; 750; 1000; 1250; 1500; 1750; 2000; 2250; 2500; 2750; 3000].
Proof.
  split; [|reflexivity].
  intros [lo hi step]; simpl. intros Hstep Hle.
  unfold target_levels; simpl.
  destruct (np_arange lo (hi + step) step) as [e|ls] eqn:E.
  { unfold np_arange in E. case_decide; [lia|discriminate]. }
  pose proof (np_arange_length _ _ _ _ E) as Hlen.
  pose proof (fun i => np_arange_lookup _ _ _ _ i E) as Hget.
  pose proof (ceil_div_bounds (hi + step - lo) step Hstep) as Hc.
  set (c := ceil_div (hi + step - lo) step) in *.
  assert (1 <= c) as Hc1 by nia.
  assert (length ls = S (Z.to_nat (c - 1))) as Hlen' by lia.
  exists ls, (lo + (c - 1) * step).
  split; [reflexivity|].
  split.
  { rewrite head_lookup, (Hget 0%nat) by lia. f_equal. lia. }
  split.
  { rewrite last_lookup, Hlen'. simpl. rewrite Hget by lia. f_equal. lia. }
  split; [nia|].
  split.
  { split.
    - intros Htop. exists (c - 1). lia.
    - intros [k Hk]. assert (k = c - 1) by nia. subst k. lia. }
  split; [exact Hget|].
  intros i a b Ha Hb.
  pose proof (lookup_lt_Some _ _ _ Hb) as Hi.
  rewrite Hget in Ha, Hb by lia.
  injection Ha as <-. injection Hb as <-. lia.
Qed.

Lemma target_levels_ascending_witness :
  exists ls top,
    target_levels (mkHeightLevels 0 3000 250) = ok ls /\
    head ls = Some 0 /\ last ls = Some top /\ 3000 <= top < 3000 + 250.
Proof.
  destruct (proj1 target_levels_ascending (mkHeightLevels 0 3000 250))
    as (ls & top & H1 & H2 & H3 & H4 & _); simpl; [lia | lia |].
  exists ls, top. simpl in *. auto.
Defined.

End TargetLevels.

(* ================================================================== *)
(** ** Loops and buffers *)
(* ================================================================== *)

Section Buffers.

Lemma rbind_ok {A B} (m : result A) (k : A -> result B) (b : B) :
  rbind m k = ok b -> exists a, m = ok a /\ k a = ok b.
Proof. destruct m as [e|a]; simpl; [discriminate|]. eauto. Qed.

Lemma mapR_length {A B} (f : A -> result B) (xs : list A) (ys : list B) :
  mapR f xs = ok ys -> length ys = length xs.
Proof.
  revert ys. induction xs as [|x xs IH]; simpl; intros ys H.
  - injection H as <-. reflexivity.
  - apply rbind_ok in H as (y & _ & H). apply rbind_ok in H as (ys' & H' & H).
    injection H as <-. simpl. f_equal. auto.
Qed.

Lemma mapR_lookup {A B} (f : A -> result B) (xs : list A) (ys : list B) i x :
  mapR f xs = ok ys -> xs !! i = Some x ->
  exists y, ys !! i = Some y /\ f x = ok y.
Proof.
  revert ys i. induction xs as [|x0 xs IH]; simpl; intros ys i H Hx; [discriminate|].
  apply rbind_ok in H as (y & Hy & H). apply rbind_ok in H as (ys' & H' & H).
  injection H as <-. destruct i as [|i]; simpl in *.
  - injection Hx as ->. eauto.
  - eauto.
Qed.

Lemma mapR_ok {A B} (f : A -> result B) (xs : list A) :
  (forall x, x ∈ xs -> is_ok (f x)) -> is_ok (mapR f xs).
Proof.
  induction xs as [|x xs IH]; simpl; intros H; [eexists; reflexivity|].
  destruct (H x) as [y ->]; [constructor|]. simpl.
  destruct IH as [ys ->]; [intros; apply H; constructor; assumption|].
  eexists; reflexivity.
Qed.

Lemma mapR_raise {A B} (f : A -> result B) (xs : list A) i x e :
  xs !! i = Some x -> f x = raise e ->
  (forall j y, j < i -> xs !! j = Some y -> is_ok (f y)) ->
  mapR f xs = raise e.
Proof.
  revert i. induction xs as [|x0 xs IH]; intros i Hx He Hbefore; [discriminate|].
  destruct i as [|i]; simpl in *.
  - injection Hx as ->. rewrite He. reflexivity.
  - destruct (Hbefore 0 x0) as [y ->]; [lia|reflexivity|]. simpl.
    rewrite (IH i); [reflexivity|assumption..|].
    intros j y' Hj Hy'. apply (Hbefore (S j)); [lia|assumption].
Qed.

Lemma mapR_ext {A B} (f g : A -> result B) (xs : list A) :
  (forall x, x ∈ xs -> f x = g x) -> mapR f xs = mapR g xs.
Proof.
  induction xs as [|x xs IH]; simpl; intros H; [reflexivity|].
  rewrite H by constructor. destruct (g x); simpl; [reflexivity|].
  rewrite IH; [reflexivity|]. intros; apply H; constructor; assumption.
Qed.

(** Reading row [i] back from a buffer laid out row by row. *)
Lemma buf_row_flat_map (w n i : nat) (f : nat -> list float) :
  (forall k, k < n -> length (f k) = w) -> i < n ->
  buf_row w (flat_map f (seq 0 n)) i = f i.
Proof.
  intros Hlen Hi. unfold buf_row.
  assert (forall s m k, (forall j, s <= j < s + m -> length (f j) = w) -> k < m ->
            take w (drop (k * w) (flat_map f (seq s m))) = f (s + k)) as G.
  { intros s m. revert s. induction m as [|m IH]; intros s k Hl Hk; [lia|].
    simpl. destruct k as [|k]; simpl.
    - rewrite drop_0, Nat.add_0_r, take_app_le by (rewrite Hl; lia).
      apply take_ge. rewrite Hl; lia.
    - rewrite drop_app_ge by (rewrite Hl; lia).
      rewrite Hl by lia. replace (w + k * w - w) with (k * w) by lia.
      rewrite IH; [f_equal; lia| |lia]. intros j Hj. apply Hl. lia. }
  apply (G 0 n i); [intros; apply Hlen; lia|assumption].
Qed.

Lemma length_flat_map_const (w n : nat) (f : nat -> list float) :
  (forall k, k < n -> length (f k) = w) ->
  length (flat_map f (seq 0 n)) = n * w.
Proof.
  intros Hlen.
  assert (forall s m, (forall j, s <= j < s + m -> length (f j) = w) ->
            length (flat_map f (seq s m)) = m * w) as G.
  { intros s m. revert s. induction m as [|m IH]; intros s Hl; [reflexivity|].
    simpl. rewrite length_app, Hl, IH by (try intros; try apply Hl; lia). lia. }
  apply G. intros; apply Hlen; lia.
Qed.

Lemma buf_row_concat (w : nat) (rows : list (list float)) i r :
  Forall (fun r => length r = w) rows -> rows !! i = Some r ->
  buf_row w (concat rows) i = r.
Proof.
  revert i. induction rows as [|r0 rows IH]; intros i Hall Hr; [discriminate|].
  inversion Hall as [|? ? Hr0 Hall']; subst. unfold buf_row in *.
  destruct i as [|i]; simpl in *.
  - injection Hr as ->. rewrite ?drop_0, take_app_le by lia. apply take_ge. lia.
  - rewrite drop_app_ge by lia.
    replace (length r0 + i * length r0 - length r0) with (i * length r0) by lia.
    auto.
Qed.

Lemma length_concat_const (w : nat) (rows : list (list float)) :
  Forall (fun r => length r = w) rows -> length (concat rows) = length rows * w.
Proof.
  induction 1 as [|r rows Hr _ IH]; simpl; [reflexivity|].
  rewrite length_app, IH, Hr. reflexivity.
Qed.

Lemma buf_row_lookup (w : nat) (buf : list float) (i j : nat) :
  j < w -> buf_row w buf i !! j = buf !! (i * w + j).
Proof.
  intros Hj. unfold buf_row. rewrite lookup_take_lt, lookup_drop by assumption.
  reflexivity.
Qed.

Lemma length_buf_row (w : nat) (buf : list float) (i : nat) :
  (S i) * w <= length buf -> length (buf_row w buf i) = w.
Proof.
  intros H. unfold buf_row. rewrite length_take, length_drop. simpl in H. lia.
Qed.

Lemma fget_lookup (l : list float) (i : nat) (v : float) :
  l !! i = Some v -> fget l (Z.of_nat i) = v.
Proof.
  intros H. unfold fget. rewrite Nat2Z.id. rewrite nth_lookup, H. reflexivity.
Qed.

Lemma fget_lookup_Z (l : list float) (i : Z) :
  (0 <= i < Z.of_nat (length l))%Z -> l !! Z.to_nat i = Some (fget l i).
Proof.
  intros H. unfold fget. rewrite nth_lookup.
  destruct (l !! Z.to_nat i) eqn:E; [reflexivity|].
  apply lookup_ge_None in E. lia.
Qed.

End Buffers.

(* ================================================================== *)
(** ** The sample search of [np.interp] *)
(* ================================================================== *)

Section Search.

Variable arr : list float.
Variable key : float.
Hypothesis Harr : ascending arr.
Hypothesis Hkey : is_nan key = false.

Local Open Scope Z_scope.

(** [below i]: sample [i] is at most the key. *)
Local Abbreviation below i := ((fget arr i <=? key)%float) (only parsing).
Local Abbreviation len := (Z.of_nat (length arr)) (only parsing).

Lemma sample_not_nan (i : Z) : 0 <= i < len -> is_nan (fget arr i) = false.
Proof using Harr.
  intros Hi. pose proof (fget_lookup_Z arr i Hi) as E.
  exact (proj1 (leb_not_nan _ _ (Harr _ _ _ _ (Nat.le_refl _) E E))).
Qed.

Lemma below_mono (i j : Z) :
  0 <= i <= j -> j < len -> below j = true -> below i = true.
Proof using Harr.
  intros Hij Hj H.
  apply leb_trans with (fget arr j); [|exact H].
  apply (Harr (Z.to_nat i) (Z.to_nat j)); [lia|apply fget_lookup_Z; lia..].
Qed.

Lemma above_mono (i j : Z) :
  0 <= i <= j -> j < len -> below i = false -> below j = false.
Proof using Harr.
  intros Hij Hj H. destruct (below j) eqn:E; [|reflexivity].
  rewrite (below_mono i j Hij Hj E) in H. discriminate.
Qed.

Lemma key_ltb_sample (i : Z) :
  0 <= i < len -> (key <? fget arr i)%float = negb (below i).
Proof using Harr Hkey.
  intros Hi. pose proof (sample_not_nan i Hi) as Hn.
  destruct (below i) eqn:E; simpl.
  - apply leb_ltb_false, E.
  - apply not_leb_ltb; assumption.
Qed.

(** [r] is the last sample at most the key. *)
Definition bracketed (r : Z) : Prop :=
  (forall i, 0 <= i <= r -> below i = true) /\
  (forall i, r < i < len -> below i = false).

Lemma bracketed_at (r : Z) :
  0 <= r < len -> below r = true -> (r + 1 < len -> below (r + 1) = false) ->
  bracketed r.
Proof using Harr.
  intros Hr Hb Ha. split; intros i Hi.
  - apply (below_mono i r); [lia|lia|exact Hb].
  - apply (above_mono (r + 1) i); [lia|lia|apply Ha; lia].
Qed.

Lemma bracketed_unique (r r' : Z) :
  -1 <= r < len -> -1 <= r' < len -> bracketed r -> bracketed r' -> r = r'.
Proof.
  intros Hr Hr' [B1 A1] [B2 A2].
  destruct (Z.lt_trichotomy r r') as [L|[E|L]]; [|exact E|].
  - specialize (B2 r' ltac:(lia)). specialize (A1 r' ltac:(lia)). congruence.
  - specialize (B1 r ltac:(lia)). specialize (A2 r ltac:(lia)). congruence.
Qed.

Lemma bisect_bracketed (fuel : nat) (imin imax : Z) :
  0 <= imin <= imax -> imax <= len -> imax - imin < Z.of_nat fuel ->
  (forall i, 0 <= i < imin -> below i = true) ->
  (forall i, imax <= i < len -> below i = false) ->
  imin - 1 <= bisect fuel key arr imin imax < len /\
  bracketed (bisect fuel key arr imin imax).
Proof using Harr.
  revert imin imax. induction fuel as [|fuel IH]; intros imin imax Hr Hmax Hfuel Hlo Hhi.
  { lia. }
  simpl. destruct (imin <? imax) eqn:Hlt.
  - apply Z.ltb_lt in Hlt.
    rewrite Z.shiftr_div_pow2 by lia. change (2 ^ 1) with 2.
    pose proof (Z.div_mod (imax - imin) 2 ltac:(lia)) as Hd.
    pose proof (Z.mod_pos_bound (imax - imin) 2 ltac:(lia)) as Hm.
    set (imid := imin + (imax - imin) / 2) in *.
    destruct (below imid) eqn:Hb.
    + destruct (IH (imid + 1) imax) as [R B]; try lia; try assumption.
      { intros i Hi. apply (below_mono i imid); [lia|lia|exact Hb]. }
      split; [lia|exact B].
    + destruct (IH imin imid) as [R B]; try lia; try assumption.
      { intros i Hi. apply (above_mono imid i); [lia|lia|exact Hb]. }
      split; [lia|exact B].
  - apply Z.ltb_ge in Hlt. split; [lia|].
    split; intros i Hi; [apply Hlo|apply Hhi]; lia.
Qed.

Lemma linear_search_bracketed (rest : list float) (i : Z) :
  rest = drop (Z.to_nat i) arr -> 1 <= i <= len ->
  (forall k, 0 <= k < i -> below k = true) ->
  i - 1 <= linear_search key rest i < len /\
  bracketed (linear_search key rest i).
Proof using Harr.
  revert i. induction rest as [|a rest IH]; intros i Hrest Hi Hlo; simpl.
  - assert (i = len) as ->.
    { symmetry in Hrest. apply drop_nil_inv in Hrest. lia. }
    split; [lia|]. split; intros k Hk; [apply Hlo; lia|lia].
  - assert (arr !! Z.to_nat i = Some a) as Ha.
    { rewrite <- (Nat.add_0_r (Z.to_nat i)), <- lookup_drop, <- Hrest. reflexivity. }
    pose proof (lookup_lt_Some _ _ _ Ha) as Hlen.
    assert (fget arr i = a) as Hfa.
    { rewrite <- (fget_lookup _ _ _ Ha). f_equal. lia. }
    destruct (a <=? key)%float eqn:Hb.
    + destruct (IH (i + 1)) as [R B]; try lia.
      { replace (Z.to_nat (i + 1)) with (S (Z.to_nat i)) by lia.
        rewrite (drop_S _ _ _ Ha) in Hrest. congruence. }
      { intros k Hk. destruct (decide (k = i)) as [->|Hne].
        - rewrite Hfa. exact Hb.
        - apply Hlo. lia. }
      split; [lia|exact B].
    + split; [lia|]. split; intros k Hk; [apply Hlo; lia|].
      apply (above_mono i k); [lia|lia|]. rewrite Hfa. exact Hb.
Qed.

(** Whatever the guess, an in-range key lands on its bracket. *)
Lemma binary_search_bracketed (guess : Z) :
  1 <= len ->
  (fget arr (len - 1) <? key)%float = false ->
  (key <? fget arr 0)%float = false ->
  0 <= binary_search_with_guess key arr guess < len /\
  bracketed (binary_search_with_guess key arr guess).
Proof using Harr Hkey.
  intros Hlen Hhi Hlo.
  assert (below 0 = true) as H0.
  { rewrite key_ltb_sample in Hlo by lia. destruct (below 0); [reflexivity|discriminate]. }
  assert (forall r, -1 <= r < len -> bracketed r -> 0 <= r < len /\ bracketed r) as Fin.
  { intros r Hr B. split; [|exact B]. destruct (decide (r = -1)) as [->|]; [|lia].
    destruct B as [_ A]. rewrite (A 0) in H0 by lia. discriminate. }
  unfold binary_search_with_guess. rewrite Hhi, Hlo.
  destruct (len <=? 4) eqn:H4.
  { destruct (linear_search_bracketed (drop 1 arr) 1) as [R B];
      [reflexivity|lia|intros k Hk; replace k with 0 by lia; exact H0|].
    apply Fin; [lia|exact B]. }
  apply Z.leb_gt in H4.
  set (g1 := if len - 3 <? guess then len - 3 else guess).
  set (g := if g1 <? 1 then 1 else g1).
  assert (1 <= g <= len - 3) as Hg.
  { subst g g1. destruct (len - 3 <? guess) eqn:E1.
    - destruct (len - 3 <? 1) eqn:E2; lia.
    - destruct (guess <? 1) eqn:E2; lia. }
  clearbody g. clear g1.
  rewrite !key_ltb_sample by (unfold LIKELY_IN_CACHE_SIZE; lia).
  destruct (below g) eqn:Bg; simpl.
  - destruct (below (g + 1)) eqn:Bg1; simpl.
    + destruct (below (g + 2)) eqn:Bg2; simpl.
      * match goal with |- context [bisect _ _ _ _ ?m] => set (imax := m) end.
        assert (g + 2 < imax <= len /\ forall i, imax <= i < len -> below i = false)
          as [Hmax Habove].
        { subst imax. destruct (g <? len - LIKELY_IN_CACHE_SIZE - 1) eqn:E1; simpl.
          - unfold LIKELY_IN_CACHE_SIZE in *. apply Z.ltb_lt in E1.
            rewrite key_ltb_sample by lia.
            destruct (below (g + 8)) eqn:E2; simpl.
            + split; [lia|]. intros; lia.
            + split; [lia|]. intros i Hi. apply (above_mono (g + 8) i); [lia|lia|exact E2].
          - split; [lia|]. intros; lia. }
        clearbody imax.
        destruct (bisect_bracketed (length arr) (g + 2) imax) as [R B]; try lia.
        { intros i Hi. apply (below_mono i (g + 2)); [lia|lia|exact Bg2]. }
        { exact Habove. }
        apply Fin; [lia|exact B].
      * apply Fin; [lia|]. apply bracketed_at; [lia|exact Bg1|].
        intros _. replace (g + 1 + 1) with (g + 2) by lia. exact Bg2.
    + apply Fin; [lia|]. apply bracketed_at; [lia|exact Bg|intros _; exact Bg1].
  - destruct (below (g - 1)) eqn:Bg0; simpl.
    + apply Fin; [lia|]. apply bracketed_at; [lia|exact Bg0|].
      intros _. replace (g - 1 + 1) with g by lia. exact Bg.
    + match goal with |- context [bisect _ _ _ ?m _] => set (imin := m) end.
      assert (0 <= imin <= g - 1 /\ forall i, 0 <= i < imin -> below i = true)
        as [Hmin Hbelow].
      { subst imin. unfold LIKELY_IN_CACHE_SIZE.
        destruct (8 <? g) eqn:E1; simpl.
        - apply Z.ltb_lt in E1. destruct (below (g - 8)) eqn:E2; simpl.
          + split; [lia|]. intros i Hi. apply (below_mono i (g - 8)); [lia|lia|exact E2].
          + split; [lia|]. intros; lia.
        - split; [lia|]. intros; lia. }
      clearbody imin.
      destruct (bisect_bracketed (length arr) imin (g - 1)) as [R B]; try lia.
      { exact Hbelow. }
      { intros i Hi. apply (above_mono (g - 1) i); [lia|lia|exact Bg0]. }
      apply Fin; [lia|exact B].
Qed.

End Search.

(* ================================================================== *)
(** ** [np.interp] on an ascending profile *)
(* ================================================================== *)

Section Interp.

Variables dx dy : list float.
Hypothesis Hdx : ascending dx.

Local Open Scope Z_scope.

Lemma interp_at_above (j : Z) (t : float) :
  is_nan t = false ->
  (fget dx (Z.of_nat (length dx) - 1) <? t)%float = true ->
  (interp_at dx dy j t).1 = fget dy (Z.of_nat (length dx) - 1).
Proof using Type.
  intros Ht H. unfold interp_at, binary_search_with_guess. rewrite Ht, H. simpl.
  destruct (Z.eqb_spec (Z.of_nat (length dx)) (-1)); [lia|].
  rewrite Z.eqb_refl. reflexivity.
Qed.

Lemma interp_at_below (j : Z) (t : float) :
  (1 <= length dx)%nat -> is_nan t = false ->
  (t <? fget dx 0)%float = true ->
  (interp_at dx dy j t).1 = fget dy 0.
Proof using Hdx.
  intros Hn Ht H. unfold interp_at, binary_search_with_guess. rewrite Ht.
  assert ((fget dx (Z.of_nat (length dx) - 1) <? t)%float = false) as ->.
  { apply leb_ltb_false, ltb_leb, (ltb_leb_trans _ _ _ H).
    apply (Hdx 0%nat (Z.to_nat (Z.of_nat (length dx) - 1)));
      [lia|apply (fget_lookup_Z dx 0); lia|apply fget_lookup_Z; lia]. }
  rewrite H. reflexivity.
Qed.

(** The test against the first sample comes second, and needs no order. *)
Lemma interp_at_below_first (j : Z) (t : float) :
  is_nan t = false ->
  (fget dx (Z.of_nat (length dx) - 1) <? t)%float = false ->
  (t <? fget dx 0)%float = true ->
  (interp_at dx dy j t).1 = fget dy 0.
Proof using Type.
  intros Ht Hhi H. unfold interp_at, binary_search_with_guess.
  rewrite Ht, Hhi, H. reflexivity.
Qed.

Lemma interp_at_bracket (j : Z) (t : float) (k : nat) :
  is_nan t = false -> (S k < length dx)%nat ->
  (fget dx (Z.of_nat k) <=? t)%float = true ->
  (t <? fget dx (Z.of_nat k + 1))%float = true ->
  (interp_at dx dy j t).1 =
    if (fget dx (Z.of_nat k) =? t)%float then fget dy (Z.of_nat k)
    else interp_segment dx dy (Z.of_nat k) t.
Proof using Hdx.
  intros Ht Hk Hb Ha. unfold interp_at. rewrite Ht.
  assert ((fget dx (Z.of_nat (length dx) - 1) <? t)%float = false) as Hhi.
  { apply leb_ltb_false, ltb_leb, (ltb_leb_trans _ _ _ Ha).
    apply (Hdx (Z.to_nat (Z.of_nat k + 1)) (Z.to_nat (Z.of_nat (length dx) - 1)));
      [lia|apply fget_lookup_Z; lia..]. }
  assert ((t <? fget dx 0)%float = false) as Hlo.
  { apply leb_ltb_false. apply leb_trans with (fget dx (Z.of_nat k)); [|exact Hb].
    apply (Hdx 0%nat (Z.to_nat (Z.of_nat k)));
      [lia|apply (fget_lookup_Z dx 0); lia|apply fget_lookup_Z; lia]. }
  destruct (binary_search_bracketed dx t Hdx Ht j ltac:(lia) Hhi Hlo) as [R B].
  assert (bracketed dx t (Z.of_nat k)) as Bk.
  { apply bracketed_at; [exact Hdx|lia|exact Hb|].
    intros _. apply ltb_leb_false, Ha. }
  assert (binary_search_with_guess t dx j = Z.of_nat k) as ->
    by (apply (bracketed_unique dx t); [lia|lia|exact B|exact Bk]).
  simpl.
  destruct (Z.eqb_spec (Z.of_nat k) (-1)); [lia|].
  destruct (Z.eqb_spec (Z.of_nat k) (Z.of_nat (length dx))); [lia|].
  destruct (Z.eqb_spec (Z.of_nat k) (Z.of_nat (length dx) - 1)); [lia|].
  reflexivity.
Qed.

(** A target at or above the last abscissa takes the last ordinate. *)
Lemma interp_at_last (j : Z) (t : float) :
  (1 <= length dx)%nat -> is_nan t = false ->
  (fget dx (Z.of_nat (length dx) - 1) <=? t)%float = true ->
  (interp_at dx dy j t).1 = fget dy (Z.of_nat (length dx) - 1).
Proof using Hdx.
  intros Hn Ht Hle.
  destruct ((fget dx (Z.of_nat (length dx) - 1) <? t)%float) eqn:Hhi.
  { apply interp_at_above; assumption. }
  unfold interp_at. rewrite Ht.
  assert ((t <? fget dx 0)%float = false) as Hlo.
  { apply leb_ltb_false.
    apply leb_trans with (fget dx (Z.of_nat (length dx) - 1)); [|exact Hle].
    apply (Hdx 0%nat (Z.to_nat (Z.of_nat (length dx) - 1)));
      [lia|apply (fget_lookup_Z dx 0); lia|apply fget_lookup_Z; lia]. }
  destruct (binary_search_bracketed dx t Hdx Ht j ltac:(lia) Hhi Hlo) as [R B].
  assert (bracketed dx t (Z.of_nat (length dx) - 1)) as Bk.
  { apply bracketed_at; [exact Hdx|lia|exact Hle|lia]. }
  assert (binary_search_with_guess t dx j = Z.of_nat (length dx) - 1) as ->
    by (apply (bracketed_unique dx t); [lia|lia|exact B|exact Bk]).
  simpl.
  destruct (Z.eqb_spec (Z.of_nat (length dx) - 1) (-1)); [lia|].
  destruct (Z.eqb_spec (Z.of_nat (length dx) - 1) (Z.of_nat (length dx))); [lia|].
  rewrite Z.eqb_refl. reflexivity.
Qed.

Lemma interp_loop_length (j : Z) (xs : list float) :
  length (interp_loop dx dy j xs) = length xs.
Proof using Type.
  revert j. induction xs as [|t xs IH]; intros j; simpl; [reflexivity|].
  destruct (interp_at dx dy j t) as [v j']. simpl. f_equal. apply IH.
Qed.

Lemma interp_loop_lookup (j : Z) (xs : list float) (q : nat) (t : float) :
  xs !! q = Some t ->
  exists j', interp_loop dx dy j xs !! q = Some (interp_at dx dy j' t).1.
Proof using Type.
  revert j q. induction xs as [|t0 xs IH]; intros j q Hq; [discriminate|].
  simpl. destruct (interp_at dx dy j t0) as [v j'] eqn:E.
  destruct q as [|q]; simpl in *.
  - injection Hq as ->. exists j. rewrite E. reflexivity.
  - apply IH, Hq.
Qed.

End Interp.

Lemma np_interp_length (xs xp fp vs : list float) :
  np_interp xs xp fp = ok vs -> length vs = length xs.
Proof.
  unfold np_interp. repeat case_decide; try discriminate; intros [= <-].
  - apply length_fmap.
  - apply interp_loop_length.
Qed.

Lemma np_interp_ok (xs xp fp : list float) :
  length xp = length fp -> 0 < length xp ->
  exists vs, np_interp xs xp fp = ok vs.
Proof.
  intros Hlen Hpos. unfold np_interp.
  rewrite decide_False by lia. rewrite decide_False by lia.
  case_decide; eexists; reflexivity.
Qed.

Lemma np_interp_raise (xs xp fp : list float) :
  length xp <> length fp \/ length xp = 0 ->
  exists e, np_interp xs xp fp = raise e.
Proof.
  intros H. unfold np_interp.
  case_decide; [eexists; reflexivity|].
  rewrite decide_True by (destruct H; [assumption | lia]).
  eexists; reflexivity.
Qed.

Lemma last_fget (l : list float) (a : float) :
  last l = Some a -> fget l (Z.of_nat (length l) - 1) = a.
Proof.
  intros Ha. rewrite last_lookup in Ha.
  replace (Z.of_nat (length l) - 1)%Z with (Z.of_nat (Nat.pred (length l)))
    by (destruct l; [discriminate | simpl; lia]).
  apply fget_lookup. exact Ha.
Qed.

(** The value stored for one non-NaN target, whatever the profile. *)
Lemma np_interp_value (xs xp fp vs : list float) (q : nat) (t v : float) :
  np_interp xs xp fp = ok vs -> xs !! q = Some t -> vs !! q = Some v ->
  length xp = length fp /\ 0 < length xp /\
  (length xp = 1 /\ v = fget fp 0 \/
   1 < length xp /\ exists j, v = (interp_at xp fp j t).1).
Proof.
  intros E Hq Hv. unfold np_interp in E.
  case_decide; [discriminate|]. case_decide; [discriminate|].
  split; [lia|]. split; [lia|].
  case_decide; injection E as <-.
  - left. split; [assumption|].
    rewrite list_lookup_fmap, Hq in Hv. injection Hv as <-. reflexivity.
  - right. split; [lia|].
    destruct (interp_loop_lookup xp fp 0 xs q t Hq) as [j' Hj'].
    rewrite Hj' in Hv. injection Hv as <-. eauto.
Qed.

(** [np.interp] tests a target against the last and then the first
    sample, in whatever order the abscissae come. *)
Lemma np_interp_clamps (xs xp fp vs : list float) (q : nat) (t v : float) :
  np_interp xs xp fp = ok vs -> xs !! q = Some t -> vs !! q = Some v ->
  is_nan t = false ->
  (forall a b, last xp = Some a -> last fp = Some b ->
     (a <? t)%float = true -> v = b) /\
  (forall a a' b, xp !! 0 = Some a -> last xp = Some a' -> fp !! 0 = Some b ->
     (a' <? t)%float = false -> (t <? a)%float = true -> v = b).
Proof.
  intros E Hq Hv Ht.
  destruct (np_interp_value _ _ _ _ _ _ _ E Hq Hv) as (Hlen & Hpos & Hval).
  split.
  - intros a b Ha Hb Hlt.
    pose proof (last_fget xp a Ha) as Ea. pose proof (last_fget fp b Hb) as Eb.
    destruct Hval as [[H1 ->] | [H1 [j ->]]].
    + rewrite <- Eb, <- Hlen, H1. reflexivity.
    + rewrite (interp_at_above xp fp j t Ht) by (rewrite Ea; exact Hlt).
      rewrite Hlen. exact Eb.
  - intros a a' b Ha Ha' Hb Hhi Hlo.
    pose proof (fget_lookup fp 0 b Hb) as Eb. change (Z.of_nat 0) with 0%Z in Eb.
    destruct Hval as [[H1 ->] | [H1 [j ->]]]; [exact Eb|].
    rewrite (interp_at_below_first xp fp j t Ht); [exact Eb | |].
    + rewrite (last_fget xp a' Ha'). exact Hhi.
    + pose proof (fget_lookup xp 0 a Ha) as Ea.
      change (Z.of_nat 0) with 0%Z in Ea. rewrite Ea. exact Hlo.
Qed.

Lemma np_interp_ascending (xs xp fp vs : list float) (q : nat) (t v : float) :
  ascending xp ->
  np_interp xs xp fp = ok vs -> xs !! q = Some t -> vs !! q = Some v ->
  is_nan t = false ->
  (forall a b, xp !! 0 = Some a -> fp !! 0 = Some b ->
     (t <? a)%float = true -> v = b) /\
  (forall a b, last xp = Some a -> last fp = Some b ->
     (a <=? t)%float = true -> v = b) /\
  (forall k a a' b, xp !! k = Some a -> xp !! S k = Some a' ->
     fp !! k = Some b ->
     (a <=? t)%float = true -> (t <? a')%float = true ->
     v = if (a =? t)%float then b else interp_segment xp fp (Z.of_nat k) t).
Proof.
  intros Hasc E Hq Hv Ht.
  destruct (np_interp_value _ _ _ _ _ _ _ E Hq Hv) as (Hlen & Hpos & Hval).
  split; [|split].
  - intros a b Ha Hb Hlt.
    pose proof (fget_lookup fp 0 b Hb) as Eb. change (Z.of_nat 0) with 0%Z in Eb.
    destruct Hval as [[H1 ->] | [H1 [j ->]]]; [exact Eb|].
    rewrite (interp_at_below xp fp Hasc j t ltac:(lia) Ht); [exact Eb|].
    pose proof (fget_lookup xp 0 a Ha) as Ea.
    change (Z.of_nat 0) with 0%Z in Ea. rewrite Ea. exact Hlt.
  - intros a b Ha Hb Hle.
    pose proof (last_fget xp a Ha) as Ea. pose proof (last_fget fp b Hb) as Eb.
    destruct Hval as [[H1 ->] | [H1 [j ->]]].
    + rewrite <- Eb, <- Hlen, H1. reflexivity.
    + rewrite (interp_at_last xp fp Hasc j t ltac:(lia) Ht)
        by (rewrite Ea; exact Hle).
      rewrite Hlen. exact Eb.
  - intros k a a' b Ha Ha' Hb Hle Hlt.
    pose proof (lookup_lt_Some _ _ _ Ha') as Hk.
    destruct Hval as [[H1 _] | [H1 [j ->]]]; [lia|].
    rewrite (interp_at_bracket xp fp Hasc j t k Ht Hk).
    + rewrite (fget_lookup xp k a Ha), (fget_lookup fp k b Hb). reflexivity.
    + rewrite (fget_lookup xp k a Ha). exact Hle.
    + replace (Z.of_nat k + 1)%Z with (Z.of_nat (S k)) by lia.
      rewrite (fget_lookup xp (S k) a' Ha'). exact Hlt.
Qed.

(* ================================================================== *)
(** ** [interpolate]: one profile per row *)
(* ================================================================== *)

Lemma mapR_Forall {A B} (f : A -> result B) (P : B -> Prop) xs ys :
  (forall x y, f x = ok y -> P y) -> mapR f xs = ok ys -> Forall P ys.
Proof.
  intros HP. revert ys. induction xs as [|x xs IH]; simpl; intros ys H.
  - injection H as <-. constructor.
  - apply rbind_ok in H as (y & Hy & H). apply rbind_ok in H as (ys' & H' & H).
    injection H as <-. constructor; eauto.
Qed.

Lemma interp_row_length (xs xi yi : list float) :
  length (interp_row xs xi yi) = length xs.
Proof.
  unfold interp_row. destruct (np_interp xs xi yi) as [e|vs] eqn:E.
  - apply length_replicate.
  - exact (np_interp_length _ _ _ _ E).
Qed.

Lemma interpolate_row (x y out : ndarray) (hl : list Z) (i n w : nat) :
  shape x = [n; w] -> interpolate x y hl = ok out -> i < n ->
  shape out = [n; length hl] /\
  exists xi yi,
    getrow x i = ok xi /\ getrow y i = ok yi /\
    buf_row (length hl) (data out) i = interp_row (Z2float <$> hl) xi yi.
Proof.
  intros Hx H Hi. unfold interpolate in H. rewrite Hx in H.
  apply rbind_ok in H as (rows & Hrows & H). injection H as <-. simpl.
  split; [reflexivity|].
  destruct (mapR_lookup _ _ _ i i Hrows (lookup_seq_lt 0 n i Hi)) as (r & Hr & Hf).
  apply rbind_ok in Hf as (xi & Hxi & Hf). apply rbind_ok in Hf as (yi & Hyi & Hf).
  injection Hf as <-.
  exists xi, yi. split; [exact Hxi|]. split; [exact Hyi|].
  apply buf_row_concat; [|exact Hr].
  eapply mapR_Forall; [|exact Hrows]. simpl. intros k r' Hk.
  apply rbind_ok in Hk as (? & _ & Hk). apply rbind_ok in Hk as (? & _ & Hk).
  injection Hk as <-. rewrite interp_row_length, length_fmap. reflexivity.
Qed.

Lemma getrow_table (a : ndarray) (n w i : nat) :
  table n w a -> i < n ->
  getrow a i = ok (buf_row w (data a) i) /\ length (buf_row w (data a) i) = w.
Proof.
  intros Ht Hi. split.
  - unfold getrow. rewrite (proj1 Ht), decide_True by exact Hi. reflexivity.
  - unfold buf_row. rewrite length_take, length_drop, (proj2 Ht).
    assert (i * w + w <= n * w) by nia. lia.
Qed.

(** On two tables over the same points [interpolate] returns, whatever
    their widths: no exception of [np.interp] leaves the loop. *)
Lemma interpolate_total (x y : ndarray) (hl : list Z) (n w w' : nat) :
  table n w x -> table n w' y ->
  exists out,
    interpolate x y hl = ok out /\
    shape out = [n; length hl] /\ length (data out) = n * length hl /\
    arr_dtype out = float64 /\
    forall i, i < n ->
      buf_row (length hl) (data out) i
      = interp_row (Z2float <$> hl) (buf_row w (data x) i) (buf_row w' (data y) i).
Proof.
  intros Hx Hy.
  assert (is_ok (mapR (fun i =>
                         let* xi := getrow x i in
                         let* yi := getrow y i in
                         ok (interp_row (Z2float <$> hl) xi yi)) (seq 0 n)))
    as [rows Hrows].
  { apply mapR_ok. intros i Hi. apply elem_of_seq in Hi as [_ Hi]. simpl in Hi.
    rewrite (proj1 (getrow_table x n w i Hx Hi)). simpl.
    rewrite (proj1 (getrow_table y n w' i Hy Hi)). simpl.
    eexists; reflexivity. }
  assert (interpolate x y hl
          = ok (NDArray [n; length hl] float64 (concat rows))) as Hout.
  { unfold interpolate. rewrite (proj1 Hx), Hrows. reflexivity. }
  exists (NDArray [n; length hl] float64 (concat rows)).
  split; [exact Hout|]. split; [reflexivity|].
  assert (Forall (fun r => length r = length hl) rows) as Hall.
  { eapply mapR_Forall; [|exact Hrows]. simpl. intros k r' Hk.
    apply rbind_ok in Hk as (? & _ & Hk). apply rbind_ok in Hk as (? & _ & Hk).
    injection Hk as <-. rewrite interp_row_length, length_fmap. reflexivity. }
  split.
  { simpl. rewrite (length_concat_const _ _ Hall), (mapR_length _ _ _ Hrows), length_seq.
    reflexivity. }
  split; [reflexivity|].
  intros i Hi.
  destruct (interpolate_row x y _ hl i n w (proj1 Hx) Hout Hi)
    as (_ & xi & yi & Hxi & Hyi & Hrow).
  rewrite (proj1 (getrow_table x n w i Hx Hi)) in Hxi. injection Hxi as <-.
  rewrite (proj1 (getrow_table y n w' i Hy Hi)) in Hyi. injection Hyi as <-.
  exact Hrow.
Qed.

Lemma ascending_example : ascending [500; 1500; 2500]%float.
Proof.
  intros i j a b Hij Hi Hj.
  destruct i as [|[|[|i]]], j as [|[|[|j]]]; simpl in *;
    try discriminate; try lia;
    injection Hi as <-; injection Hj as <-; reflexivity.
Qed.

(** C1, counterexample: on the descending profile with abscissa
    [2500, 1500, 500] and ordinate [0, 5, 10] the query 0 lies below the
    least abscissa, whose ordinate is 10, yet the interpolator returns 0:
    it clamps to the ordinate of the first sample. *)
Lemma interpolate_descending_profile :
  interpolate (NDArray [1; 3] float64 [2500; 1500; 500]%float)
              (NDArray [1; 3] float64 [0; 5; 10]%float) [0%Z]
    = ok (NDArray [1; 1] float64 [0%float]) /\
  ~ clamps_to_range_ends [2500; 1500; 500]%float [0; 5; 10]%float
      (Z2float 0) 0%float.
Proof.
  split; [reflexivity|]. intros [H _].
  specialize (H 2 500%float 10%float eq_refl eq_refl).
  assert (0%float = 10%float) as E.
  { apply H; [|reflexivity]. intros a' Ha'.
    repeat (apply elem_of_cons in Ha' as [->|Ha']; [reflexivity|]).
    apply elem_of_nil in Ha'. destruct Ha'. }
  pose proof (f_equal (fun v => (v =? 0)%float) E) as E'. discriminate E'.
Qed.

(** C1, amended: on a table of heights and a table of values with the
    same, non-zero number of levels the interpolator returns, and every
    output row is [np.interp] of the target levels over that row's own
    abscissae and ordinates, so it depends on nothing else.  Whatever the
    order of the abscissae, a non-NaN target above the last abscissa takes
    the last ordinate and, failing that, a target below the first abscissa
    takes the first ordinate: the clamp is against the first and the last
    sample, not against the least and the greatest.  On a row whose
    abscissae are ascending a target below the first abscissa takes the
    first ordinate, a target at or above the last abscissa takes the last
    ordinate, and a target between two neighbouring abscissae takes the
    ordinate of the lower one when it equals it and the value of the line
    through the two samples otherwise.  For abscissa [500, 1500, 2500] and
    ordinate [10, 5, 0] the targets 0, 3000 and 1000 give 10, 0 and 7.5. *)
Theorem interpolate_ascending_profile :
  (forall (x y : ndarray) (hl : list Z) (n w : nat),
     table n w x -> table n w y -> 0 < w ->
     exists out,
       interpolate x y hl = ok out /\
       shape out = [n; length hl] /\ length (data out) = n * length hl /\
       forall i, i < n ->
         exists xi yi,
           getrow x i = ok xi /\ getrow y i = ok yi /\
           np_interp (Z2float <$> hl) xi yi
             = ok (buf_row (length hl) (data out) i)) /\
  (forall xs xp fp : list float,
     length xp = length fp -> 0 < length xp ->
     exists vs, np_interp xs xp fp = ok vs /\ length vs = length xs /\
       forall q t v, xs !! q = Some t -> vs !! q = Some v -> is_nan t = false ->
         (forall a b, last xp = Some a -> last fp = Some b ->
            (a <? t)%float = true -> v = b) /\
         (forall a a' b, xp !! 0 = Some a -> last xp = Some a' ->
            fp !! 0 = Some b ->
            (a' <? t)%float = false -> (t <? a)%float = true -> v = b) /\
         (ascending xp ->
          (forall a b, xp !! 0 = Some a -> fp !! 0 = Some b ->
             (t <? a)%float = true -> v = b) /\
          (forall a b, last xp = Some a -> last fp = Some b ->
             (a <=? t)%float = true -> v = b) /\
          (forall k a a' b, xp !! k = Some a -> xp !! S k = Some a' ->
             fp !! k = Some b ->
             (a <=? t)%float = true -> (t <? a')%float = true ->
             v = if (a =? t)%float then b
                 else interp_segment xp fp (Z.of_nat k) t))) /\
  interpolate (NDArray [1; 3] float64 [500; 1500; 2500]%float)
              (NDArray [1; 3] float64 [10; 5; 0]%float) [0; 3000; 1000; 2500]%Z
    = ok (NDArray [1; 4] float64 [10; 0; 7.5; 0]%float).
Proof.
  split; [|split; [|reflexivity]].
  - intros x y hl n w Hx Hy Hw.
    destruct (interpolate_total x y hl n w w Hx Hy)
      as (out & Hout & Hsh & Hlen & _ & Hrows).
    exists out. split; [exact Hout|]. split; [exact Hsh|]. split; [exact Hlen|].
    intros i Hi.
    destruct (getrow_table x n w i Hx Hi) as [Hgx Hlx].
    destruct (getrow_table y n w i Hy Hi) as [Hgy Hly].
    exists (buf_row w (data x) i), (buf_row w (data y) i).
    split; [exact Hgx|]. split; [exact Hgy|].
    rewrite (Hrows i Hi). unfold interp_row.
    destruct (np_interp_ok (Z2float <$> hl) (buf_row w (data x) i)
                (buf_row w (data y) i)) as [vs ->]; [lia | lia | reflexivity].
  - intros xs xp fp Hlen Hpos.
    destruct (np_interp_ok xs xp fp Hlen Hpos) as [vs E].
    exists vs. split; [exact E|]. split; [exact (np_interp_length _ _ _ _ E)|].
    intros q t v Hq Hv Ht.
    destruct (np_interp_clamps _ _ _ _ _ _ _ E Hq Hv Ht) as [Hlast Hfirst].
    split; [exact Hlast|]. split; [exact Hfirst|].
    intros Hasc. exact (np_interp_ascending _ _ _ _ _ _ _ Hasc E Hq Hv Ht).
Qed.

Lemma interpolate_ascending_profile_witness :
  exists vs,
    np_interp [0; 3000; 1000; 2500]%float [500; 1500; 2500]%float [10; 5; 0]%float
      = ok vs /\ vs !! 3 = Some 0%float.
Proof.
  destruct (proj1 (proj2 interpolate_ascending_profile)
              [0; 3000; 1000; 2500]%float [500; 1500; 2500]%float [10; 5; 0]%float
              eq_refl ltac:(simpl; lia))
    as (vs & H & Hl & Hv).
  exists vs. split; [exact H|].
  destruct vs as [|v0 [|v1 [|v2 [|v3 [|]]]]]; try discriminate Hl.
  destruct (Hv 3 2500%float v3 eq_refl eq_refl eq_refl) as (_ & _ & Hasc).
  destruct (Hasc ascending_example) as (_ & Hlast & _).
  rewrite (Hlast 2500%float 0%float eq_refl eq_refl eq_refl). reflexivity.
Defined.

(* ================================================================== *)
(** ** Shapes and cells of the array operations *)
(* ================================================================== *)

Section ArrayFacts.

Lemma table_ncols n w a : table n w a -> ncols a = w.
Proof. intros [H _]. unfold ncols. rewrite H. reflexivity. Qed.

Lemma table_row_length n w a i : table n w a -> i < n -> length (buf_row w (data a) i) = w.
Proof. intros [_ H] Hi. apply length_buf_row. rewrite H. nia. Qed.

Lemma table_get2 n w a i j :
  table n w a -> i < n -> j < w -> get2 a i j = data a !! (i * w + j).
Proof.
  intros [H _] Hi Hj. unfold get2. rewrite H.
  rewrite decide_True by (split; assumption). reflexivity.
Qed.

Lemma flat_map_lookup_uniform {A} (f : A -> list float) (l : list A) (w k j : nat) x :
  Forall (fun y => length (f y) = w) l -> l !! k = Some x -> j < w ->
  flat_map f l !! (k * w + j) = f x !! j.
Proof.
  revert k. induction l as [|y l IH]; intros k Hall Hk Hj; [discriminate|].
  inversion Hall as [|? ? Hy Hall']; subst. simpl.
  destruct k as [|k]; simpl in *.
  - injection Hk as ->. apply lookup_app_l. lia.
  - rewrite lookup_app_r by lia.
    replace (length (f y) + k * length (f y) + j - length (f y))
      with (k * length (f y) + j) by lia.
    apply IH; assumption.
Qed.

Lemma length_flat_map_uniform {A} (f : A -> list float) (l : list A) (w : nat) :
  Forall (fun y => length (f y) = w) l -> length (flat_map f l) = length l * w.
Proof.
  induction 1 as [|y l Hy _ IH]; simpl; [reflexivity|].
  rewrite length_app, Hy, IH. reflexivity.
Qed.

(** [np.concatenate(arrs, axis=1)] of tables of one width. *)
Lemma concatenate_axis1_uniform (arrs : list ndarray) (n w : nat) :
  arrs <> [] -> Forall (table n w) arrs ->
  exists out,
    concatenate_axis1 arrs = ok out /\ table n (length arrs * w) out /\
    forall i k j b, i < n -> arrs !! k = Some b -> j < w ->
      data out !! (i * (length arrs * w) + (k * w + j)) = data b !! (i * w + j).
Proof.
  intros Hne Hall. destruct arrs as [|a rest]; [congruence|].
  assert (forall b, b ∈ a :: rest -> table n w b) as Hin
    by (apply Forall_forall; exact Hall).
  destruct (Hin a ltac:(constructor)) as [Ha La].
  unfold concatenate_axis1. rewrite Ha.
  assert (forallb (same_rows n) rest = true) as ->.
  { apply forallb_forall. intros b Hb. unfold same_rows.
    destruct (Hin b) as [-> _]; [constructor; apply list_elem_of_In; exact Hb|].
    apply bool_decide_eq_true. reflexivity. }
  assert (foldr (fun b acc => ncols b + acc) 0 (a :: rest) = length (a :: rest) * w) as ->.
  { clear -Hin. induction (a :: rest) as [|b l IH]; [reflexivity|].
    cbn [foldr length]. rewrite IH by (intros; apply Hin; constructor; assumption).
    rewrite (table_ncols n w b) by (apply Hin; constructor). lia. }
  assert (forall i, i < n ->
            Forall (fun b => length (buf_row (ncols b) (data b) i) = w) (a :: rest)) as Hrow.
  { intros i Hi. apply Forall_forall. intros b Hb.
    rewrite (table_ncols n w b) by auto. apply (table_row_length n); auto. }
  eexists. split; [reflexivity|]. split.
  - split; [reflexivity|]. cbn [data].
    apply length_flat_map_const. intros i Hi.
    apply length_flat_map_uniform, Hrow, Hi.
  - intros i k j b Hi Hk Hj. cbn [data].
    pose proof (lookup_lt_Some _ _ _ Hk) as Hklt.
    rewrite <- (buf_row_lookup (length (a :: rest) * w)) by nia.
    rewrite buf_row_flat_map; [|intros; apply length_flat_map_uniform, Hrow; lia|exact Hi].
    rewrite (flat_map_lookup_uniform _ _ w k j b (Hrow i Hi) Hk Hj).
    rewrite (table_ncols n w b) by (apply Hin, list_elem_of_lookup; eauto).
    apply buf_row_lookup, Hj.
Qed.

Lemma positions_nil (name : string) (cols : list string) (i : nat) :
  positions name cols i = [] <-> name ∉ cols.
Proof.
  revert i. induction cols as [|c cols IH]; intros i; simpl.
  - split; [intros _; apply not_elem_of_nil|reflexivity].
  - rewrite not_elem_of_cons. case_decide.
    + split; [discriminate|]. intros [? _]. congruence.
    + rewrite IH. split; [intros; split; [congruence|assumption]|intros [_ ?]; assumption].
Qed.

Lemma select_columns_ok (df : DataFrame) (names : list string) (a : ndarray) :
  select_columns df names = ok a ->
  exists n w m,
    shape (values df) = [n; w] /\ shape a = [n; m] /\
    (length (data (values df)) = n * w -> length (data a) = n * m) /\
    forall name, name ∈ names -> name ∈ columns df.
Proof.
  unfold select_columns. intros H.
  apply rbind_ok in H as (idx & Hidx & H).
  destruct (shape (values df)) as [|n [|w [|? ?]]] eqn:Hs; try discriminate.
  injection H as <-. exists n, w, (length (concat idx)).
  split; [reflexivity|]. split; [reflexivity|]. split.
  - intros _. simpl. apply length_flat_map_const. intros. apply length_fmap.
  - intros name Hname. apply list_elem_of_lookup in Hname as [k Hk].
    destruct (mapR_lookup _ _ _ _ _ Hidx Hk) as (ps & _ & Hps).
    destruct (positions name (columns df) 0) eqn:E; [discriminate|].
    destruct (decide (name ∈ columns df)) as [|Hn]; [assumption|].
    apply (proj2 (positions_nil name (columns df) 0)) in Hn.
    rewrite Hn in E. discriminate.
Qed.

Lemma select_columns_missing (df : DataFrame) (names : list string) (name : string) :
  name ∈ names -> name ∉ columns df ->
  exists key, select_columns df names = raise (KeyError key) /\ key ∉ columns df.
Proof.
  intros Hin Hmiss. unfold select_columns.
  induction names as [|n0 names IH]; [apply elem_of_nil in Hin; destruct Hin|].
  simpl. destruct (positions n0 (columns df) 0) eqn:E.
  - exists n0. split; [reflexivity|]. apply positions_nil in E. exact E.
  - apply elem_of_cons in Hin as [->|Hin].
    { apply (proj2 (positions_nil n0 (columns df) 0)) in Hmiss.
      rewrite Hmiss in E. discriminate. }
    destruct (IH Hin) as (key & Hk & Hkey). exists key. split; [|exact Hkey].
    simpl. destruct (mapR _ names) as [e|idx] eqn:Em; simpl in *.
    + exact Hk.
    + destruct (shape (values df)) as [|? [|? [|? ?]]]; discriminate.
Qed.

Lemma interpolate_table (x y out : ndarray) (hl : list Z) (n w : nat) :
  shape x = [n; w] -> interpolate x y hl = ok out ->
  table n (length hl) out /\ arr_dtype out = float64.
Proof.
  intros Hx H. unfold interpolate in H. rewrite Hx in H.
  apply rbind_ok in H as (rows & Hrows & H). injection H as <-.
  split; [|reflexivity]. split; [reflexivity|]. simpl.
  rewrite (length_concat_const (length hl)).
  - rewrite (mapR_length _ _ _ Hrows), length_seq. reflexivity.
  - eapply mapR_Forall; [|exact Hrows]. simpl. intros k r' Hk.
    apply rbind_ok in Hk as (? & _ & Hk). apply rbind_ok in Hk as (? & _ & Hk).
    injection Hk as <-. rewrite interp_row_length, length_fmap. reflexivity.
Qed.

Lemma setitem_column0_ok (a a' : ndarray) (v : list float) (n w : nat) :
  table n w a -> setitem_column0 a v = ok a' ->
  0 < w /\ table n w a' /\ arr_dtype a' = arr_dtype a /\
  (forall i s, i < n -> v !! i = Some s ->
     data a' !! (i * w) = Some (cast (arr_dtype a) s)) /\
  (forall i j, i < n -> 0 < j < w -> data a' !! (i * w + j) = data a !! (i * w + j)).
Proof.
  intros [Hs Hl] H. unfold setitem_column0 in H. rewrite Hs in H.
  case_decide; [discriminate|]. case_decide as Hv; [|discriminate].
  injection H as <-. split; [lia|]. split.
  { split; [reflexivity|]. simpl. rewrite length_imap. exact Hl. }
  split; [reflexivity|]. split.
  - intros i s Hi Hvi. simpl. rewrite list_lookup_imap.
    destruct (data a !! (i * w)) eqn:E.
    2:{ apply lookup_ge_None in E. nia. }
    simpl. rewrite decide_True by (apply Nat.Div0.mod_mul).
    do 2 f_equal. case_decide as H1.
    + assert (i = 0) as -> by (apply lookup_lt_Some in Hvi; lia).
      exact (fget_lookup v 0 s Hvi).
    + rewrite Nat.div_mul by lia. exact (fget_lookup v i s Hvi).
  - intros i j Hi Hj. simpl. rewrite list_lookup_imap.
    destruct (data a !! (i * w + j)) eqn:E; [|reflexivity].
    simpl. rewrite decide_False; [reflexivity|].
    rewrite Nat.add_comm, Nat.Div0.mod_add, Nat.mod_small; lia.
Qed.

End ArrayFacts.

(* ================================================================== *)
(** ** [convert_and_interpolate] *)
(* ================================================================== *)

Lemma dict_get_mapR {V} (g : string -> result V) (vars : list string)
    (cols : list (string * V)) (var : string) :
  mapR (fun var => let* x := g var in ok (var, x)) vars = ok cols ->
  var ∈ vars -> exists x, dict_get cols var = ok x /\ g var = ok x.
Proof.
  revert cols. induction vars as [|v0 vars IH]; intros cols H Hin.
  { apply elem_of_nil in Hin. destruct Hin. }
  simpl in H. apply rbind_ok in H as ([v x] & Hx & H).
  apply rbind_ok in H as (cols' & Hcols' & H). injection H as <-.
  apply rbind_ok in Hx as (x' & Hg & [= <- <-]).
  simpl. case_decide as Hd.
  - subst. eauto.
  - apply elem_of_cons in Hin as [->|Hin]; [congruence|]. eauto.
Qed.

Section ConvertAndInterpolate.

Variable df : DataFrame.
Variable surface_data : gmap string (list float).
Variable pressure_levels : list float.
Variable height_levels : HeightLevels.

(** What a successful call went through. *)
Lemma convert_and_interpolate_inv (out : ndarray) :
  convert_and_interpolate df surface_data pressure_levels height_levels = ok out ->
  exists (ls : list Z) (n w : nat) (var_arrays : list ndarray),
    target_levels height_levels = ok ls /\
    shape (values df) = [n; w] /\
    concatenate_axis1 var_arrays = ok out /\
    length var_arrays = 4 /\
    0 < length ls /\
    (forall var p name, var ∈ profile_variables -> p ∈ pressure_levels ->
       level_column var p = ok name -> name ∈ columns df) /\
    forall k sv a, surface_variables !! k = Some sv -> var_arrays !! k = Some a ->
      table n (length ls) a /\
      exists vec, surface_data !! sv = Some vec /\
        forall i s, i < n -> vec !! i = Some s ->
          data a !! (i * length ls) = Some s.
Proof using Type.
  unfold convert_and_interpolate. intros H.
  apply rbind_ok in H as (ls & Hls & H).
  apply rbind_ok in H as (cols & Hcols & H).
  apply rbind_ok in H as (hgt_cols & Hhgt & H).
  apply rbind_ok in H as (height_data & Hhd & H).
  apply rbind_ok in H as (var_arrays & Hva & H).
  destruct (select_columns_ok _ _ _ Hhd) as (n & w & m & Hshape & Hsh & _ & Hhin).
  (* the column names of the five variables *)
  assert (forall var, var ∈ profile_variables ->
            exists names, dict_get cols var = ok names /\
                          mapR (level_column var) pressure_levels = ok names) as Hnames.
  { intros var Hvar. exact (dict_get_mapR _ _ _ _ Hcols Hvar). }
  (* the four loop passes *)
  assert (forall k v sv a, variables !! k = Some v -> surface_variables !! k = Some sv ->
            var_arrays !! k = Some a ->
            exists v_cols pld hid sfc,
              dict_get cols v = ok v_cols /\ select_columns df v_cols = ok pld /\
              interpolate height_data pld ls = ok hid /\
              surface_getitem surface_data sv = ok sfc /\
              setitem_column0 hid sfc = ok a) as Hloop.
  { intros k v sv a Hv Hsv Ha.
    assert (zip variables surface_variables !! k = Some (v, sv)) as Hz.
    { unfold variables, surface_variables in Hv, Hsv |- *.
      destruct k as [|[|[|[|k]]]]; simpl in Hv, Hsv |- *;
        rewrite ?lookup_nil in Hv; congruence. }
    destruct (mapR_lookup _ _ _ _ _ Hva Hz) as (a' & Ha' & Hbody).
    rewrite Ha in Ha'. injection Ha' as <-.
    apply rbind_ok in Hbody as (v_cols & ? & Hbody).
    apply rbind_ok in Hbody as (pld & ? & Hbody).
    apply rbind_ok in Hbody as (hid & ? & Hbody).
    apply rbind_ok in Hbody as (sfc & ? & Hbody).
    eauto 10. }
  pose proof (mapR_length _ _ _ Hva) as Hlen. cbn in Hlen.
  (* the loop ran at least once, so the level list is not empty *)
  assert (0 < length ls) as Hpos.
  { destruct (lookup_lt_is_Some_2 var_arrays 0 ltac:(lia)) as [a Ha].
    destruct (Hloop 0 "t" "t2m" a eq_refl eq_refl Ha)
      as (v_cols & pld & hid & sfc & _ & _ & Hi & _ & Hset).
    destruct (interpolate_table _ _ _ _ _ _ Hsh Hi) as [Ht _].
    destruct (setitem_column0_ok _ _ _ _ _ Ht Hset) as [? _]. assumption. }
  exists ls, n, w, var_arrays.
  split; [exact Hls|]. split; [exact Hshape|]. split; [exact H|].
  split; [exact Hlen|]. split; [exact Hpos|]. split.
  - intros var p name Hvar Hp Hname.
    destruct (Hnames var Hvar) as (names & Hget & Hmap).
    assert (name ∈ names) as Hin.
    { apply list_elem_of_lookup in Hp as [j Hj].
      destruct (mapR_lookup _ _ _ _ _ Hmap Hj) as (name' & Hn' & Hc).
      rewrite Hname in Hc. injection Hc as <-.
      apply list_elem_of_lookup. eauto. }
    unfold profile_variables in Hvar.
    apply elem_of_cons in Hvar as [->|Hvar].
    { destruct (lookup_lt_is_Some_2 var_arrays 0 ltac:(lia)) as [a Ha].
      destruct (Hloop 0 _ _ a eq_refl eq_refl Ha) as (vc & pld & ? & ? & Hd & Hsel & _).
      rewrite Hget in Hd. injection Hd as <-.
      destruct (select_columns_ok _ _ _ Hsel) as (? & ? & ? & _ & _ & _ & Hall). auto. }
    apply elem_of_cons in Hvar as [->|Hvar].
    { destruct (lookup_lt_is_Some_2 var_arrays 1 ltac:(lia)) as [a Ha].
      destruct (Hloop 1 _ _ a eq_refl eq_refl Ha) as (vc & pld & ? & ? & Hd & Hsel & _).
      rewrite Hget in Hd. injection Hd as <-.
      destruct (select_columns_ok _ _ _ Hsel) as (? & ? & ? & _ & _ & _ & Hall). auto. }
    apply elem_of_cons in Hvar as [->|Hvar].
    { destruct (lookup_lt_is_Some_2 var_arrays 2 ltac:(lia)) as [a Ha].
      destruct (Hloop 2 _ _ a eq_refl eq_refl Ha) as (vc & pld & ? & ? & Hd & Hsel & _).
      rewrite Hget in Hd. injection Hd as <-.
      destruct (select_columns_ok _ _ _ Hsel) as (? & ? & ? & _ & _ & _ & Hall). auto. }
    apply elem_of_cons in Hvar as [->|Hvar].
    { destruct (lookup_lt_is_Some_2 var_arrays 3 ltac:(lia)) as [a Ha].
      destruct (Hloop 3 _ _ a eq_refl eq_refl Ha) as (vc & pld & ? & ? & Hd & Hsel & _).
      rewrite Hget in Hd. injection Hd as <-.
      destruct (select_columns_ok _ _ _ Hsel) as (? & ? & ? & _ & _ & _ & Hall). auto. }
    apply elem_of_cons in Hvar as [->|Hvar].
    { rewrite Hget in Hhgt. injection Hhgt as <-. auto. }
    apply elem_of_nil in Hvar. destruct Hvar.
  - intros k sv a Hsv Ha.
    assert (exists v, variables !! k = Some v) as [v Hv].
    { unfold variables, surface_variables in Hsv |- *.
      destruct k as [|[|[|[|k]]]]; simpl in Hsv |- *;
        rewrite ?lookup_nil in Hsv; try discriminate; eauto. }
    destruct (Hloop k v sv a Hv Hsv Ha)
      as (v_cols & pld & hid & sfc & _ & _ & Hi & Hsfc & Hset).
    destruct (interpolate_table _ _ _ _ _ _ Hsh Hi) as [Ht Hdt].
    destruct (setitem_column0_ok _ _ _ _ _ Ht Hset) as (_ & Ht' & _ & Hcol & _).
    split; [exact Ht'|].
    unfold surface_getitem in Hsfc.
    destruct (surface_data !! sv) as [vec|] eqn:E; [|discriminate].
    injection Hsfc as <-. exists vec. split; [reflexivity|].
    intros i s Hi' Hs. rewrite (Hcol i s Hi' Hs), Hdt. reflexivity.
Qed.

End ConvertAndInterpolate.

(** C3, counterexample: the level configuration low 1000, high 0,
    interval -500 is accepted and gives the levels 1000, 500, 0.  The
    surface observations go to column 0, the level 1000, which is the
    highest; at the lowest level, 0, the first point keeps the
    interpolated temperature 10, not its 2-m temperature 11. *)
Lemma surface_override_descending_levels :
  target_levels (mkHeightLevels 1000 0 (-500)) = ok [1000; 500; 0]%Z /\
  (exists out,
     convert_and_interpolate example_frame example_surface [1000; 900]%float
       (mkHeightLevels 1000 0 (-500)) = ok out /\
     get2 out 0 0 = Some 11%float /\ get2 out 0 2 = Some 10%float) /\
  ~ surface_at_lowest_level example_frame example_surface [1000; 900]%float
      (mkHeightLevels 1000 0 (-500)).
Proof.
  assert (Hls : target_levels (mkHeightLevels 1000 0 (-500)) = ok [1000; 500; 0]%Z)
    by reflexivity.
  destruct (convert_and_interpolate example_frame example_surface
              [1000; 900]%float (mkHeightLevels 1000 0 (-500))) as [e|out] eqn:E;
    [vm_compute in E; discriminate E|].
  assert (H0 : get2 out 0 0 = Some 11%float)
    by (vm_compute in E; injection E as <-; reflexivity).
  assert (H2 : get2 out 0 2 = Some 10%float)
    by (vm_compute in E; injection E as <-; reflexivity).
  split; [exact Hls|]. split; [exists out; auto|].
  intros Hspec.
  assert (get2 out 0 (0 * length [1000; 500; 0]%Z + 2) = Some 11%float) as Hc.
  { apply (Hspec out [1000; 500; 0]%Z 2 0%Z E Hls eq_refl) with
      (sv := "t2m") (vec := [11; 21]%float); try reflexivity.
    intros l Hl.
    repeat (apply elem_of_cons in Hl as [->|Hl]; [lia|]).
    apply elem_of_nil in Hl. destruct Hl. }
  simpl in Hc. rewrite H2 in Hc.
  pose proof (f_equal (fun o => match o with
                                | Some v => (v =? 10)%float
                                | None => false
                                end) Hc) as Hb.
  discriminate Hb.
Qed.



(** C8, counterexample: a table carrying two pressure levels per variable
    is accepted under a configuration naming one level; the columns of the
    other level are not looked at. *)
Lemma convert_and_interpolate_extra_levels :
  ~ level_count_checked example_frame example_surface [1000%float]
      (mkHeightLevels 0 1000 500).
Proof.
  intros H. destruct H as [e He]; [simpl; lia|].
  vm_compute in He. discriminate He.
Qed.

Section ConfiguredColumns.

Lemma mapR_elem_of_inv {A B} (f : A -> result B) (xs : list A) (ys : list B) (y : B) :
  mapR f xs = ok ys -> y ∈ ys -> exists x, x ∈ xs /\ f x = ok y.
Proof.
  revert ys. induction xs as [|x xs IH]; simpl; intros ys H Hy.
  - injection H as <-. apply elem_of_nil in Hy. destruct Hy.
  - apply rbind_ok in H as (y0 & Hy0 & H). apply rbind_ok in H as (ys' & H' & H).
    injection H as <-. apply elem_of_cons in Hy as [->|Hy].
    + exists x. split; [left | exact Hy0].
    + destruct (IH _ H' Hy) as (x' & Hx' & Hf). exists x'. split; [right; exact Hx' | exact Hf].
Qed.

Lemma select_columns_first_missing (df : DataFrame) (pre post : list string)
    (name : string) :
  (forall x, x ∈ pre -> x ∈ columns df) -> name ∉ columns df ->
  select_columns df (pre ++ name :: post) = raise (KeyError name).
Proof.
  intros Hpre Hmiss. unfold select_columns.
  assert (mapR (fun name0 =>
                  match positions name0 (columns df) 0 with
                  | [] => raise (KeyError name0)
                  | ps => ok ps
                  end) (pre ++ name :: post) = raise (KeyError name)) as ->;
    [|reflexivity].
  induction pre as [|x pre IH]; simpl.
  - rewrite (proj2 (positions_nil name (columns df) 0) Hmiss). reflexivity.
  - destruct (positions x (columns df) 0) as [|c cs] eqn:E.
    { apply positions_nil in E. destruct E. apply Hpre. left. }
    simpl. rewrite IH; [reflexivity|]. intros y Hy. apply Hpre. right. exact Hy.
Qed.

Lemma flat_map_ext_elem_of {A B} (f g : A -> list B) (l : list A) :
  (forall a, a ∈ l -> f a = g a) -> flat_map f l = flat_map g l.
Proof.
  induction l as [|a l IH]; intros H; simpl; [reflexivity|].
  rewrite (H a) by left. rewrite IH; [reflexivity|].
  intros b Hb. apply H. right. exact Hb.
Qed.

Variables df df' : DataFrame.
Variables n w w' : nat.
Hypothesis Hs : shape (values df) = [n; w].
Hypothesis Hs' : shape (values df') = [n; w'].
Hypothesis Hdt : arr_dtype (values df) = arr_dtype (values df').

Lemma column_row (i c : nat) :
  i < n -> fget (buf_row w (data (values df)) i) (Z.of_nat c) = nth i (column df c) nan.
Proof using Hs.
  intros Hi. unfold column. rewrite Hs.
  symmetry. apply nth_lookup_Some with (d := nan).
  rewrite list_lookup_fmap, lookup_seq_lt by exact Hi. reflexivity.
Qed.

Lemma column_row' (i c : nat) :
  i < n -> fget (buf_row w' (data (values df')) i) (Z.of_nat c) = nth i (column df' c) nan.
Proof using Hs'.
  intros Hi. unfold column. rewrite Hs'.
  symmetry. apply nth_lookup_Some with (d := nan).
  rewrite list_lookup_fmap, lookup_seq_lt by exact Hi. reflexivity.
Qed.

Lemma select_columns_ext (names : list string) :
  (forall name, name ∈ names -> labelled df name = labelled df' name) ->
  select_columns df names = select_columns df' names.
Proof using All.
  intros Hlab. unfold select_columns. rewrite Hs, Hs', <- Hdt.
  set (F := fun (d : DataFrame) (name : string) =>
              match positions name (columns d) 0 with
              | [] => raise (KeyError name)
              | ps => ok ps
              end).
  change (rbind (mapR (F df) names) (fun idx =>
            ok (NDArray [n; length (concat idx)] (arr_dtype (values df))
                  (flat_map (fun i =>
                     (fun j => fget (buf_row w (data (values df)) i) (Z.of_nat j))
                       <$> concat idx) (seq 0 n))))
          = rbind (mapR (F df') names) (fun idx =>
            ok (NDArray [n; length (concat idx)] (arr_dtype (values df))
                  (flat_map (fun i =>
                     (fun j => fget (buf_row w' (data (values df')) i) (Z.of_nat j))
                       <$> concat idx) (seq 0 n))))).
  assert (Hcases :
            (exists e, mapR (F df) names = raise e /\ mapR (F df') names = raise e) \/
            (exists idx idx', mapR (F df) names = ok idx /\ mapR (F df') names = ok idx' /\
                              column df <$> concat idx = column df' <$> concat idx')).
  { induction names as [|name names IH]; simpl.
    - right. exists [], []. auto.
    - assert (Hl : labelled df name = labelled df' name) by (apply Hlab; left).
      unfold labelled in Hl.
      destruct (positions name (columns df) 0) as [|c cs] eqn:E,
               (positions name (columns df') 0) as [|c' cs'] eqn:E';
        try discriminate Hl.
      + left. exists (KeyError name). unfold F. rewrite E, E'. split; reflexivity.
      + assert (HF : F df name = ok (c :: cs)) by (unfold F; rewrite E; reflexivity).
        assert (HF' : F df' name = ok (c' :: cs')) by (unfold F; rewrite E'; reflexivity).
        rewrite HF, HF'.
        destruct IH as [(e & -> & ->) | (idx & idx' & -> & -> & Hc)].
        { intros x Hx. apply Hlab. right. exact Hx. }
        * left. exists e. split; reflexivity.
        * right. exists ((c :: cs) :: idx), ((c' :: cs') :: idx').
          split; [reflexivity|]. split; [reflexivity|].
          change (concat ((c :: cs) :: idx)) with ((c :: cs) ++ concat idx).
          change (concat ((c' :: cs') :: idx')) with ((c' :: cs') ++ concat idx').
          rewrite !fmap_app. rewrite Hc. f_equal. exact Hl. }
  destruct Hcases as [(e & -> & ->) | (idx & idx' & -> & -> & Hc)]; [reflexivity|].
  simpl. f_equal.
  assert (length (concat idx) = length (concat idx')) as Hlen.
  { rewrite <- (length_fmap (column df)), Hc, length_fmap. reflexivity. }
  rewrite Hlen. f_equal.
  apply flat_map_ext_elem_of. intros i Hi. apply elem_of_seq in Hi.
  transitivity ((fun col => nth i col nan) <$> (column df <$> concat idx)).
  { rewrite <- list_fmap_compose. apply list_fmap_ext. intros ? c _. simpl.
    apply column_row. lia. }
  rewrite Hc, <- list_fmap_compose. apply list_fmap_ext. intros ? c _. simpl.
  symmetry. apply column_row'. lia.
Qed.

End ConfiguredColumns.

Lemma convert_and_interpolate_ext (df df' : DataFrame)
    (surface_data : gmap string (list float)) (pressure_levels : list float)
    (height_levels : HeightLevels) (n w w' : nat) :
  shape (values df) = [n; w] -> shape (values df') = [n; w'] ->
  arr_dtype (values df) = arr_dtype (values df') ->
  (forall var p name, var ∈ profile_variables -> p ∈ pressure_levels ->
     level_column var p = ok name -> labelled df name = labelled df' name) ->
  convert_and_interpolate df surface_data pressure_levels height_levels
  = convert_and_interpolate df' surface_data pressure_levels height_levels.
Proof.
  intros Hs Hs' Hdt Hlab. unfold convert_and_interpolate.
  destruct (target_levels height_levels) as [e|ls]; [reflexivity|]. cbn [rbind].
  destruct (mapR _ profile_variables) as [e|cols] eqn:Ecols; [reflexivity|].
  cbn [rbind].
  assert (Hsel : forall var names, var ∈ profile_variables ->
            dict_get cols var = ok names ->
            select_columns df names = select_columns df' names).
  { intros var names Hvar Hget.
    destruct (dict_get_mapR _ _ _ var Ecols Hvar) as (names' & Hget' & Hmap).
    rewrite Hget in Hget'. injection Hget' as <-.
    apply (select_columns_ext df df' n w w' Hs Hs' Hdt).
    intros name Hname.
    destruct (mapR_elem_of_inv _ _ _ _ Hmap Hname) as (p & Hp & Hlc).
    exact (Hlab var p name Hvar Hp Hlc). }
  destruct (dict_get cols "hgt_above_sfc") as [e|hn] eqn:Eh; [reflexivity|].
  cbn [rbind].
  rewrite <- (Hsel "hgt_above_sfc" hn); [|unfold profile_variables; repeat constructor|exact Eh].
  destruct (select_columns df hn) as [e|height_data]; [reflexivity|]. cbn [rbind].
  f_equal. apply mapR_ext. intros [v sv] Hin.
  assert (v ∈ profile_variables) as Hv.
  { unfold variables, surface_variables in Hin. simpl in Hin.
    unfold profile_variables.
    repeat (apply elem_of_cons in Hin as [[= -> ->]|Hin]; [repeat constructor|]).
    apply elem_of_nil in Hin. destruct Hin. }
  destruct (dict_get cols v) as [e|vn] eqn:Ev; [reflexivity|]. cbn [rbind].
  rewrite (Hsel v vn Hv Ev). reflexivity.
Qed.

(** C8, amended: the interpolator does not compare level counts; it
    reads the frame only through the columns labelled
    [<variable>_<int(level)>] for the five profile variables and the
    configured pressure levels.  Two frames with the same number of rows
    and element type that carry the same columns under each of these
    labels give the same result, whatever other columns they hold.  The
    call fails whenever one of these labels is carried by no column; when
    the interval is not zero, every configured level converts to an
    integer and a height label is missing, the failure is the [KeyError]
    of the first missing [hgt_above_sfc] label in the order of the
    configured levels. *)
Theorem convert_and_interpolate_missing_column :
  (forall (df df' : DataFrame) (surface_data : gmap string (list float))
          (pressure_levels : list float) (height_levels : HeightLevels)
          (n w w' : nat),
     shape (values df) = [n; w] -> shape (values df') = [n; w'] ->
     arr_dtype (values df) = arr_dtype (values df') ->
     (forall var p name, var ∈ profile_variables -> p ∈ pressure_levels ->
        level_column var p = ok name -> labelled df name = labelled df' name) ->
     convert_and_interpolate df surface_data pressure_levels height_levels
     = convert_and_interpolate df' surface_data pressure_levels height_levels) /\
  (forall (df : DataFrame) (surface_data : gmap string (list float))
          (pressure_levels : list float) (height_levels : HeightLevels)
          (var name : string) (p : float),
     var ∈ profile_variables -> p ∈ pressure_levels ->
     level_column var p = ok name -> name ∉ columns df ->
     exists e, convert_and_interpolate df surface_data pressure_levels
                 height_levels = raise e) /\
  (forall (df : DataFrame) (surface_data : gmap string (list float))
          (pressure_levels : list float) (height_levels : HeightLevels)
          (j : nat) (name : string) (p : float),
     interval height_levels <> 0%Z ->
     (forall q, q ∈ pressure_levels -> is_ok (int_of_float q)) ->
     pressure_levels !! j = Some p ->
     level_column "hgt_above_sfc" p = ok name -> name ∉ columns df ->
     (forall j' q name', j' < j -> pressure_levels !! j' = Some q ->
        level_column "hgt_above_sfc" q = ok name' -> name' ∈ columns df) ->
     convert_and_interpolate df surface_data pressure_levels height_levels
     = raise (KeyError name)).
Proof.
  split; [exact convert_and_interpolate_ext|]. split.
  - intros df sd pls cfg var name p Hvar Hp Hname Hmiss.
    destruct (convert_and_interpolate df sd pls cfg) as [e|out] eqn:E; [eauto|].
    destruct (convert_and_interpolate_inv _ _ _ _ _ E)
      as (ls & n & w & arrs & _ & _ & _ & _ & _ & Hcols & _).
    destruct Hmiss. exact (Hcols var p name Hvar Hp Hname).
  - intros df sd pls cfg j name p Hstep Hfin Hp Hname Hmiss Hbefore.
    unfold convert_and_interpolate, target_levels, np_arange.
    rewrite decide_False by exact Hstep. cbn [rbind ok].
    assert (forall var, is_ok (mapR (level_column var) pls)) as Hok.
    { intros var. apply mapR_ok. intros q Hq. unfold level_column.
      destruct (Hfin q Hq) as [z ->]. eexists. reflexivity. }
    destruct (mapR _ profile_variables) as [e|cols] eqn:Ecols.
    { exfalso. assert (is_ok (mapR (fun var =>
                 let* names := mapR (level_column var) pls in ok (var, names))
                 profile_variables)) as [c Hc].
      { apply mapR_ok. intros var _. destruct (Hok var) as [names ->].
        eexists. reflexivity. }
      rewrite Hc in Ecols. discriminate. }
    cbn [rbind].
    destruct (dict_get_mapR _ _ _ "hgt_above_sfc" Ecols)
      as (names & -> & Hnames).
    { unfold profile_variables. repeat constructor. }
    cbn [rbind ok].
    destruct (mapR_lookup _ _ _ _ _ Hnames Hp) as (name' & Hn' & Hc).
    rewrite Hname in Hc. injection Hc as <-.
    rewrite <- (take_drop_middle names j name Hn').
    rewrite select_columns_first_missing; [reflexivity | | exact Hmiss].
    intros x Hx. apply list_elem_of_lookup in Hx as [j' Hj'].
    pose proof (lookup_lt_Some _ _ _ Hj') as Hlt. rewrite length_take in Hlt.
    rewrite lookup_take, decide_True in Hj' by lia.
    destruct (lookup_lt_is_Some_2 pls j') as [q Hq].
    { apply lookup_lt_Some in Hp. lia. }
    destruct (mapR_lookup _ _ _ _ _ Hnames Hq) as (x' & Hx' & Hlc).
    rewrite Hj' in Hx'. injection Hx' as <-.
    exact (Hbefore j' q x ltac:(lia) Hq Hlc).
Qed.

Lemma convert_and_interpolate_missing_column_witness :
  convert_and_interpolate example_frame example_surface [1000%float]
    (mkHeightLevels 0 1000 500)
  = convert_and_interpolate example_frame_1000 example_surface [1000%float]
      (mkHeightLevels 0 1000 500) /\
  convert_and_interpolate example_frame example_surface
    [1000; 900; 800]%float (mkHeightLevels 0 1000 500)
  = raise (KeyError "hgt_above_sfc_800").
Proof.
  split.
  - apply (proj1 convert_and_interpolate_missing_column example_frame
             example_frame_1000 example_surface [1000%float]
             (mkHeightLevels 0 1000 500) 2 10 5); try reflexivity.
    intros var p name Hvar Hp Hname.
    apply list_elem_of_singleton in Hp. subst p.
    unfold profile_variables in Hvar.
    repeat (apply elem_of_cons in Hvar as [->|Hvar];
            [vm_compute in Hname; injection Hname as <-; reflexivity|]).
    apply elem_of_nil in Hvar. destruct Hvar.
  - apply (proj2 (proj2 convert_and_interpolate_missing_column) example_frame
             example_surface [1000; 900; 800]%float (mkHeightLevels 0 1000 500)
             2 "hgt_above_sfc_800" 800%float).
    + simpl. lia.
    + intros q Hq.
      repeat (apply elem_of_cons in Hq as [->|Hq]; [eexists; reflexivity|]).
      apply elem_of_nil in Hq. destruct Hq.
    + reflexivity.
    + reflexivity.
    + intros H. unfold example_frame in H. cbn [columns] in H.
      repeat (apply elem_of_cons in H as [H|H]; [discriminate H|]).
      apply elem_of_nil in H. exact H.
    + intros j' q name' Hj' Hq Hname'.
      destruct j' as [|[|j']]; [| |lia]; simpl in Hq; injection Hq as <-;
        vm_compute in Hname'; injection Hname' as <-;
        unfold example_frame; cbn [columns]; repeat constructor.
Defined.

(* ================================================================== *)
(** ** Dataset assignments *)
(* ================================================================== *)

Section DatasetFacts.

Lemma merge_dims_wf (dims : gmap string nat) (names : list string) (sh : list nat) :
  Forall2 (fun d n => dims !! d = Some n) names sh ->
  merge_dims dims names sh = ok dims.
Proof.
  induction 1 as [|d n names sh Hd _ IH]; simpl; [reflexivity|].
  rewrite Hd, decide_True by reflexivity. exact IH.
Qed.

Lemma ds_setitem_run (name : string) (dims : list string) (a : ndarray)
    (attrs : gmap string string) (ds : Dataset) :
  Forall2 (fun d n => ds_dims ds !! d = Some n) dims (shape a) ->
  ds_setitem name dims a attrs ds =
    (ok tt, mkDataset (ds_dims ds)
              (<[name := mkDataArray dims a attrs]> (ds_variables ds))
              (ds_coord_names ds) (ds_attrs ds)).
Proof. intros H. unfold ds_setitem. rewrite (merge_dims_wf _ _ _ H). reflexivity. Qed.

Lemma ds_retype_run (name : string) (d : dtype) (ds : Dataset) (da : DataArray) :
  wf_dataset ds -> ds_variables ds !! name = Some da ->
  ds_retype name d ds =
    (ok tt, mkDataset (ds_dims ds)
              (<[name := retype d da]> (ds_variables ds))
              (ds_coord_names ds) (ds_attrs ds)).
Proof.
  intros Hwf Hda. unfold ds_retype. rewrite Hda.
  rewrite ds_setitem_run; [reflexivity|]. exact (Hwf name da Hda).
Qed.

Lemma wf_dataset_insert (ds : Dataset) (name : string) (da : DataArray) :
  wf_dataset ds ->
  Forall2 (fun d n => ds_dims ds !! d = Some n) (da_dims da) (shape (da_values da)) ->
  wf_dataset (mkDataset (ds_dims ds) (<[name := da]> (ds_variables ds))
                (ds_coord_names ds) (ds_attrs ds)).
Proof.
  intros Hwf Hda name' da'. simpl. rewrite lookup_insert.
  case_decide; [intros [= <-]; exact Hda|apply Hwf].
Qed.

End DatasetFacts.

(* ================================================================== *)
(** ** Loops over a dataset *)
(* ================================================================== *)

Section DatasetLoops.

Local Open Scope state_scope.

Lemma sbind_sget {A} (k : Dataset -> State A) (s : Dataset) :
  sbind sget k s = k s s.
Proof. reflexivity. Qed.

Lemma sbind_run_ok {A B} (m : State A) (k : A -> State B) (s s' : Dataset) (a : A) :
  m s = (ok a, s') -> sbind m k s = k a s'.
Proof. intros H. unfold sbind. rewrite H. reflexivity. Qed.

Lemma sbind_run_raise {A B} (m : State A) (k : A -> State B) (s s' : Dataset) (e : exn) :
  m s = (raise e, s') -> sbind m k s = (raise e, s').
Proof. intros H. unfold sbind. rewrite H. reflexivity. Qed.

Lemma sbind_slift {A B} (r : result A) (k : A -> State B) (s : Dataset) :
  sbind (slift r) k s = match r with inl e => (inl e, s) | inr a => k a s end.
Proof. reflexivity. Qed.

Lemma sfor_ext {A} (xs : list A) (f g : A -> State unit) (s : Dataset) :
  (forall x s, f x s = g x s) -> sfor xs f s = sfor xs g s.
Proof.
  intros H. revert s. induction xs as [|x xs IH]; intros s; [reflexivity|].
  cbn [sfor]. unfold sbind. rewrite H. destruct (g x s) as [[e|[]] s']; [reflexivity|].
  apply IH.
Qed.

(** A loop that retypes the variables a test selects. *)
Lemma sfor_retype (c : Dataset -> string -> bool) (d : dtype)
    (l : list string) (s : Dataset) :
  (forall s x, c s x = true -> is_Some (ds_variables s !! x)) ->
  (forall s s' x, ds_variables s !! x = ds_variables s' !! x ->
                  ds_coord_names s = ds_coord_names s' -> c s x = c s' x) ->
  NoDup l -> wf_dataset s ->
  exists s',
    sfor l (fun x => let! data := sget in
                     if c data x then ds_retype x d else sret tt) s
      = (ok tt, s') /\
    wf_dataset s' /\ ds_dims s' = ds_dims s /\
    ds_coord_names s' = ds_coord_names s /\ ds_attrs s' = ds_attrs s /\
    forall name,
      ds_variables s' !! name =
        (fun da => if bool_decide (name ∈ l) && c s name then retype d da else da)
          <$> ds_variables s !! name.
Proof.
  intros Hc Hext Hnd. revert s.
  induction Hnd as [|x l Hx Hnd IH]; intros s Hwf.
  { exists s. split; [reflexivity|]. repeat (split; [solve [auto]|]).
    intros name. destruct (ds_variables s !! name); reflexivity. }
  cbn [sfor].
  destruct (c s x) eqn:Hcx.
  - destruct (Hc s x Hcx) as [da Hda].
    set (s1 := mkDataset (ds_dims s) (<[x := retype d da]> (ds_variables s))
                 (ds_coord_names s) (ds_attrs s)).
    rewrite (sbind_run_ok _ _ s s1 tt)
      by (rewrite sbind_sget, Hcx; exact (ds_retype_run x d s da Hwf Hda)).
    destruct (IH s1) as (s' & Hrun & Hwf' & Hd & Hn & Ha & Hv).
    { apply wf_dataset_insert; [exact Hwf|]. exact (Hwf x da Hda). }
    exists s'. split; [exact Hrun|]. split; [exact Hwf'|].
    split; [exact Hd|]. split; [exact Hn|]. split; [exact Ha|].
    intros name. rewrite Hv. subst s1. cbn [ds_variables].
    rewrite lookup_insert. case_decide as Hname.
    + subst name. rewrite Hda. cbn.
      rewrite (bool_decide_eq_false_2 _ Hx). cbn.
      rewrite bool_decide_eq_true_2 by constructor. rewrite Hcx. reflexivity.
    + destruct (ds_variables s !! name) as [da'|] eqn:E; [|reflexivity]. cbn.
      assert (c (mkDataset (ds_dims s) (<[x := retype d da]> (ds_variables s))
                   (ds_coord_names s) (ds_attrs s)) name = c s name) as ->.
      { apply Hext; [cbn; rewrite lookup_insert_ne by exact Hname|]; reflexivity. }
      destruct (decide (name ∈ l)) as [Hin|Hin].
      * rewrite !bool_decide_eq_true_2 by (try constructor; assumption). reflexivity.
      * rewrite !bool_decide_eq_false_2; [reflexivity| |exact Hin].
        rewrite elem_of_cons. intros [?|?]; congruence.
  - rewrite (sbind_run_ok _ _ s s tt) by (rewrite sbind_sget, Hcx; reflexivity).
    destruct (IH s Hwf) as (s' & Hrun & Hwf' & Hd & Hn & Ha & Hv).
    exists s'. split; [exact Hrun|]. split; [exact Hwf'|].
    split; [exact Hd|]. split; [exact Hn|]. split; [exact Ha|].
    intros name. rewrite Hv.
    destruct (ds_variables s !! name) as [da'|] eqn:E; [|reflexivity]. cbn.
    destruct (decide (name = x)) as [->|Hname].
    + rewrite (bool_decide_eq_false_2 _ Hx). rewrite Hcx, !Bool.andb_false_r. reflexivity.
    + destruct (decide (name ∈ l)) as [Hin|Hin].
      * rewrite !bool_decide_eq_true_2 by (try constructor; assumption). reflexivity.
      * rewrite !bool_decide_eq_false_2; [reflexivity| |exact Hin].
        rewrite elem_of_cons. intros [?|?]; congruence.
Qed.

End DatasetLoops.

(* ================================================================== *)
(** ** [grid_predictions]: the stacked table and one class pass *)
(* ================================================================== *)

Section Stacking.

Local Open Scope state_scope.

Lemma sbind_slift_ok {A B} (a : A) (k : A -> State B) (s : Dataset) :
  sbind (slift (ok a)) k s = k a s.
Proof. reflexivity. Qed.

Lemma sbind_slift_raise {A B} (e : exn) (k : A -> State B) (s : Dataset) :
  sbind (slift (raise e)) k s = (raise e, s).
Proof. reflexivity. Qed.

Lemma argmax_axis1_table (preds : ndarray) (n k : nat) :
  table n k preds -> 0 < k ->
  argmax_axis1 preds
    = ok ((fun i => argmax_row (buf_row k (data preds) i)) <$> seq 0 n).
Proof.
  intros [Hs _] Hk. unfold argmax_axis1. rewrite Hs.
  rewrite decide_False by lia. reflexivity.
Qed.

Lemma ptype_column_table (preds : ndarray) (n k : nat) :
  table n 1 (ptype_column preds n k).
Proof.
  split; [reflexivity|]. unfold ptype_column. cbn [data].
  rewrite !length_fmap, length_seq. lia.
Qed.

(** [np.hstack([a, b])] of two tables with the same number of rows. *)
Lemma hstack_table (a b : ndarray) (n wa wb : nat) :
  table n wa a -> table n wb b ->
  exists out,
    concatenate_axis1 [a; b] = ok out /\ table n (wa + wb) out /\
    arr_dtype out = promote (arr_dtype b) (arr_dtype a) /\
    forall i, i < n ->
      buf_row (wa + wb) (data out) i
        = buf_row wa (data a) i ++ buf_row wb (data b) i.
Proof.
  intros Ha Hb. pose proof Ha as [Sa La]. pose proof Hb as [Sb Lb].
  unfold concatenate_axis1. rewrite Sa. cbn [forallb same_rows]. unfold same_rows.
  rewrite Sb, bool_decide_eq_true_2 by reflexivity. cbn [andb foldr].
  rewrite (table_ncols _ _ _ Ha), (table_ncols _ _ _ Hb), Nat.add_0_r.
  assert (forall i, i < n ->
            length (flat_map (fun b0 => buf_row (ncols b0) (data b0) i) [a; b])
              = wa + wb) as Hrow.
  { intros i Hi. cbn [flat_map]. rewrite app_nil_r, length_app.
    rewrite (table_ncols _ _ _ Ha), (table_ncols _ _ _ Hb).
    rewrite (table_row_length n wa a i Ha Hi), (table_row_length n wb b i Hb Hi).
    reflexivity. }
  eexists. split; [reflexivity|]. split; [|split; [reflexivity|]].
  - split; [reflexivity|]. cbn [data]. apply length_flat_map_const. exact Hrow.
  - intros i Hi. cbn [data]. rewrite buf_row_flat_map by assumption.
    cbn [flat_map]. rewrite app_nil_r.
    rewrite (table_ncols _ _ _ Ha), (table_ncols _ _ _ Hb). reflexivity.
Qed.

Lemma slice_last_axis_ok (a : ndarray) (r c k i : nat) :
  shape a = [r; c; k] -> i < k ->
  slice_last_axis a i
    = ok (NDArray [r; c] (arr_dtype a)
            ((fun idx => fget (data a) (Z.of_nat (idx * k + i))) <$> seq 0 (r * c))).
Proof.
  intros Hs Hi. unfold slice_last_axis. rewrite Hs, decide_True by exact Hi.
  reflexivity.
Qed.

Lemma ds_set_attrs_inserted (name : string) (da : DataArray)
    (attrs : gmap string string) (dims : gmap string nat)
    (vars : gmap string DataArray) (cn : gset string) (at0 : gmap string string) :
  ds_set_attrs name attrs (mkDataset dims (<[name := da]> vars) cn at0)
    = (ok tt, mkDataset dims
                (<[name := mkDataArray (da_dims da) (da_values da) attrs]> vars)
                cn at0).
Proof.
  unfold ds_set_attrs. cbn [ds_variables ds_dims ds_coord_names ds_attrs].
  rewrite lookup_insert_eq, insert_insert_eq. reflexivity.
Qed.

(** One pass of the loop over the four classes. *)
Lemma class_pass_run (stacked reshaped : ndarray) (ny nx k i : nat)
    (long_v v : string) (s : Dataset) :
  shape reshaped = [ny; nx; k] -> data reshaped = data stacked ->
  arr_dtype reshaped = arr_dtype stacked -> ncols stacked = k ->
  i < k -> ds_dims s !! "y" = Some ny -> ds_dims s !! "x" = Some nx ->
  (let! prob := slift (slice_last_axis reshaped i) in
   ds_setitem ("ML_" +:+ v) ["y"; "x"] (astype float32 prob) ∅ ;;
   ds_set_attrs ("ML_" +:+ v)
     (description ("Machine Learned Probability of " +:+ long_v)) ;;
   let! last := slift (slice_last_axis reshaped (ncols stacked - 1)) in
   ds_setitem ("ML_c" +:+ v) ["y"; "x"] (astype uint8 (where_eq last i)) ∅ ;;
   ds_set_attrs ("ML_c" +:+ v)
     (description ("Machine Learned Categorical " +:+ long_v))) s
  = (ok tt,
     mkDataset (ds_dims s)
       (<["ML_c" +:+ v := ml_categorical stacked ny nx k i long_v]>
          (<["ML_" +:+ v := ml_probability stacked ny nx k i long_v]>
             (ds_variables s)))
       (ds_coord_names s) (ds_attrs s)).
Proof.
  intros Hs Hd Ht Hk Hi Hy Hx. destruct s as [dims vars cn at0].
  cbn [ds_dims ds_variables ds_coord_names ds_attrs] in *.
  assert (forall D : gmap string nat, D = dims ->
            Forall2 (fun d n => D !! d = Some n) ["y"; "x"] [ny; nx]) as Hdims.
  { intros D ->. repeat constructor; assumption. }
  rewrite (slice_last_axis_ok _ _ _ _ _ Hs Hi), sbind_slift_ok.
  erewrite sbind_run_ok; [|apply ds_setitem_run; apply Hdims; reflexivity].
  cbn [ds_dims ds_variables ds_coord_names ds_attrs].
  erewrite sbind_run_ok; [|apply ds_set_attrs_inserted].
  rewrite (slice_last_axis_ok _ _ _ _ _ Hs) by lia. rewrite sbind_slift_ok.
  erewrite sbind_run_ok; [|apply ds_setitem_run; apply Hdims; reflexivity].
  cbn [ds_dims ds_variables ds_coord_names ds_attrs].
  rewrite ds_set_attrs_inserted.
  unfold ml_categorical, ml_probability. rewrite Hd, Ht, Hk. reflexivity.
Qed.

End Stacking.

(* ================================================================== *)
(** ** [grid_predictions]: a run on a matching grid *)
(* ================================================================== *)

Section GridRun.

Local Open Scope state_scope.

Lemma with_ml_fields_lookup_other (stacked : ndarray) (ny nx k : nat)
    (ds : Dataset) (name : string) :
  name ∉ ml_names ->
  ds_variables (with_ml_fields stacked ny nx k ds) !! name
    = ds_variables ds !! name.
Proof.
  intros Hn. unfold ml_names in Hn. rewrite !not_elem_of_cons in Hn.
  unfold with_ml_fields. cbn [ds_variables].
  rewrite !lookup_insert_ne by (intros <-; tauto). reflexivity.
Qed.

Lemma with_ml_fields_lookup (stacked : ndarray) (ny nx k : nat) (ds : Dataset)
    (i : nat) (long_v v : string) :
  class_names !! i = Some (long_v, v) ->
  ds_variables (with_ml_fields stacked ny nx k ds) !! ("ML_" +:+ v)
    = Some (ml_probability stacked ny nx k i long_v) /\
  ds_variables (with_ml_fields stacked ny nx k ds) !! ("ML_c" +:+ v)
    = Some (ml_categorical stacked ny nx k i long_v).
Proof.
  intros Hi. unfold with_ml_fields. cbn [ds_variables].
  destruct i as [|[|[|[|i]]]]; cbn in Hi; try discriminate;
    injection Hi as <- <-; cbv [String.append];
    split; repeat (first [apply lookup_insert_eq | rewrite lookup_insert_ne by discriminate]).
Qed.

Lemma wf_with_ml_fields (stacked : ndarray) (ny nx k : nat) (ds : Dataset) :
  wf_dataset ds -> ds_dims ds !! "y" = Some ny -> ds_dims ds !! "x" = Some nx ->
  wf_dataset (with_ml_fields stacked ny nx k ds).
Proof.
  intros Hwf Hy Hx name da. unfold with_ml_fields. cbn [ds_variables ds_dims].
  rewrite !lookup_insert.
  repeat (case_decide; [intros [= <-]; cbn; repeat constructor; assumption|]).
  apply Hwf.
Qed.

Lemma class_loop_run (stacked reshaped : ndarray) (ny nx k : nat) (ds : Dataset) :
  shape reshaped = [ny; nx; k] -> data reshaped = data stacked ->
  arr_dtype reshaped = arr_dtype stacked -> ncols stacked = k ->
  4 <= k -> ds_dims ds !! "y" = Some ny -> ds_dims ds !! "x" = Some nx ->
  sfor (imap pair class_names) (fun '(i, (long_v, v)) =>
    let! prob := slift (slice_last_axis reshaped i) in
    ds_setitem ("ML_" +:+ v) ["y"; "x"] (astype float32 prob) ∅ ;;
    ds_set_attrs ("ML_" +:+ v)
      (description ("Machine Learned Probability of " +:+ long_v)) ;;
    let! last := slift (slice_last_axis reshaped (ncols stacked - 1)) in
    ds_setitem ("ML_c" +:+ v) ["y"; "x"] (astype uint8 (where_eq last i)) ∅ ;;
    ds_set_attrs ("ML_c" +:+ v)
      (description ("Machine Learned Categorical " +:+ long_v))) ds
  = (ok tt, with_ml_fields stacked ny nx k ds).
Proof.
  intros Hs Hd Ht Hk H4 Hy Hx.
  change (imap pair class_names)
    with [(0, ("rain", "rain")); (1, ("snow", "snow"));
          (2, ("ice pellets", "icep")); (3, ("freezing rain", "frzr"))].
  cbn [sfor].
  erewrite sbind_run_ok;
    [|apply (class_pass_run stacked reshaped ny nx k 0 "rain" "rain");
      [exact Hs|exact Hd|exact Ht|exact Hk|lia|exact Hy|exact Hx]].
  erewrite sbind_run_ok;
    [|apply (class_pass_run stacked reshaped ny nx k 1 "snow" "snow");
      [exact Hs|exact Hd|exact Ht|exact Hk|lia|exact Hy|exact Hx]].
  cbn [ds_dims ds_variables ds_coord_names ds_attrs].
  erewrite sbind_run_ok;
    [|apply (class_pass_run stacked reshaped ny nx k 2 "ice pellets" "icep");
      [exact Hs|exact Hd|exact Ht|exact Hk|lia|exact Hy|exact Hx]].
  cbn [ds_dims ds_variables ds_coord_names ds_attrs].
  erewrite sbind_run_ok;
    [|apply (class_pass_run stacked reshaped ny nx k 3 "freezing rain" "frzr");
      [exact Hs|exact Hd|exact Ht|exact Hk|lia|exact Hy|exact Hx]].
  reflexivity.
Qed.

End GridRun.

Section GridPredictions.

Local Open Scope state_scope.

Variables (preds : ndarray) (ds : Dataset) (ny nx k : nat).
Hypothesis Hpreds : table (ny * nx) k preds.
Hypothesis Hk : 3 <= k.
Hypothesis Hwf : wf_dataset ds.
Hypothesis Hy : ds_dims ds !! "y" = Some ny.
Hypothesis Hx : ds_dims ds !! "x" = Some nx.
Hypothesis Hsy : ds_size ds "y" = ok ny.
Hypothesis Hsx : ds_size ds "x" = ok nx.

Lemma is_data_var_spec (s : Dataset) (x : string) :
  is_data_var s x = true -> is_Some (ds_variables s !! x).
Proof. unfold is_data_var. intros H%bool_decide_eq_true. tauto. Qed.

Lemma is_float64_coord_spec (s : Dataset) (x : string) :
  is_float64_coord s x = true -> is_Some (ds_variables s !! x).
Proof.
  unfold is_float64_coord, is_coord.
  intros [H%bool_decide_eq_true _]%andb_prop. tauto.
Qed.

Lemma categorical_names_NoDup : NoDup categorical_names.
Proof.
  unfold categorical_names.
  repeat (apply NoDup_cons_2;
          [rewrite ?not_elem_of_cons; repeat split;
           try discriminate; apply not_elem_of_nil|]).
  apply NoDup_nil_2.
Qed.

(** The run of [grid_predictions] on a table that matches the grid. *)
Lemma grid_predictions_run :
  exists stacked s3,
    concatenate_axis1 [preds; ptype_column preds (ny * nx) k] = ok stacked /\
    table (ny * nx) (k + 1) stacked /\
    (forall n, n < ny * nx ->
       buf_row (k + 1) (data stacked) n
         = buf_row k (data preds) n
           ++ [nat2float (argmax_row (buf_row k (data preds) n))]) /\
    grid_predictions preds ds = (ok (ds_drop s3 (dropped_names s3)), s3) /\
    ds_dims s3 = ds_dims ds /\ ds_coord_names s3 = ds_coord_names ds /\
    ds_attrs s3 = ds_attrs ds /\
    (forall i long_v v, class_names !! i = Some (long_v, v) ->
       ds_variables s3 !! ("ML_" +:+ v)
         = Some (ml_probability stacked ny nx (k + 1) i long_v) /\
       ds_variables s3 !! ("ML_c" +:+ v)
         = Some (ml_categorical stacked ny nx (k + 1) i long_v)) /\
    (forall name, name ∉ ml_names ->
       ds_variables s3 !! name = narrowed ds name <$> ds_variables ds !! name).
Proof using All.
  destruct (hstack_table preds (ptype_column preds (ny * nx) k) (ny * nx) k 1
              Hpreds (ptype_column_table _ _ _))
    as (stacked & Hcat & Hst & Hdt & Hrows).
  set (s1 := with_ml_fields stacked ny nx (k + 1) ds).
  assert (wf_dataset s1) as Hwf1 by (apply wf_with_ml_fields; assumption).
  assert (forall name, name ∉ ml_names ->
            ds_variables s1 !! name = ds_variables ds !! name) as Hs1
    by (intros; apply with_ml_fields_lookup_other; assumption).
  destruct (sfor_retype is_data_var uint8 categorical_names s1)
    as (s2 & Hrun2 & Hwf2 & Hd2 & Hn2 & Ha2 & Hv2).
  { exact is_data_var_spec. }
  { intros s s' x Hl Hc. unfold is_data_var. rewrite Hl, Hc. reflexivity. }
  { exact categorical_names_NoDup. }
  { exact Hwf1. }
  destruct (sfor_retype is_float64_coord float32 (elements (ds_coord_names s2)) s2)
    as (s3 & Hrun3 & Hwf3 & Hd3 & Hn3 & Ha3 & Hv3).
  { exact is_float64_coord_spec. }
  { intros s s' x Hl Hc. unfold is_float64_coord, is_coord. rewrite Hl, Hc. reflexivity. }
  { apply NoDup_elements. }
  { exact Hwf2. }
  exists stacked, s3. split; [exact Hcat|]. split; [exact Hst|]. split.
  { intros n Hn. rewrite (Hrows n Hn). f_equal.
    unfold ptype_column, buf_row. cbn [data].
    rewrite Nat.mul_1_r, <- list_fmap_compose.
    apply list_eq. intros j. rewrite lookup_take, lookup_drop.
    destruct j as [|j]; cbn.
    - rewrite Nat.add_0_r, list_lookup_fmap, lookup_seq_lt by exact Hn. reflexivity.
    - reflexivity. }
  split.
  { unfold grid_predictions.
    rewrite (argmax_axis1_table preds (ny * nx) k Hpreds ltac:(lia)), sbind_slift_ok.
    cbv beta zeta. rewrite length_fmap, length_seq.
    change (NDArray [ny * nx; 1] int64 _) with (ptype_column preds (ny * nx) k).
    rewrite Hcat, sbind_slift_ok, sbind_sget. cbv beta.
    rewrite Hsy, sbind_slift_ok. cbv beta. rewrite Hsx, sbind_slift_ok. cbv beta.
    pose proof Hst as [Hss Hsl].
    unfold np_reshape.
    rewrite decide_True
      by (rewrite (table_ncols _ _ _ Hst); cbn [size_of foldr]; rewrite Hsl; lia).
    rewrite sbind_slift_ok. cbv beta.
    erewrite sbind_run_ok;
      [|apply (class_loop_run stacked _ ny nx (k + 1) ds);
        [cbn [shape]; rewrite (table_ncols _ _ _ Hst); reflexivity
        |reflexivity|reflexivity|exact (table_ncols _ _ _ Hst)
        |lia|exact Hy|exact Hx]].
    fold s1.
    erewrite sbind_run_ok; [|exact Hrun2].
    rewrite sbind_sget.
    erewrite sbind_run_ok.
    2:{ erewrite sfor_ext; [exact Hrun3|].
        intros v s. rewrite !sbind_sget. unfold is_float64_coord.
        destruct (is_coord s v); [|reflexivity]. cbn [andb].
        destruct (ds_variables s !! v) as [da|]; [|reflexivity].
        case_decide.
        - rewrite bool_decide_eq_true_2 by assumption. reflexivity.
        - rewrite bool_decide_eq_false_2 by assumption. reflexivity. }
    rewrite sbind_sget. reflexivity. }
  split; [rewrite Hd3, Hd2; reflexivity|].
  split; [rewrite Hn3, Hn2; reflexivity|].
  split; [rewrite Ha3, Ha2; reflexivity|].
  split.
  - intros i long_v v Hi.
    destruct (with_ml_fields_lookup stacked ny nx (k + 1) ds i long_v v Hi)
      as [Hp Hc].
    fold s1 in Hp, Hc.
    assert (forall name da, ds_variables s1 !! name = Some da ->
              name ∉ categorical_names ->
              arr_dtype (da_values da) <> float64 ->
              ds_variables s3 !! name = Some da) as Hkeep.
    { intros name da Hda Hnc Hnt.
      rewrite Hv3, Hv2, Hda. cbn.
      rewrite (bool_decide_eq_false_2 _ Hnc). cbn.
      unfold is_float64_coord at 1. rewrite Hv2, Hda. cbn.
      rewrite (bool_decide_eq_false_2 _ Hnc). cbn.
      rewrite (bool_decide_eq_false_2 _ Hnt), !Bool.andb_false_r. reflexivity. }
    assert (forall name, name ∈ ml_names -> name ∉ categorical_names) as Hml.
    { intros name Hin Hc'. unfold ml_names, categorical_names in *.
      repeat (apply elem_of_cons in Hin as [->|Hin];
              [repeat (apply elem_of_cons in Hc' as [Hc'|Hc']; [discriminate Hc'|]);
               apply elem_of_nil in Hc'; exact Hc'|]).
      apply elem_of_nil in Hin. exact Hin. }
    assert ("ML_" +:+ v ∈ ml_names /\ "ML_c" +:+ v ∈ ml_names) as [M1 M2].
    { destruct i as [|[|[|[|i]]]]; cbn in Hi; try discriminate;
        injection Hi as <- <-; cbv [String.append]; unfold ml_names;
        split; repeat constructor. }
    split; apply Hkeep; auto; cbn; discriminate.
  - intros name Hname.
    assert (is_data_var s1 name = is_data_var ds name) as Hdv.
    { unfold is_data_var. rewrite (Hs1 name Hname). reflexivity. }
    pose proof (Hv2 name) as Hv2n. rewrite (Hs1 name Hname), Hdv in Hv2n.
    rewrite Hv3, Hv2n.
    destruct (ds_variables ds !! name) as [da|] eqn:E; [|reflexivity].
    cbn in Hv2n |- *. f_equal. unfold narrowed.
    set (da1 := if bool_decide (name ∈ categorical_names) && is_data_var ds name
                then retype uint8 da else da) in *.
    assert (bool_decide (name ∈ elements (ds_coord_names s2))
              && is_float64_coord s2 name
            = is_coord ds name && bool_decide (arr_dtype (da_values da1) = float64)) as ->.
    { unfold is_float64_coord, is_coord. rewrite Hv2n, Hn2, E.
      change (ds_coord_names s1) with (ds_coord_names ds).
      destruct (decide (name ∈ ds_coord_names ds)) as [Hc|Hc].
      - rewrite (bool_decide_eq_true_2 (name ∈ elements _))
          by (apply elem_of_elements; exact Hc).
        rewrite !(bool_decide_eq_true_2 (_ /\ _)) by (split; [eauto|exact Hc]).
        reflexivity.
      - rewrite (bool_decide_eq_false_2 (name ∈ elements _))
          by (rewrite elem_of_elements; exact Hc).
        rewrite !(bool_decide_eq_false_2 (_ /\ _)) by tauto.
        reflexivity. }
    reflexivity.
Qed.

End GridPredictions.

(* ================================================================== *)
(** ** [grid_predictions]: the shape check *)
(* ================================================================== *)

(** C7: a prediction table whose row count is not rows times columns of
    the grid makes the call fail at once, in the reshape, with numpy's
    [ValueError] (the exception behind the spec's [ShapeError]); nothing
    has been written to the dataset by then.  The table has at least one
    probability column and the dataset has the two grid dimensions. *)
Theorem grid_predictions_shape_mismatch (preds : ndarray) (ds : Dataset)
    (n k ny nx : nat) :
  table n k preds -> 0 < k ->
  ds_size ds "y" = ok ny -> ds_size ds "x" = ok nx ->
  n <> ny * nx ->
  grid_predictions preds ds = (raise (ValueError "cannot reshape array"), ds).
Proof.
  intros Hpreds Hk Hsy Hsx Hn.
  destruct (hstack_table preds (ptype_column preds n k) n k 1
              Hpreds (ptype_column_table _ _ _))
    as (stacked & Hcat & Hst & _ & _).
  unfold grid_predictions.
  rewrite (argmax_axis1_table preds n k Hpreds Hk), sbind_slift_ok.
  cbv beta zeta. rewrite length_fmap, length_seq.
  change (NDArray [n; 1] int64 _) with (ptype_column preds n k).
  rewrite Hcat, sbind_slift_ok, sbind_sget. cbv beta.
  rewrite Hsy, sbind_slift_ok. cbv beta. rewrite Hsx, sbind_slift_ok. cbv beta.
  destruct Hst as [Hss Hsl]. unfold np_reshape.
  rewrite decide_False; [reflexivity|].
  unfold ncols. rewrite Hss. cbn [size_of foldr]. rewrite Hsl. nia.
Qed.

Lemma grid_predictions_shape_mismatch_witness :
  grid_predictions example_preds_99 example_grid_10
    = (raise (ValueError "cannot reshape array"), example_grid_10).
Proof.
  apply (grid_predictions_shape_mismatch example_preds_99 example_grid_10
           99 4 10 10).
  - split; reflexivity.
  - lia.
  - reflexivity.
  - reflexivity.
  - lia.
Defined.

(* ================================================================== *)
(** ** [argmax]: the first position of the maximum *)
(* ================================================================== *)

Section Argmax.

Lemma np_le_nan_false (x y : float) :
  is_nan x = true -> is_nan y = false -> np_le x y = false.
Proof.
  intros Hx Hy. unfold np_le. rewrite Hy. cbn.
  destruct (x <=? y)%float eqn:E; [|reflexivity].
  apply leb_not_nan in E as [E _]. congruence.
Qed.

Lemma argmax_loop_spec (pre rest : list float) (mp : float) (max_ind : nat) :
  pre !! max_ind = Some mp -> is_nan mp = false ->
  (forall i x, pre !! i = Some x -> (x <=? mp)%float = true) ->
  (forall i x, i < max_ind -> pre !! i = Some x -> (mp <=? x)%float = false) ->
  first_max (pre ++ rest) (argmax_loop mp max_ind (length pre) rest).
Proof.
  revert pre mp max_ind. induction rest as [|x rest IH];
    intros pre mp max_ind Hmp Hnan Hle Hlt.
  - cbn [argmax_loop]. rewrite app_nil_r. exists mp. split; [exact Hmp|]. split.
    + intros i x Hx. unfold np_le. rewrite (Hle i x Hx). apply Bool.orb_true_r.
    + intros i x Hi Hx. unfold np_le.
      rewrite (proj1 (leb_not_nan _ _ (Hle i x Hx))), (Hlt i x Hi Hx). reflexivity.
  - cbn [argmax_loop].
    replace (pre ++ x :: rest) with ((pre ++ [x]) ++ rest)
      by (rewrite <- app_assoc; reflexivity).
    replace (S (length pre)) with (length (pre ++ [x]))
      by (rewrite length_app; cbn; lia).
    destruct (x <=? mp)%float eqn:Hx; cbn [negb].
    + (* the maximum stays *)
      apply IH.
      * apply lookup_app_l_Some. exact Hmp.
      * exact Hnan.
      * intros i y Hy. apply lookup_app_Some in Hy as [Hy|[_ Hy]]; [eauto|].
        apply list_lookup_singleton_Some in Hy as [_ <-]. exact Hx.
      * intros i y Hi Hy. apply lookup_app_Some in Hy as [Hy|[Hge _]]; [eauto|].
        apply lookup_lt_Some in Hmp. lia.
    + destruct (is_nan x) eqn:Hxn.
      * (* a NaN ends the search *)
        exists x. split.
        { rewrite <- app_assoc. cbn. rewrite lookup_app_r by lia.
          rewrite Nat.sub_diag. reflexivity. }
        split.
        { intros i y _. unfold np_le. rewrite Hxn. reflexivity. }
        { intros i y Hi Hy. rewrite <- app_assoc in Hy. cbn in Hy.
          rewrite lookup_app_l in Hy by lia.
          apply np_le_nan_false; [exact Hxn|].
          exact (proj1 (leb_not_nan _ _ (Hle i y Hy))). }
      * (* a greater value takes over *)
        pose proof (not_leb_ltb x mp Hxn Hnan Hx) as Hgt.
        apply IH.
        -- rewrite lookup_app_r by lia. rewrite Nat.sub_diag. reflexivity.
        -- exact Hxn.
        -- intros i y Hy. apply lookup_app_Some in Hy as [Hy|[_ Hy]].
           ++ apply leb_trans with mp; [eauto|apply ltb_leb; exact Hgt].
           ++ apply list_lookup_singleton_Some in Hy as [_ <-].
              apply leb_refl. exact Hxn.
        -- intros i y Hi Hy. rewrite lookup_app_l in Hy by lia.
           apply ltb_leb_false. apply leb_ltb_trans with mp; [eauto|exact Hgt].
Qed.

Lemma argmax_row_first_max (row : list float) :
  row <> [] -> first_max row (argmax_row row).
Proof.
  destruct row as [|mp rest]; [congruence|]. intros _. unfold argmax_row.
  destruct (is_nan mp) eqn:Hn.
  - exists mp. split; [reflexivity|]. split.
    + intros i x _. unfold np_le. rewrite Hn. reflexivity.
    + intros i x Hi. lia.
  - apply (argmax_loop_spec [mp] rest mp 0).
    + reflexivity.
    + exact Hn.
    + intros i x Hx. apply list_lookup_singleton_Some in Hx as [_ <-].
      apply leb_refl. exact Hn.
    + intros i x Hi. lia.
Qed.

Lemma first_max_lt (row : list float) (j : nat) : first_max row j -> j < length row.
Proof. intros (y & Hy & _). exact (lookup_lt_Some _ _ _ Hy). Qed.

(** Class indices compare as floats the way they do as numbers. *)
Lemma nat2float_eqb (i j : nat) :
  i < 4 -> j < 4 -> (nat2float j =? nat2float i)%float = bool_decide (j = i).
Proof.
  intros Hi Hj.
  destruct i as [|[|[|[|i]]]], j as [|[|[|[|j]]]]; try lia; reflexivity.
Qed.

End Argmax.

(* ================================================================== *)
(** ** [grid_predictions]: the cells of the output fields *)
(* ================================================================== *)

Section GridCells.

Variables (preds : ndarray) (ds : Dataset) (ny nx : nat).
Hypothesis Hpreds : table (ny * nx) 4 preds.
Hypothesis Hwf : wf_dataset ds.
Hypothesis Hy : ds_dims ds !! "y" = Some ny.
Hypothesis Hx : ds_dims ds !! "x" = Some nx.
Hypothesis Hsy : ds_size ds "y" = ok ny.
Hypothesis Hsx : ds_size ds "x" = ok nx.

Lemma field_cell (d : dtype) (g : nat -> float) (r c : nat) :
  r < ny -> c < nx ->
  get2 (NDArray [ny; nx] d (g <$> seq 0 (ny * nx))) r c = Some (g (r * nx + c)).
Proof using Type.
  intros Hr Hc. unfold get2. cbn [shape data].
  rewrite decide_True by (split; assumption).
  rewrite list_lookup_fmap, lookup_seq_lt by nia. reflexivity.
Qed.

Lemma dropped_names_not_ml (s : Dataset) (name : string) :
  name ∈ ml_names -> name ∉ dropped_names s.
Proof using Type.
  intros Hin Hd. unfold dropped_names in Hd.
  apply list_elem_of_filter in Hd as [_ Hd]. unfold ml_names in Hin.
  repeat (apply elem_of_cons in Hin as [->|Hin];
          [repeat (apply elem_of_cons in Hd as [Hd|Hd]; [discriminate Hd|]);
           apply elem_of_nil in Hd; exact Hd|]).
  apply elem_of_nil in Hin. exact Hin.
Qed.

Lemma class_names_ml (i : nat) (long_v v : string) :
  class_names !! i = Some (long_v, v) ->
  i < 4 /\ "ML_" +:+ v ∈ ml_names /\ "ML_c" +:+ v ∈ ml_names.
Proof using Type.
  intros Hi.
  destruct i as [|[|[|[|i]]]]; cbn in Hi; try discriminate;
    injection Hi as <- <-; cbv [String.append]; unfold ml_names;
    (split; [lia|]); split; repeat constructor.
Qed.

(** The cells of the eight fields, on a table of four probability
    columns that matches the grid. *)
Lemma grid_predictions_cells :
  exists out s3,
    grid_predictions preds ds = (ok out, s3) /\
    forall r c i long_v v,
      r < ny -> c < nx -> class_names !! i = Some (long_v, v) ->
      exists dp dc p,
        ds_variables out !! ("ML_" +:+ v) = Some dp /\
        ds_variables out !! ("ML_c" +:+ v) = Some dc /\
        da_dims dp = ["y"; "x"] /\ da_dims dc = ["y"; "x"] /\
        buf_row 4 (data preds) (r * nx + c) !! i = Some p /\
        get2 (da_values dp) r c = Some (round_float32 p) /\
        get2 (da_values dc) r c
          = Some (if decide (argmax_row (buf_row 4 (data preds) (r * nx + c)) = i)
                  then 1%float else 0%float).
Proof using All.
  destruct (grid_predictions_run preds ds ny nx 4 Hpreds ltac:(lia) Hwf Hy Hx Hsy Hsx)
    as (stacked & s3 & _ & Hst & Hrows & Hrun & _ & _ & _ & Hml & _).
  exists (ds_drop s3 (dropped_names s3)), s3. split; [exact Hrun|].
  intros r c i long_v v Hr Hc Hi.
  destruct (class_names_ml i long_v v Hi) as (Hi4 & M1 & M2).
  destruct (Hml i long_v v Hi) as [Hp Hcat].
  assert (r * nx + c < ny * nx) as Hn by nia.
  set (n := r * nx + c) in *.
  set (row := buf_row 4 (data preds) n).
  assert (length row = 4) as Hrow by (apply (table_row_length (ny * nx)); assumption).
  destruct (lookup_lt_is_Some_2 row i ltac:(lia)) as [p Hpi].
  assert (forall j, j < 5 ->
            data stacked !! (n * 5 + j) = (row ++ [nat2float (argmax_row row)]) !! j)
    as Hcell.
  { intros j Hj. unfold row. rewrite <- (Hrows n Hn).
    symmetry. apply (buf_row_lookup (4 + 1)). lia. }
  exists (ml_probability stacked ny nx (4 + 1) i long_v),
         (ml_categorical stacked ny nx (4 + 1) i long_v), p.
  unfold ds_drop. cbn [ds_variables].
  rewrite !lookup_foldr_delete_not_elem_of by (apply dropped_names_not_ml; assumption).
  split; [exact Hp|]. split; [exact Hcat|].
  split; [reflexivity|]. split; [reflexivity|]. split; [exact Hpi|].
  unfold ml_probability, ml_categorical, where_eq, astype. cbn [da_values shape data].
  rewrite <- !list_fmap_compose. split.
  - rewrite (field_cell _ _ r c Hr Hc). cbn. fold n. do 2 f_equal.
    apply fget_lookup. change (4 + 1) with 5.
    rewrite (Hcell i ltac:(lia)), lookup_app_l by lia. exact Hpi.
  - rewrite (field_cell _ _ r c Hr Hc). cbn. fold n. f_equal.
    change (4 + 1) with 5. change (5 - 1) with 4.
    rewrite (fget_lookup _ _ (nat2float (argmax_row row))).
    2:{ rewrite (Hcell 4 ltac:(lia)), lookup_app_r by lia.
        rewrite Hrow. reflexivity. }
    assert (argmax_row row < 4) as Hj.
    { rewrite <- Hrow. apply first_max_lt, argmax_row_first_max.
      intros E. rewrite E in Hrow. discriminate. }
    rewrite (nat2float_eqb i (argmax_row row) Hi4 Hj).
    destruct (decide (argmax_row row = i)) as [E|E].
    + rewrite bool_decide_eq_true_2 by exact E. reflexivity.
    + rewrite bool_decide_eq_false_2 by exact E. reflexivity.
Qed.

End GridCells.

(* ================================================================== *)
(** ** [grid_predictions]: the categorical fields *)
(* ================================================================== *)

Lemma example_field_wf : wf_dataset example_field.
Proof.
  intros name da. unfold example_field. cbn [ds_variables ds_dims list_to_map foldr].
  cbn [uncurry]. rewrite !lookup_insert.
  repeat (case_decide; [intros [= <-]; cbn; repeat constructor|]).
  rewrite lookup_empty. discriminate.
Qed.

Lemma example_preds_table : table (2 * 2) 4 example_preds.
Proof. split; reflexivity. Qed.

(** C5: on a table of four probability columns that matches the grid, the
    class chosen at a point is the first (lowest) index holding the maximum
    of the point's row (numpy's maximum, a NaN counting as greatest), and
    the indicator field of a class is 1 at the points where it is the
    chosen class and 0 elsewhere; the row [0.5, 0.5, 0.0, 0.0] selects
    class 0. *)
Theorem argmax_first_class :
  (forall (preds : ndarray) (ds : Dataset) (ny nx : nat),
     table (ny * nx) 4 preds -> wf_dataset ds ->
     ds_dims ds !! "y" = Some ny -> ds_dims ds !! "x" = Some nx ->
     ds_size ds "y" = ok ny -> ds_size ds "x" = ok nx ->
     exists out s,
       grid_predictions preds ds = (ok out, s) /\
       forall r c, r < ny -> c < nx ->
         exists j,
           first_max (buf_row 4 (data preds) (r * nx + c)) j /\
           forall i long_v v, class_names !! i = Some (long_v, v) ->
             exists dc,
               ds_variables out !! ("ML_c" +:+ v) = Some dc /\
               get2 (da_values dc) r c
                 = Some (if decide (j = i) then 1%float else 0%float)) /\
  argmax_row [0.5; 0.5; 0; 0]%float = 0.
Proof.
  split; [|reflexivity].
  intros preds ds ny nx Hp Hwf Hy Hx Hsy Hsx.
  destruct (grid_predictions_cells preds ds ny nx Hp Hwf Hy Hx Hsy Hsx)
    as (out & s & Hrun & Hcells).
  exists out, s. split; [exact Hrun|]. intros r c Hr Hc.
  exists (argmax_row (buf_row 4 (data preds) (r * nx + c))). split.
  - apply argmax_row_first_max. intros E.
    assert (length (buf_row 4 (data preds) (r * nx + c)) = 4) as Hl
      by (apply (table_row_length (ny * nx)); [assumption|nia]).
    rewrite E in Hl. discriminate.
  - intros i long_v v Hi.
    destruct (Hcells r c i long_v v Hr Hc Hi)
      as (dp & dc & p & _ & Hdc & _ & _ & _ & _ & Hcat).
    exists dc. split; [exact Hdc|exact Hcat].
Qed.

Lemma argmax_first_class_witness :
  exists out s,
    grid_predictions example_preds example_field = (ok out, s) /\
    exists j, first_max (buf_row 4 (data example_preds) (0 * 2 + 0)) j.
Proof.
  destruct (proj1 argmax_first_class example_preds example_field 2 2
              example_preds_table example_field_wf eq_refl eq_refl eq_refl eq_refl)
    as (out & s & Hrun & Hcells).
  exists out, s. split; [exact Hrun|].
  destruct (Hcells 0 0 ltac:(lia) ltac:(lia)) as (j & Hj & _).
  exists j. exact Hj.
Defined.

(** C10: on a table of four probability columns that matches the grid, at
    every point exactly one of the four categorical fields ([ML_crain],
    [ML_csnow], [ML_cicep], [ML_cfrzr]) is 1 and the other three are 0. *)
Theorem categorical_partition (preds : ndarray) (ds : Dataset) (ny nx : nat) :
  table (ny * nx) 4 preds -> wf_dataset ds ->
  ds_dims ds !! "y" = Some ny -> ds_dims ds !! "x" = Some nx ->
  ds_size ds "y" = ok ny -> ds_size ds "x" = ok nx ->
  exists out s,
    grid_predictions preds ds = (ok out, s) /\
    forall r c, r < ny -> c < nx ->
      exists j, j < 4 /\
        forall i name, ["ML_crain"; "ML_csnow"; "ML_cicep"; "ML_cfrzr"] !! i = Some name ->
          exists dc,
            ds_variables out !! name = Some dc /\
            get2 (da_values dc) r c
              = Some (if decide (i = j) then 1%float else 0%float).
Proof.
  intros Hp Hwf Hy Hx Hsy Hsx.
  destruct (grid_predictions_cells preds ds ny nx Hp Hwf Hy Hx Hsy Hsx)
    as (out & s & Hrun & Hcells).
  exists out, s. split; [exact Hrun|]. intros r c Hr Hc.
  set (row := buf_row 4 (data preds) (r * nx + c)) in *.
  assert (length row = 4) as Hl
    by (apply (table_row_length (ny * nx)); [assumption|nia]).
  exists (argmax_row row). split.
  - rewrite <- Hl. apply first_max_lt, argmax_row_first_max.
    intros E. rewrite E in Hl. discriminate.
  - intros i name Hi.
    assert (exists long_v v, class_names !! i = Some (long_v, v) /\
                             name = "ML_c" +:+ v) as (long_v & v & Hcn & ->).
    { destruct i as [|[|[|[|i]]]]; cbn in Hi; try discriminate;
        injection Hi as <-; eexists _, _; split; reflexivity. }
    destruct (Hcells r c i long_v v Hr Hc Hcn)
      as (dp & dc & p & _ & Hdc & _ & _ & _ & _ & Hcat).
    exists dc. split; [exact Hdc|]. rewrite Hcat. fold row.
    destruct (decide (argmax_row row = i)), (decide (i = argmax_row row));
      congruence.
Qed.

Lemma categorical_partition_witness :
  exists out s,
    grid_predictions example_preds example_field = (ok out, s) /\
    exists j, j < 4.
Proof.
  destruct (categorical_partition example_preds example_field 2 2
              example_preds_table example_field_wf eq_refl eq_refl eq_refl eq_refl)
    as (out & s & Hrun & Hcells).
  exists out, s. split; [exact Hrun|].
  destruct (Hcells 0 0 ltac:(lia) ltac:(lia)) as (j & Hj & _).
  exists j. exact Hj.
Defined.

(* ================================================================== *)
(** ** [grid_predictions]: what it writes to the field it is given *)
(* ================================================================== *)

Lemma t2m_not_ml : "t2m" ∉ ml_names.
Proof.
  unfold ml_names. rewrite !not_elem_of_cons.
  repeat split; try discriminate. apply not_elem_of_nil.
Qed.

(** [grid_predictions] assigns into the dataset it is given.  After a
    successful call that dataset has the same dimensions, coordinate names
    and attributes, holds the eight [ML_] fields, and every other variable
    is as before up to the two narrowing loops ([crain], [csnow], [cicep],
    [cfrzr] to uint8, float64 coordinates to float32).  The dataset
    returned is another one: that state without the dropped coordinates. *)
Theorem grid_predictions_writes_into_field (preds : ndarray) (ds : Dataset)
    (ny nx k : nat) :
  table (ny * nx) k preds -> 3 <= k -> wf_dataset ds ->
  ds_dims ds !! "y" = Some ny -> ds_dims ds !! "x" = Some nx ->
  ds_size ds "y" = ok ny -> ds_size ds "x" = ok nx ->
  exists out s,
    grid_predictions preds ds = (ok out, s) /\
    out = ds_drop s (dropped_names s) /\
    ds_dims s = ds_dims ds /\ ds_coord_names s = ds_coord_names ds /\
    ds_attrs s = ds_attrs ds /\
    (forall name, name ∈ ml_names -> is_Some (ds_variables s !! name)) /\
    (forall name, name ∉ ml_names ->
       ds_variables s !! name = narrowed ds name <$> ds_variables ds !! name).
Proof.
  intros Hp Hk Hwf Hy Hx Hsy Hsx.
  destruct (grid_predictions_run preds ds ny nx k Hp Hk Hwf Hy Hx Hsy Hsx)
    as (stacked & s3 & _ & _ & _ & Hrun & Hd & Hn & Ha & Hml & Hother).
  exists (ds_drop s3 (dropped_names s3)), s3.
  split; [exact Hrun|]. split; [reflexivity|].
  split; [exact Hd|]. split; [exact Hn|]. split; [exact Ha|].
  split; [|exact Hother].
  clear Hrun Hother Hsy Hsx Hy Hx Hwf Hp.
  intros name Hin. unfold ml_names in Hin.
  pose proof (Hml 0 _ _ eq_refl) as [H0 H0'].
  pose proof (Hml 1 _ _ eq_refl) as [H1 H1'].
  pose proof (Hml 2 _ _ eq_refl) as [H2 H2'].
  pose proof (Hml 3 _ _ eq_refl) as [H3 H3'].
  cbv [String.append] in H0, H0', H1, H1', H2, H2', H3, H3'.
  repeat (apply elem_of_cons in Hin as [->|Hin]; [eauto|]).
  apply elem_of_nil in Hin. destruct Hin.
Qed.

Lemma grid_predictions_writes_into_field_witness :
  exists out s,
    grid_predictions example_preds example_field = (ok out, s) /\
    is_Some (ds_variables s !! "ML_rain") /\
    ds_variables example_field !! "ML_rain" = None /\
    ds_variables s !! "t2m" = ds_variables example_field !! "t2m".
Proof.
  destruct (grid_predictions_writes_into_field example_preds example_field 2 2 4
              example_preds_table ltac:(lia) example_field_wf
              eq_refl eq_refl eq_refl eq_refl)
    as (out & s & Hrun & _ & _ & _ & _ & Hml & Hother).
  exists out, s. split; [exact Hrun|]. split; [|split].
  - apply Hml. unfold ml_names. constructor.
  - vm_compute. reflexivity.
  - etransitivity; [exact (Hother "t2m" t2m_not_ml)|].
    vm_compute. reflexivity.
Defined.

(* ================================================================== *)
(** ** [grid_predictions]: probability fields and the dataset returned *)
(* ================================================================== *)

(** On a table of four probability columns that matches the grid, the
    field [ML_<v>] of class [i] has dimensions [(y, x)] and its cell
    [(r, c)] is the float32 rounding of column [i] of row [r * nx + c] of
    the table. *)
Theorem probability_fields_cells (preds : ndarray) (ds : Dataset) (ny nx : nat) :
  table (ny * nx) 4 preds -> wf_dataset ds ->
  ds_dims ds !! "y" = Some ny -> ds_dims ds !! "x" = Some nx ->
  ds_size ds "y" = ok ny -> ds_size ds "x" = ok nx ->
  exists out s,
    grid_predictions preds ds = (ok out, s) /\
    forall r c i name p,
      r < ny -> c < nx ->
      ["ML_rain"; "ML_snow"; "ML_icep"; "ML_frzr"] !! i = Some name ->
      get2 preds (r * nx + c) i = Some p ->
      exists dp,
        ds_variables out !! name = Some dp /\
        da_dims dp = ["y"; "x"] /\
        arr_dtype (da_values dp) = float32 /\
        get2 (da_values dp) r c = Some (round_float32 p).
Proof.
  intros Hp Hwf Hy Hx Hsy Hsx.
  destruct (grid_predictions_cells preds ds ny nx Hp Hwf Hy Hx Hsy Hsx)
    as (out & s & Hrun & Hcells).
  exists out, s. split; [exact Hrun|]. intros r c i name p Hr Hc Hi Hg.
  assert (exists long_v v, class_names !! i = Some (long_v, v) /\
                           name = "ML_" +:+ v) as (long_v & v & Hcn & ->).
  { destruct i as [|[|[|[|i]]]]; cbn in Hi; try discriminate;
      injection Hi as <-; eexists _, _; split; reflexivity. }
  destruct (Hcells r c i long_v v Hr Hc Hcn)
    as (dp & dc & p' & Hdp & _ & Hdims & _ & Hp' & Hcell & _).
  assert (p' = p) as ->.
  { pose proof (lookup_lt_Some _ _ _ Hi) as Hi4. cbn in Hi4.
    rewrite (table_get2 (ny * nx) 4) in Hg by (try assumption; nia).
    rewrite buf_row_lookup in Hp' by lia. congruence. }
  exists dp. split; [exact Hdp|]. split; [exact Hdims|]. split; [|exact Hcell].
  destruct (grid_predictions_run preds ds ny nx 4 Hp ltac:(lia) Hwf Hy Hx Hsy Hsx)
    as (stacked & s3 & _ & _ & _ & Hrun' & _ & _ & _ & Hml & _).
  rewrite Hrun in Hrun'. injection Hrun' as -> ->.
  destruct (Hml i long_v v Hcn) as [Hs3 _].
  destruct (class_names_ml i long_v v Hcn) as (_ & M1 & _).
  unfold ds_drop in Hdp. cbn [ds_variables] in Hdp.
  rewrite lookup_foldr_delete_not_elem_of in Hdp
    by (apply dropped_names_not_ml; exact M1).
  rewrite Hs3 in Hdp. injection Hdp as <-. reflexivity.
Qed.

Lemma probability_fields_cells_witness :
  exists out s,
    grid_predictions example_preds example_field = (ok out, s) /\
    exists dp,
      ds_variables out !! "ML_snow" = Some dp /\
      get2 (da_values dp) 1 1 = Some (round_float32 0.5).
Proof.
  destruct (probability_fields_cells example_preds example_field 2 2
              example_preds_table example_field_wf eq_refl eq_refl eq_refl eq_refl)
    as (out & s & Hrun & Hcells).
  exists out, s. split; [exact Hrun|].
  destruct (Hcells 1 1 1 "ML_snow" 0.5%float ltac:(lia) ltac:(lia) eq_refl eq_refl)
    as (dp & H1 & _ & _ & H2).
  exists dp. split; [exact H1|exact H2].
Defined.

Lemma level_coordinates_not_ml (v : string) : v ∈ level_coordinates -> v ∉ ml_names.
Proof.
  intros Hv Hm. unfold level_coordinates, ml_names in *.
  repeat (apply elem_of_cons in Hv as [->|Hv];
          [repeat (apply elem_of_cons in Hm as [Hm|Hm]; [discriminate Hm|]);
           apply elem_of_nil in Hm; exact Hm|]).
  apply elem_of_nil in Hv. exact Hv.
Qed.

(** The dataset [grid_predictions] returns is the dataset it wrote to
    without the coordinates named [isobaricInhPa], [heightAboveGround] and
    [surface]: such a coordinate is gone from the result (and still held
    by the dataset passed in), and every other variable of the result is
    the one of the dataset passed in after the call. *)
Theorem grid_predictions_drops_level_coordinates (preds : ndarray) (ds : Dataset)
    (ny nx k : nat) :
  table (ny * nx) k preds -> 3 <= k -> wf_dataset ds ->
  ds_dims ds !! "y" = Some ny -> ds_dims ds !! "x" = Some nx ->
  ds_size ds "y" = ok ny -> ds_size ds "x" = ok nx ->
  exists out s,
    grid_predictions preds ds = (ok out, s) /\
    (forall v, v ∈ level_coordinates -> is_coord ds v = true ->
       ds_variables out !! v = None /\ (v ∉ ds_coord_names out) /\
       is_Some (ds_variables s !! v)) /\
    (forall name, ~ (name ∈ level_coordinates /\ is_coord ds name = true) ->
       ds_variables out !! name = ds_variables s !! name).
Proof.
  intros Hp Hk Hwf Hy Hx Hsy Hsx.
  destruct (grid_predictions_writes_into_field preds ds ny nx k Hp Hk Hwf Hy Hx Hsy Hsx)
    as (out & s & Hrun & -> & _ & Hn & _ & _ & Hother).
  exists (ds_drop s (dropped_names s)), s. split; [exact Hrun|].
  clear Hrun Hp Hsy Hsx.
  assert (forall v, v ∈ level_coordinates -> is_coord s v = is_coord ds v) as Hco.
  { intros v Hv. unfold is_coord.
    rewrite (Hother v (level_coordinates_not_ml v Hv)), Hn.
    destruct (ds_variables ds !! v); cbn.
    - apply bool_decide_ext. split; intros [_ ?]; split; eauto.
    - first [reflexivity|apply bool_decide_ext; split; intros [[? ?] _]; discriminate]. }
  assert (forall v, v ∈ dropped_names s <->
                    v ∈ level_coordinates /\ is_coord ds v = true) as Hdrop.
  { intros v. unfold dropped_names. fold level_coordinates.
    rewrite list_elem_of_filter. split.
    - intros [Hc Hv]. rewrite (Hco v Hv) in Hc. tauto.
    - intros [Hv Hc]. rewrite (Hco v Hv). tauto. }
  split.
  - intros v Hv Hc. unfold ds_drop. cbn [ds_variables ds_coord_names].
    assert (v ∈ dropped_names s) as Hin by (apply Hdrop; tauto).
    split; [apply lookup_foldr_delete; exact Hin|]. split.
    + rewrite elem_of_difference, elem_of_list_to_set. tauto.
    + rewrite <- (Hco v Hv) in Hc. unfold is_coord in Hc.
      apply bool_decide_eq_true in Hc. tauto.
  - intros name Hname. unfold ds_drop. cbn [ds_variables].
    apply lookup_foldr_delete_not_elem_of. rewrite Hdrop. exact Hname.
Qed.

Lemma grid_predictions_drops_level_coordinates_witness :
  exists out s,
    grid_predictions example_preds example_field = (ok out, s) /\
    ds_variables out !! "isobaricInhPa" = None /\
    is_Some (ds_variables s !! "isobaricInhPa").
Proof.
  destruct (grid_predictions_drops_level_coordinates example_preds example_field
              2 2 4 example_preds_table ltac:(lia) example_field_wf
              eq_refl eq_refl eq_refl eq_refl)
    as (out & s & Hrun & Hdrop & _).
  exists out, s. split; [exact Hrun|].
  destruct (Hdrop "isobaricInhPa") as (H1 & _ & H2).
  - unfold level_coordinates. constructor.
  - vm_compute. reflexivity.
  - split; [exact H1|exact H2].
Defined.

(* ================================================================== *)
(** ** [grid_predictions]: tables with too few columns *)
(* ================================================================== *)

Section FewColumns.

Local Open Scope state_scope.

Lemma class_pass_fail (stacked reshaped : ndarray) (ny nx k i : nat)
    (long_v v : string) (s : Dataset) :
  shape reshaped = [ny; nx; k] -> k <= i ->
  (let! prob := slift (slice_last_axis reshaped i) in
   ds_setitem ("ML_" +:+ v) ["y"; "x"] (astype float32 prob) ∅ ;;
   ds_set_attrs ("ML_" +:+ v)
     (description ("Machine Learned Probability of " +:+ long_v)) ;;
   let! last := slift (slice_last_axis reshaped (ncols stacked - 1)) in
   ds_setitem ("ML_c" +:+ v) ["y"; "x"] (astype uint8 (where_eq last i)) ∅ ;;
   ds_set_attrs ("ML_c" +:+ v)
     (description ("Machine Learned Categorical " +:+ long_v))) s
  = (raise (IndexError "index is out of bounds for axis 2"), s).
Proof.
  intros Hs Hi. unfold slice_last_axis. rewrite Hs.
  rewrite decide_False by lia. reflexivity.
Qed.

(** With one or two probability columns the loop over the four classes
    runs out of columns: the call raises [IndexError], and by then the
    dataset passed in already holds the fields of the first classes. *)
Theorem grid_predictions_too_few_columns (preds : ndarray) (ds : Dataset)
    (ny nx k : nat) :
  table (ny * nx) k preds -> 1 <= k <= 2 ->
  ds_dims ds !! "y" = Some ny -> ds_dims ds !! "x" = Some nx ->
  ds_size ds "y" = ok ny -> ds_size ds "x" = ok nx ->
  exists s,
    grid_predictions preds ds
      = (raise (IndexError "index is out of bounds for axis 2"), s) /\
    is_Some (ds_variables s !! "ML_rain") /\
    is_Some (ds_variables s !! "ML_crain") /\
    ds_variables s !! "ML_frzr" = ds_variables ds !! "ML_frzr".
Proof.
  intros Hpreds Hk Hy Hx Hsy Hsx.
  destruct (hstack_table preds (ptype_column preds (ny * nx) k) (ny * nx) k 1
              Hpreds (ptype_column_table _ _ _))
    as (stacked & Hcat & Hst & _ & _).
  pose proof Hst as [Hss Hsl].
  pose proof (table_ncols _ _ _ Hst) as Hnc.
  set (reshaped := NDArray [ny; nx; ncols stacked] (arr_dtype stacked) (data stacked)).
  assert (shape reshaped = [ny; nx; k + 1]) as Hrs
    by (unfold reshaped; cbn [shape]; rewrite Hnc; reflexivity).
  set (s1 := mkDataset (ds_dims ds)
               (<["ML_crain" := ml_categorical stacked ny nx (k + 1) 0 "rain"]>
                  (<["ML_rain" := ml_probability stacked ny nx (k + 1) 0 "rain"]>
                     (ds_variables ds)))
               (ds_coord_names ds) (ds_attrs ds)).
  set (s2 := mkDataset (ds_dims ds)
               (<["ML_csnow" := ml_categorical stacked ny nx (k + 1) 1 "snow"]>
                  (<["ML_snow" := ml_probability stacked ny nx (k + 1) 1 "snow"]>
                     (ds_variables s1)))
               (ds_coord_names ds) (ds_attrs ds)).
  set (s3 := mkDataset (ds_dims ds)
               (<["ML_cicep" := ml_categorical stacked ny nx (k + 1) 2 "ice pellets"]>
                  (<["ML_icep" := ml_probability stacked ny nx (k + 1) 2 "ice pellets"]>
                     (ds_variables s2)))
               (ds_coord_names ds) (ds_attrs ds)).
  exists (if decide (k = 1) then s2 else s3).
  split.
  - unfold grid_predictions.
    rewrite (argmax_axis1_table preds (ny * nx) k Hpreds ltac:(lia)), sbind_slift_ok.
    cbv beta zeta. rewrite length_fmap, length_seq.
    change (NDArray [ny * nx; 1] int64 _) with (ptype_column preds (ny * nx) k).
    rewrite Hcat, sbind_slift_ok, sbind_sget. cbv beta.
    rewrite Hsy, sbind_slift_ok. cbv beta. rewrite Hsx, sbind_slift_ok. cbv beta.
    unfold np_reshape.
    rewrite decide_True by (rewrite Hnc; cbn [size_of foldr]; rewrite Hsl; lia).
    rewrite sbind_slift_ok. cbv beta. fold reshaped.
    apply sbind_run_raise.
    change (imap pair class_names)
      with [(0, ("rain", "rain")); (1, ("snow", "snow"));
            (2, ("ice pellets", "icep")); (3, ("freezing rain", "frzr"))].
    cbn [sfor].
    erewrite sbind_run_ok;
      [|apply (class_pass_run stacked reshaped ny nx (k + 1) 0 "rain" "rain");
        [exact Hrs|reflexivity|reflexivity|exact Hnc|lia|exact Hy|exact Hx]].
    erewrite sbind_run_ok;
      [|apply (class_pass_run stacked reshaped ny nx (k + 1) 1 "snow" "snow");
        [exact Hrs|reflexivity|reflexivity|exact Hnc|lia|exact Hy|exact Hx]].
    cbn [ds_dims ds_variables ds_coord_names ds_attrs]. fold s1. fold s2.
    case_decide as Hk1.
    + apply sbind_run_raise.
      apply (class_pass_fail stacked reshaped ny nx (k + 1) 2); [exact Hrs|lia].
    + erewrite sbind_run_ok;
        [|apply (class_pass_run stacked reshaped ny nx (k + 1) 2 "ice pellets" "icep");
          [exact Hrs|reflexivity|reflexivity|exact Hnc|lia|exact Hy|exact Hx]].
      cbn [ds_dims ds_variables ds_coord_names ds_attrs]. fold s3.
      apply sbind_run_raise.
      apply (class_pass_fail stacked reshaped ny nx (k + 1) 3); [exact Hrs|lia].
  - assert (forall s, s = s2 \/ s = s3 ->
              is_Some (ds_variables s !! "ML_rain") /\
              is_Some (ds_variables s !! "ML_crain") /\
              ds_variables s !! "ML_frzr" = ds_variables ds !! "ML_frzr") as Hs.
    { intros s [-> | ->]; unfold s3, s2, s1; cbn [ds_variables];
        (split; [|split]);
        repeat (first [rewrite lookup_insert_eq; eauto
                      |rewrite lookup_insert_ne by discriminate]);
        reflexivity. }
    case_decide; apply Hs; auto.
Qed.

End FewColumns.

Lemma grid_predictions_too_few_columns_witness :
  exists s,
    grid_predictions (NDArray [4; 2] float32 [1; 0; 0; 1; 1; 0; 0; 1]%float)
                     example_field
      = (raise (IndexError "index is out of bounds for axis 2"), s) /\
    is_Some (ds_variables s !! "ML_rain") /\
    ds_variables example_field !! "ML_rain" = None.
Proof.
  destruct (grid_predictions_too_few_columns
              (NDArray [4; 2] float32 [1; 0; 0; 1; 1; 0; 0; 1]%float)
              example_field 2 2 2 ltac:(split; reflexivity) ltac:(lia)
              eq_refl eq_refl eq_refl eq_refl)
    as (s & Hrun & H1 & _).
  exists s. split; [exact Hrun|]. split; [exact H1|].
  vm_compute. reflexivity.
Defined.

(** Failures of [grid_predictions] that come before its first assignment
    leave the dataset passed in as it was: a table without columns
    ([argmax] of an empty row) and a dataset without the dimension [y] or
    [x]. *)
Theorem grid_predictions_early_failures :
  (forall (preds : ndarray) (ds : Dataset) (n : nat),
     shape preds = [n; 0] ->
     grid_predictions preds ds
       = (raise (ValueError "attempt to get argmax of an empty sequence"), ds)) /\
  (forall (preds : ndarray) (ds : Dataset) (n k : nat),
     table n k preds -> 0 < k ->
     ds_variables ds !! "y" = None -> ds_dims ds !! "y" = None ->
     grid_predictions preds ds = (raise (KeyError "y"), ds)) /\
  (forall (preds : ndarray) (ds : Dataset) (n k ny : nat),
     table n k preds -> 0 < k -> ds_size ds "y" = ok ny ->
     ds_variables ds !! "x" = None -> ds_dims ds !! "x" = None ->
     grid_predictions preds ds = (raise (KeyError "x"), ds)).
Proof.
  split; [|split].
  - intros preds ds n Hs. unfold grid_predictions, argmax_axis1. rewrite Hs.
    reflexivity.
  - intros preds ds n k Hp Hk Hv Hd.
    destruct (hstack_table preds (ptype_column preds n k) n k 1
                Hp (ptype_column_table _ _ _)) as (stacked & Hcat & _).
    unfold grid_predictions.
    rewrite (argmax_axis1_table preds n k Hp Hk), sbind_slift_ok.
    cbv beta zeta. rewrite length_fmap, length_seq.
    change (NDArray [n; 1] int64 _) with (ptype_column preds n k).
    rewrite Hcat, sbind_slift_ok, sbind_sget. cbv beta.
    unfold ds_size, ds_getitem. rewrite Hv, Hd. reflexivity.
  - intros preds ds n k ny Hp Hk Hsy Hv Hd.
    destruct (hstack_table preds (ptype_column preds n k) n k 1
                Hp (ptype_column_table _ _ _)) as (stacked & Hcat & _).
    unfold grid_predictions.
    rewrite (argmax_axis1_table preds n k Hp Hk), sbind_slift_ok.
    cbv beta zeta. rewrite length_fmap, length_seq.
    change (NDArray [n; 1] int64 _) with (ptype_column preds n k).
    rewrite Hcat, sbind_slift_ok, sbind_sget. cbv beta.
    rewrite Hsy, sbind_slift_ok. cbv beta.
    unfold ds_size, ds_getitem. rewrite Hv, Hd. reflexivity.
Qed.

Lemma grid_predictions_early_failures_witness :
  grid_predictions example_preds (mkDataset ∅ ∅ ∅ ∅)
    = (raise (KeyError "y"), mkDataset ∅ ∅ ∅ ∅).
Proof.
  apply (proj1 (proj2 grid_predictions_early_failures) example_preds
           (mkDataset ∅ ∅ ∅ ∅) 4 4).
  - exact example_preds_table.
  - lia.
  - reflexivity.
  - reflexivity.
Defined.

(* ================================================================== *)
(** ** [df_flatten] *)
(* ================================================================== *)

Section Flatten.

Lemma concat_lookup_uniform {A} (ls : list (list A)) (w k j : nat) (l : list A) :
  Forall (fun l' => length l' = w) ls -> ls !! k = Some l -> j < w ->
  concat ls !! (k * w + j) = l !! j.
Proof.
  revert k. induction ls as [|l0 ls IH]; intros k Hall Hk Hj; [discriminate|].
  inversion Hall as [|? ? Hl0 Hall']; subst. simpl.
  destruct k as [|k]; simpl in *.
  - injection Hk as ->. apply lookup_app_l. lia.
  - rewrite lookup_app_r by lia.
    replace (length l0 + k * length l0 + j - length l0)
      with (k * length l0 + j) by lia.
    apply IH; assumption.
Qed.

Lemma length_concat_uniform {A} (ls : list (list A)) (w : nat) :
  Forall (fun l' => length l' = w) ls -> length (concat ls) = length ls * w.
Proof.
  induction 1 as [|l ls Hl _ IH]; simpl; [reflexivity|].
  rewrite length_app, Hl, IH. reflexivity.
Qed.

(** What [np.concatenate(arrs, axis=1)] demands of its arguments. *)
Lemma concatenate_axis1_inv (arrs : list ndarray) (out : ndarray) :
  concatenate_axis1 arrs = ok out ->
  arrs <> [] /\ exists n, Forall (fun b => exists w, shape b = [n; w]) arrs.
Proof.
  unfold concatenate_axis1. destruct arrs as [|a rest]; [discriminate|].
  destruct (shape a) as [|n [|w [|? ?]]] eqn:Ha; try discriminate.
  destruct (forallb (same_rows n) rest) eqn:Hrows; [|discriminate].
  intros _. split; [discriminate|]. exists n. constructor; [eauto|].
  apply Forall_forall. intros b Hb.
  rewrite forallb_forall in Hrows.
  specialize (Hrows b (proj1 (list_elem_of_In _ _) Hb)).
  unfold same_rows in Hrows.
  destruct (shape b) as [|n' [|w' [|? ?]]]; try discriminate.
  apply bool_decide_eq_true in Hrows. subst. eauto.
Qed.

(** Every cell [df_flatten] collects is one column holding a slice. *)
Lemma reshape_column_table (slice : ndarray) (n w : nat) :
  shape (reshape_column slice) = [n; w] ->
  length (data slice) = n /\ table n 1 (reshape_column slice).
Proof.
  unfold reshape_column, table. simpl. intros [= <- <-].
  split; [reflexivity|]. split; [reflexivity|]. lia.
Qed.

Lemma df_flatten_inv (ds : Dataset) (varsP : list string)
    (name : string) (df : DataFrame) :
  df_flatten ds varsP name = ok df ->
  exists lv levels n,
    ds_getitem ds name = ok lv /\ values_1d lv = ok levels /\
    varsP <> [] /\ levels <> [] /\
    length (columns df) = length varsP * length levels /\
    table n (length varsP * length levels) (values df) /\
    forall vi li v p, varsP !! vi = Some v -> levels !! li = Some p ->
      exists col da slice,
        level_column v p = ok col /\ ds_getitem ds v = ok da /\
        sel_isobaricInhPa ds da (arr_dtype (da_values lv)) p = ok slice /\
        columns df !! (vi * length levels + li) = Some col /\
        length (data slice) = n /\
        forall i, i < n ->
          get2 (values df) i (vi * length levels + li) = data slice !! i.
Proof.
  unfold df_flatten. intros H.
  apply rbind_ok in H as (cells & Hcells & H).
  apply rbind_ok in H as (flat & Hcat & H). injection H as <-.
  destruct (concatenate_axis1_inv _ _ Hcat) as (Hne & n & Hshape).
  assert (HvarsP : varsP <> []).
  { intros ->. simpl in Hcells. injection Hcells as <-. apply Hne. reflexivity. }
  destruct varsP as [|v0 vs] eqn:EvarsP; [congruence|]. rewrite <- EvarsP in *.
  assert (Hv0 : varsP !! 0 = Some v0) by (rewrite EvarsP; reflexivity).
  destruct (mapR_lookup _ _ _ _ _ Hcells Hv0) as (c0 & _ & Hc0).
  apply rbind_ok in Hc0 as (lv & Hlv & Hc0).
  apply rbind_ok in Hc0 as (ps & Hps & _).
  exists lv, ps, n.
  set (G := fun (v : string) (p : float) =>
              let* col := level_column v p in
              let* da := ds_getitem ds v in
              let* slice := sel_isobaricInhPa ds da (arr_dtype (da_values lv)) p in
              ok (col, reshape_column slice)).
  assert (Hcells' : mapR (fun v => mapR (G v) ps) varsP = ok cells).
  { rewrite <- Hcells. apply mapR_ext. intros v _. rewrite Hlv. simpl.
    rewrite Hps. reflexivity. }
  assert (Hlen : Forall (fun c => length c = length ps) cells).
  { eapply mapR_Forall; [|exact Hcells']. intros v c Hc.
    apply (mapR_length _ _ _ Hc). }
  assert (Hcl : length cells = length varsP) by apply (mapR_length _ _ _ Hcells').
  assert (Hcc : length (concat cells) = length varsP * length ps).
  { rewrite (length_concat_uniform _ _ Hlen), Hcl. reflexivity. }
  assert (Hps_ne : ps <> []).
  { intros ->. apply Hne. apply length_zero_iff_nil.
    rewrite length_fmap, Hcc. simpl. lia. }
  assert (Hslices : Forall (fun cell : string * ndarray =>
                       exists slice, cell.2 = reshape_column slice) (concat cells)).
  { apply Forall_concat. eapply mapR_Forall; [|exact Hcells'].
    intros v c Hc. simpl in Hc. eapply mapR_Forall; [|exact Hc].
    intros p y Hy. unfold G in Hy.
    apply rbind_ok in Hy as (col & _ & Hy).
    apply rbind_ok in Hy as (da & _ & Hy).
    apply rbind_ok in Hy as (slice & _ & Hy). injection Hy as <-.
    exists slice. reflexivity. }
  assert (Htab : Forall (table n 1) (snd <$> concat cells)).
  { apply Forall_fmap.
    rewrite Forall_forall in Hshape. rewrite Forall_forall in Hslices.
    apply Forall_forall.
    intros cell Hin.
    destruct (Hshape (cell.2)) as (w & Hw).
    { apply list_elem_of_fmap. exists cell. split; [reflexivity | exact Hin]. }
    destruct (Hslices _ Hin) as (slice & Hs). simpl in *.
    rewrite Hs in *. apply (reshape_column_table _ _ _ Hw). }
  destruct (concatenate_axis1_uniform _ n 1 Hne Htab) as (out & Hout & Htable & Hcell).
  rewrite Hcat in Hout. injection Hout as <-.
  rewrite length_fmap, Hcc, Nat.mul_1_r in Htable.
  refine (conj Hlv (conj Hps (conj HvarsP (conj Hps_ne (conj _ (conj Htable _)))))).
  - simpl. rewrite length_fmap. exact Hcc.
  - intros vi li v p Hv Hp.
    destruct (mapR_lookup _ _ _ _ _ Hcells' Hv) as (c & Hc & Hcv).
    destruct (mapR_lookup _ _ _ _ _ Hcv Hp) as (y & Hy & Hgy).
    unfold G in Hgy.
    apply rbind_ok in Hgy as (col & Hcol & Hgy).
    apply rbind_ok in Hgy as (da & Hda & Hgy).
    apply rbind_ok in Hgy as (slice & Hsl & Hgy). injection Hgy as <-.
    assert (Hli : li < length ps) by (apply lookup_lt_is_Some; eauto).
    assert (Hvi : vi < length varsP) by (apply lookup_lt_is_Some; eauto).
    assert (Hk : concat cells !! (vi * length ps + li)
                 = Some (col, reshape_column slice)).
    { rewrite (concat_lookup_uniform _ _ _ _ _ Hlen Hc Hli). exact Hy. }
    assert (Hb : (snd <$> concat cells) !! (vi * length ps + li)
                 = Some (reshape_column slice)).
    { rewrite list_lookup_fmap, Hk. reflexivity. }
    assert (Hsn : length (data slice) = n).
    { rewrite Forall_lookup in Htab. destruct (Htab _ _ Hb) as [Hsh _].
      simpl in Hsh. congruence. }
    exists col, da, slice.
    refine (conj Hcol (conj Hda (conj Hsl (conj _ (conj Hsn _))))).
    + simpl. rewrite list_lookup_fmap, Hk. reflexivity.
    + intros i Hi. simpl values.
      rewrite (table_get2 _ _ _ i (vi * length ps + li) Htable Hi) by nia.
      specialize (Hcell i (vi * length ps + li) 0 _ Hi Hb ltac:(lia)).
      rewrite length_fmap, Hcc in Hcell.
      replace (i * (length varsP * length ps * 1) + ((vi * length ps + li) * 1 + 0))
        with (i * (length varsP * length ps) + (vi * length ps + li)) in Hcell by lia.
      rewrite Hcell. simpl. f_equal. lia.
Qed.

(** The same, with the levels read in one step. *)
Lemma df_flatten_cells (ds : Dataset) (varsP : list string)
    (name : string) (df : DataFrame) :
  df_flatten ds varsP name = ok df ->
  exists levels n,
    (let* da := ds_getitem ds name in values_1d da) = ok levels /\
    varsP <> [] /\ levels <> [] /\
    length (columns df) = length varsP * length levels /\
    table n (length varsP * length levels) (values df) /\
    forall vi li v p, varsP !! vi = Some v -> levels !! li = Some p ->
      exists col da slice,
        level_column v p = ok col /\ ds_getitem ds v = ok da /\
        (exists dt, sel_isobaricInhPa ds da dt p = ok slice) /\
        columns df !! (vi * length levels + li) = Some col /\
        length (data slice) = n /\
        forall i, i < n ->
          get2 (values df) i (vi * length levels + li) = data slice !! i.
Proof.
  intros Hdf.
  destruct (df_flatten_inv _ _ _ _ Hdf)
    as (lv & levels & n & Hlv & Hvals & HvarsP & Hne & Hlen & Htable & Hcols).
  exists levels, n. split; [rewrite Hlv; exact Hvals|].
  split; [exact HvarsP|]. split; [exact Hne|]. split; [exact Hlen|].
  split; [exact Htable|].
  intros vi li v p Hv Hp.
  destruct (Hcols vi li v p Hv Hp) as (col & da & slice & H1 & H2 & H3 & H4).
  exists col, da, slice. split; [exact H1|]. split; [exact H2|].
  split; [eauto | exact H4].
Qed.

(** The frame [df_flatten] returns has one column per (variable, level)
    pair, variable-major and level-minor: column [vi * L + li] is named
    after variable [vi] and the integer part of level [li], and holds the
    flattened slice [ds[v].sel(isobaricInhPa=p)] of that variable at that
    level (selected by label under a level coordinate, by position
    without one).  A successful call had at least one variable and one
    level, and all columns have the same number of rows. *)
Theorem df_flatten_columns (ds : Dataset) (varsP : list string)
    (name : string) (df : DataFrame) :
  df_flatten ds varsP name = ok df ->
  exists lv levels n,
    ds_getitem ds name = ok lv /\ values_1d lv = ok levels /\
    varsP <> [] /\ levels <> [] /\
    length (columns df) = length varsP * length levels /\
    table n (length varsP * length levels) (values df) /\
    forall vi li v p, varsP !! vi = Some v -> levels !! li = Some p ->
      exists col da slice,
        level_column v p = ok col /\ ds_getitem ds v = ok da /\
        sel_isobaricInhPa ds da (arr_dtype (da_values lv)) p = ok slice /\
        columns df !! (vi * length levels + li) = Some col /\
        length (data slice) = n /\
        forall i, i < n ->
          get2 (values df) i (vi * length levels + li) = data slice !! i.
Proof. exact (df_flatten_inv ds varsP name df). Qed.

Lemma df_flatten_columns_witness :
  (exists df,
     df_flatten example_field ["t"] "isobaricInhPa" = ok df /\
     columns df = ["t_1000"; "t_900"] /\
     get2 (values df) 2 1 = Some 7%float) /\
  (exists df,
     df_flatten example_unlabelled ["t"] "isobaricInhPa" = ok df /\
     columns df = ["t_0"; "t_1"] /\
     get2 (values df) 1 1 = Some 4%float).
Proof.
  assert (H1 : df_flatten example_field ["t"] "isobaricInhPa"
               = ok (mkDataFrame ["t_1000"; "t_900"]
                       (NDArray [4; 2] float32 [1; 5; 2; 6; 3; 7; 4; 8]%float)))
    by (vm_compute; reflexivity).
  assert (H2 : df_flatten example_unlabelled ["t"] "isobaricInhPa"
               = ok (mkDataFrame ["t_0"; "t_1"]
                       (NDArray [2; 2] float32 [1; 3; 2; 4]%float)))
    by (vm_compute; reflexivity).
  split.
  - destruct (df_flatten_columns _ _ _ _ H1) as (lv & levels & n & _).
    eexists. split; [exact H1|]. split; reflexivity.
  - destruct (df_flatten_columns _ _ _ _ H2) as (lv & levels & n & _).
    eexists. split; [exact H2|]. split; reflexivity.
Defined.

(** [da.sel(isobaricInhPa=p)] on a (level, y, x) variable whose index
    holds [p] once, at position [k]: the [k]-th (y, x) block. *)
Lemma sel_isobaricInhPa_block (ds : Dataset) (da index : DataArray)
    (dt : dtype) (p : float) (k L ny nx : nat) :
  da_dims da = ["isobaricInhPa"; "y"; "x"] ->
  shape (da_values da) = [L; ny; nx] ->
  ds_variables ds !! "isobaricInhPa" = Some index ->
  label_positions p (data (da_values index)) 0 = [k] ->
  sel_isobaricInhPa ds da dt p =
    ok (NDArray [ny; nx] (arr_dtype (da_values da))
          (take (ny * nx) (drop (k * (ny * nx)) (data (da_values da))))).
Proof.
  intros Hdims Hshape Hindex Hpos. unfold sel_isobaricInhPa.
  rewrite Hdims. change (list_find _ _) with (Some (0, "isobaricInhPa")).
  cbv beta iota. rewrite Hindex, Hpos, Hshape.
  unfold take_axis. simpl. rewrite !app_nil_r, Nat.mul_1_r. reflexivity.
Qed.

(** Row [r * nx + c] of the frame [df_flatten] builds is grid position
    [(r, c)], and [grid_predictions] puts row [r * nx + c] of the
    prediction table back at position [(r, c)] of its fields: on a
    (level, y, x) variable whose level index holds level [li] once, the
    element [[li, r, c]] is found in row [r * nx + c] of the column of
    that variable and level, and the table has [ny * nx] rows; the
    probability of class [i] in row [r * nx + c] is found (as float32) in
    cell [(r, c)] of the field of class [i]. *)
Theorem flatten_unflatten_position (ds : Dataset) (varsP : list string)
    (df : DataFrame) (preds : ndarray) (ny nx vi li : nat) (v : string)
    (p : float) (da index : DataArray) :
  wf_dataset ds ->
  ds_dims ds !! "y" = Some ny -> ds_dims ds !! "x" = Some nx ->
  ds_size ds "y" = ok ny -> ds_size ds "x" = ok nx ->
  df_flatten ds varsP "isobaricInhPa" = ok df ->
  varsP !! vi = Some v ->
  ds_variables ds !! v = Some da ->
  da_dims da = ["isobaricInhPa"; "y"; "x"] -> wf_array (da_values da) ->
  ds_variables ds !! "isobaricInhPa" = Some index ->
  data (da_values index) !! li = Some p ->
  label_positions p (data (da_values index)) 0 = [li] ->
  table (ny * nx) 4 preds ->
  (forall r c x, get3 (da_values da) li r c = Some x ->
     exists w, table (ny * nx) w (values df) /\
       get2 (values df) (r * nx + c)
            (vi * length (data (da_values index)) + li) = Some x) /\
  exists out s,
    grid_predictions preds ds = (ok out, s) /\
    forall r c i name q,
      r < ny -> c < nx ->
      ["ML_rain"; "ML_snow"; "ML_icep"; "ML_frzr"] !! i = Some name ->
      get2 preds (r * nx + c) i = Some q ->
      exists dp,
        ds_variables out !! name = Some dp /\
        get2 (da_values dp) r c = Some (round_float32 q).
Proof.
  intros Hwf Hy Hx Hsy Hsx Hdf Hv Hda Hdims Hwfa Hindex Hp Hpos Hpreds.
  split.
  - intros r c x Hx3.
    destruct (df_flatten_cells _ _ _ _ Hdf)
      as (levels & n & Hlevels & _ & _ & _ & Htable & Hcols).
    unfold ds_getitem in Hlevels. rewrite Hindex in Hlevels. simpl in Hlevels.
    assert (levels = data (da_values index)) as ->.
    { unfold values_1d in Hlevels.
      destruct (shape (da_values index)) as [|? [|? ?]]; try discriminate.
      injection Hlevels as <-. reflexivity. }
    destruct (Hcols vi li v p Hv Hp)
      as (col & da' & slice & _ & Hda' & [dt Hsl] & _ & Hn & Hget).
    unfold ds_getitem in Hda'. rewrite Hda in Hda'. injection Hda' as <-.
    pose proof (Hwf _ _ Hda) as Hsh. rewrite Hdims in Hsh.
    destruct (shape (da_values da)) as [|L [|ny' [|nx' [|? ?]]]] eqn:Hshape;
      try (exfalso; repeat match goal with
                           | H : Forall2 _ _ _ |- _ => inversion H; clear H; subst
                           end; fail).
    assert (ny' = ny /\ nx' = nx) as [-> ->].
    { inversion Hsh as [|? ? ? ? _ Hsh1]; subst.
      inversion Hsh1 as [|? ? ? ? Hy' Hsh2]; subst.
      inversion Hsh2 as [|? ? ? ? Hx' _]; subst.
      split; congruence. }
    rewrite (sel_isobaricInhPa_block ds da index dt p li L ny nx
               Hdims Hshape Hindex Hpos) in Hsl.
    injection Hsl as <-. simpl in Hn, Hget.
    unfold get3 in Hx3. rewrite Hshape in Hx3.
    destruct (decide (li < L /\ r < ny /\ c < nx)) as [(HlL & Hr & Hc)|]; [|discriminate].
    unfold wf_array in Hwfa. rewrite Hshape in Hwfa. simpl in Hwfa.
    assert (n = ny * nx) as ->.
    { rewrite <- Hn, length_take, length_drop. nia. }
    exists (length varsP * length (data (da_values index))).
    split; [exact Htable|].
    rewrite Hget by nia.
    rewrite lookup_take, decide_True by nia. rewrite lookup_drop.
    rewrite <- Hx3.
    replace (li * (ny * nx) + (r * nx + c)) with ((li * ny + r) * nx + c)
      by (rewrite Nat.mul_add_distr_r, Nat.mul_assoc; lia).
    reflexivity.
  - destruct (grid_predictions_cells preds ds ny nx Hpreds Hwf Hy Hx Hsy Hsx)
      as (out & s & Hrun & Hcells).
    exists out, s. split; [exact Hrun|]. intros r c i name q Hr Hc Hi Hg.
    assert (exists long_v v', class_names !! i = Some (long_v, v') /\
                              name = "ML_" +:+ v') as (long_v & v' & Hcn & ->).
    { destruct i as [|[|[|[|i]]]]; cbn in Hi; try discriminate;
        injection Hi as <-; eexists _, _; split; reflexivity. }
    destruct (Hcells r c i long_v v' Hr Hc Hcn)
      as (dp & dc & p' & Hdp & _ & _ & _ & Hp' & Hcell & _).
    assert (p' = q) as ->.
    { pose proof (lookup_lt_Some _ _ _ Hi) as Hi4. cbn in Hi4.
      rewrite (table_get2 (ny * nx) 4) in Hg by (try assumption; nia).
      rewrite buf_row_lookup in Hp' by lia. congruence. }
    exists dp. split; [exact Hdp | exact Hcell].
Qed.

Lemma flatten_unflatten_position_witness :
  exists df out s dp,
    df_flatten example_field ["t"] "isobaricInhPa" = ok df /\
    get2 (values df) 2 1 = Some 7%float /\
    grid_predictions example_preds example_field = (ok out, s) /\
    ds_variables out !! "ML_frzr" = Some dp /\
    get2 (da_values dp) 1 0 = Some (round_float32 1%float).
Proof.
  pose (da := mkDataArray ["isobaricInhPa"; "y"; "x"]
                (NDArray [2; 2; 2] float32 [1; 2; 3; 4; 5; 6; 7; 8]%float) ∅).
  pose (index := mkDataArray ["isobaricInhPa"]
                   (NDArray [2] float64 [1000; 900]%float) ∅).
  pose (df := mkDataFrame ["t_1000"; "t_900"]
                (NDArray [4; 2] float32 [1; 5; 2; 6; 3; 7; 4; 8]%float)).
  assert (Hdf : df_flatten example_field ["t"] "isobaricInhPa" = ok df)
    by (vm_compute; reflexivity).
  assert (Hda : ds_variables example_field !! "t" = Some da)
    by (vm_compute; reflexivity).
  assert (Hindex : ds_variables example_field !! "isobaricInhPa" = Some index)
    by (vm_compute; reflexivity).
  assert (Hpos : label_positions 900%float (data (da_values index)) 0 = [1])
    by (vm_compute; reflexivity).
  assert (H7 : get3 (da_values da) 1 1 0 = Some 7%float)
    by (vm_compute; reflexivity).
  assert (Hq : get2 example_preds (1 * 2 + 0) 3 = Some 1%float)
    by (vm_compute; reflexivity).
  destruct (flatten_unflatten_position example_field ["t"] df example_preds
              2 2 0 1 "t" 900%float da index
              example_field_wf eq_refl eq_refl eq_refl eq_refl Hdf eq_refl
              Hda eq_refl eq_refl Hindex eq_refl Hpos example_preds_table)
    as [Hflat (out & s & Hrun & Hcells)].
  destruct (Hflat 1 0 7%float H7) as (w & _ & Hg).
  destruct (Hcells 1 0 3 "ML_frzr" 1%float (Nat.lt_succ_diag_r 1)
              (Nat.lt_0_succ 1) eq_refl Hq) as (dp & Hdp & Hcell).
  exists df, out, s, dp.
  exact (conj Hdf (conj Hg (conj Hrun (conj Hdp Hcell)))).
Defined.

End Flatten.

(* ================================================================== *)
(** ** [df_flatten]: what a call needs to succeed *)
(* ================================================================== *)

Section FlattenFailures.

Lemma mapR_const_nil {A B} (xs : list A) :
  mapR (fun _ : A => ok (@nil B)) xs = ok (replicate (length xs) []).
Proof.
  induction xs as [|x xs IH]; simpl; [reflexivity|].
  rewrite IH. reflexivity.
Qed.

Lemma concat_replicate_nil {A} (n : nat) : concat (replicate n (@nil A)) = [].
Proof. induction n; simpl; auto. Qed.

(** Without a variable to flatten, or without a level on the vertical
    axis, [df_flatten] has nothing to concatenate and raises numpy's
    [ValueError]; it never returns a frame without columns. *)
Theorem df_flatten_nothing_to_concatenate (ds : Dataset)
    (varsP : list string) (name : string) :
  varsP = [] \/
  (let* da := ds_getitem ds name in values_1d da) = ok [] ->
  df_flatten ds varsP name
  = raise (ValueError "need at least one array to concatenate").
Proof.
  intros [-> | Hlv]; [reflexivity|].
  unfold df_flatten.
  apply rbind_ok in Hlv as (lv & Hlv & Hps).
  rewrite (mapR_ext _ (fun _ => ok []) varsP).
  2:{ intros v _. rewrite Hlv. simpl. rewrite Hps. reflexivity. }
  rewrite mapR_const_nil. simpl. rewrite concat_replicate_nil. reflexivity.
Qed.

Lemma df_flatten_nothing_to_concatenate_witness :
  df_flatten example_field [] "isobaricInhPa"
  = raise (ValueError "need at least one array to concatenate") /\
  df_flatten (mkDataset {["isobaricInhPa" := 0]} ∅ ∅ ∅) ["t"; "u"]
             "isobaricInhPa"
  = raise (ValueError "need at least one array to concatenate").
Proof.
  split.
  - apply (df_flatten_nothing_to_concatenate example_field [] "isobaricInhPa").
    left. reflexivity.
  - apply (df_flatten_nothing_to_concatenate
             (mkDataset {["isobaricInhPa" := 0]} ∅ ∅ ∅) ["t"; "u"]
             "isobaricInhPa").
    right. vm_compute. reflexivity.
Defined.

(** The selection [sel(isobaricInhPa=p)] is written into [df_flatten]
    whatever [vertical_level_name] is passed: a call succeeds only if
    every level value of [ds[vertical_level_name]] converts to an integer
    (it is neither NaN nor infinite) and every requested variable exists
    and has the dimension [isobaricInhPa]. *)
Theorem df_flatten_requirements (ds : Dataset) (varsP : list string)
    (name : string) (df : DataFrame) :
  df_flatten ds varsP name = ok df ->
  exists levels,
    (let* da := ds_getitem ds name in values_1d da) = ok levels /\
    (forall p, p ∈ levels -> exists z, int_of_float p = ok z) /\
    (forall v, v ∈ varsP ->
       exists da, ds_getitem ds v = ok da /\ "isobaricInhPa" ∈ da_dims da).
Proof.
  intros Hdf.
  destruct (df_flatten_cells _ _ _ _ Hdf)
    as (levels & n & Hlevels & HvarsP & Hne & _ & _ & Hcols).
  exists levels. split; [exact Hlevels|]. split.
  - intros p Hp. apply list_elem_of_lookup in Hp as (li & Hli).
    destruct varsP as [|v vs]; [congruence|].
    destruct (Hcols 0 li v p eq_refl Hli) as (col & _ & _ & Hcol & _).
    unfold level_column in Hcol.
    apply rbind_ok in Hcol as (z & Hz & _). eauto.
  - intros v Hv. apply list_elem_of_lookup in Hv as (vi & Hvi).
    destruct levels as [|p ps]; [congruence|].
    destruct (Hcols vi 0 v p Hvi eq_refl)
      as (col & da & slice & _ & Hda & [dt Hsl] & _).
    exists da. split; [exact Hda|].
    unfold sel_isobaricInhPa in Hsl.
    destruct (list_find _ (da_dims da)) as [[axis d]|] eqn:Hfind; [|discriminate].
    apply list_find_Some in Hfind as (Hd & -> & _).
    apply (list_elem_of_lookup_2 _ _ _ Hd).
Qed.

Lemma df_flatten_requirements_witness :
  exists levels,
    (let* da := ds_getitem example_field "isobaricInhPa" in values_1d da)
    = ok levels /\
    (forall p, p ∈ levels -> exists z, int_of_float p = ok z) /\
    (forall v, v ∈ ["t"] ->
       exists da, ds_getitem example_field v = ok da /\
                  "isobaricInhPa" ∈ da_dims da).
Proof.
  apply (df_flatten_requirements example_field ["t"] "isobaricInhPa"
           (mkDataFrame ["t_1000"; "t_900"]
              (NDArray [4; 2] float32 [1; 5; 2; 6; 3; 7; 4; 8]%float))).
  vm_compute. reflexivity.
Defined.

End FlattenFailures.

(* ================================================================== *)
(** ** [convert_and_interpolate]: layout of the result *)
(* ================================================================== *)

Section Layout.


(** The passes of the loop over the four variables in a successful call. *)
Lemma convert_and_interpolate_passes (df : DataFrame)
    (surface_data : gmap string (list float)) (pressure_levels : list float)
    (height_levels : HeightLevels) (out : ndarray) :
  convert_and_interpolate df surface_data pressure_levels height_levels = ok out ->
  exists (ls : list Z) (n m : nat) (hgt_cols : list string)
         (height_data : ndarray) (var_arrays : list ndarray),
    target_levels height_levels = ok ls /\
    mapR (level_column "hgt_above_sfc") pressure_levels = ok hgt_cols /\
    select_columns df hgt_cols = ok height_data /\
    shape height_data = [n; m] /\
    concatenate_axis1 var_arrays = ok out /\
    length var_arrays = 4 /\
    forall k v sv, variables !! k = Some v -> surface_variables !! k = Some sv ->
      exists a v_cols pld hid sfc,
        var_arrays !! k = Some a /\
        mapR (level_column v) pressure_levels = ok v_cols /\
        select_columns df v_cols = ok pld /\
        interpolate height_data pld ls = ok hid /\
        surface_data !! sv = Some sfc /\
        setitem_column0 hid sfc = ok a.
Proof.
  unfold convert_and_interpolate. intros H.
  apply rbind_ok in H as (ls & Hls & H).
  apply rbind_ok in H as (cols & Hcols & H).
  apply rbind_ok in H as (hgt_cols & Hhgt & H).
  apply rbind_ok in H as (height_data & Hhd & H).
  apply rbind_ok in H as (var_arrays & Hva & H).
  destruct (select_columns_ok _ _ _ Hhd) as (n & w & m & _ & Hsh & _ & _).
  assert (forall var, var ∈ profile_variables ->
            exists names, dict_get cols var = ok names /\
                          mapR (level_column var) pressure_levels = ok names) as Hnames.
  { intros var Hvar. exact (dict_get_mapR _ _ _ _ Hcols Hvar). }
  pose proof (mapR_length _ _ _ Hva) as Hlen. cbn in Hlen.
  exists ls, n, m, hgt_cols, height_data, var_arrays.
  split; [exact Hls|]. split.
  { destruct (Hnames "hgt_above_sfc") as (names & Hget & Hmap).
    { unfold profile_variables. repeat constructor. }
    congruence. }
  split; [exact Hhd|]. split; [exact Hsh|]. split; [exact H|].
  split; [exact Hlen|].
  intros k v sv Hv Hsv.
  assert (zip variables surface_variables !! k = Some (v, sv)) as Hz.
  { unfold variables, surface_variables in Hv, Hsv |- *.
    destruct k as [|[|[|[|k]]]]; simpl in Hv, Hsv |- *;
      rewrite ?lookup_nil in Hv; congruence. }
  destruct (mapR_lookup _ _ _ _ _ Hva Hz) as (a & Ha & Hbody).
  apply rbind_ok in Hbody as (v_cols & Hvc & Hbody).
  apply rbind_ok in Hbody as (pld & Hpld & Hbody).
  apply rbind_ok in Hbody as (hid & Hhid & Hbody).
  apply rbind_ok in Hbody as (sfc & Hsfc & Hbody).
  destruct (Hnames v) as (names & Hget & Hmap).
  { apply list_elem_of_lookup_2 in Hv. unfold variables in Hv.
    unfold profile_variables.
    repeat (apply elem_of_cons in Hv as [->|Hv]; [repeat constructor|]).
    apply elem_of_nil in Hv. destruct Hv. }
  unfold surface_getitem in Hsfc.
  destruct (surface_data !! sv) as [vec|] eqn:E; [|discriminate].
  injection Hsfc as <-.
  exists a, v_cols, pld, hid, vec.
  split; [exact Ha|]. split; [congruence|].
  split; [exact Hpld|]. split; [exact Hhid|]. split; [reflexivity | exact Hbody].
Qed.

(** The four blocks as tables, and the concatenated result. *)
Lemma convert_and_interpolate_blocks (var_arrays : list ndarray)
    (out : ndarray) (n h : nat) :
  length var_arrays = 4 ->
  (forall k a, var_arrays !! k = Some a -> table n h a) ->
  concatenate_axis1 var_arrays = ok out ->
  table n (4 * h) out /\
  forall i k j a, i < n -> var_arrays !! k = Some a -> j < h ->
    get2 out i (k * h + j) = data a !! (i * h + j).
Proof.
  intros Hlen Hall Hcat.
  assert (Forall (table n h) var_arrays) as HF.
  { apply Forall_lookup. exact Hall. }
  destruct (concatenate_axis1_uniform var_arrays n h) as (out' & Hout & Ht & Hcell);
    [destruct var_arrays; [discriminate Hlen | discriminate] | exact HF |].
  rewrite Hcat in Hout. injection Hout as <-. rewrite Hlen in Ht, Hcell.
  split; [exact Ht|].
  intros i k j a Hi Ha Hj.
  assert (k < 4) by (apply lookup_lt_Some in Ha; lia).
  rewrite (table_get2 _ _ _ i (k * h + j) Ht Hi) by nia.
  exact (Hcell i k j a Hi Ha Hj).
Qed.

(** The result of a successful call has one block of [H] columns per core
    variable ([H] the number of target levels).  In the block of the
    [k]-th variable, every column but the first holds what [np.interp]
    gives for that target level from the point's own row of heights and
    its own row of the variable: row [i], column [k * H + j] with
    [0 < j] is entry [j] of [np.interp(levels, heights[i], values[i])].
    Where [np.interp] raises (no pressure level, or rows of different
    lengths) the exception is lost in the parallel loop and the cell is
    the 0 it was created with. *)
Theorem convert_and_interpolate_layout (df : DataFrame)
    (surface_data : gmap string (list float)) (pressure_levels : list float)
    (height_levels : HeightLevels) (out : ndarray) :
  convert_and_interpolate df surface_data pressure_levels height_levels = ok out ->
  exists (ls : list Z) (n m : nat) (hgt_cols : list string) (height_data : ndarray),
    target_levels height_levels = ok ls /\
    mapR (level_column "hgt_above_sfc") pressure_levels = ok hgt_cols /\
    select_columns df hgt_cols = ok height_data /\
    shape height_data = [n; m] /\
    table n (4 * length ls) out /\
    forall k v i j,
      variables !! k = Some v -> i < n -> 0 < j < length ls ->
      exists v_cols pld xi yi,
        mapR (level_column v) pressure_levels = ok v_cols /\
        select_columns df v_cols = ok pld /\
        getrow height_data i = ok xi /\ getrow pld i = ok yi /\
        (forall vs, np_interp (Z2float <$> ls) xi yi = ok vs ->
           get2 out i (k * length ls + j) = vs !! j) /\
        (forall e, np_interp (Z2float <$> ls) xi yi = raise e ->
           get2 out i (k * length ls + j) = Some 0%float).
Proof.
  intros H.
  destruct (convert_and_interpolate_passes _ _ _ _ _ H)
    as (ls & n & m & hgt_cols & height_data & var_arrays
        & Hls & Hhc & Hhd & Hsh & Hcat & Hlen & Hloop).
  assert (forall k, k < 4 -> exists v sv, variables !! k = Some v /\
                                          surface_variables !! k = Some sv) as Hnames.
  { intros k Hk. destruct k as [|[|[|[|k]]]]; [eauto..|lia]. }
  assert (Hall : forall k a, var_arrays !! k = Some a -> table n (length ls) a).
  { intros k a Ha.
    destruct (Hnames k) as (v & sv & Hv & Hsv); [apply lookup_lt_Some in Ha; lia|].
    destruct (Hloop k v sv Hv Hsv) as (a' & ? & ? & hid & sfc & Ha' & _ & _ & Hi & _ & Hset).
    rewrite Ha in Ha'. injection Ha' as <-.
    destruct (interpolate_table _ _ _ _ _ _ Hsh Hi) as [Ht _].
    exact (proj1 (proj2 (setitem_column0_ok _ _ _ _ _ Ht Hset))). }
  destruct (convert_and_interpolate_blocks _ _ _ _ Hlen Hall Hcat) as [Ht Hcell].
  exists ls, n, m, hgt_cols, height_data.
  refine (conj Hls (conj Hhc (conj Hhd (conj Hsh (conj Ht _))))).
  intros k v i j Hv Hi Hj.
  destruct (Hnames k) as (v' & sv & Hv' & Hsv); [apply lookup_lt_Some in Hv; exact Hv|].
  rewrite Hv in Hv'. injection Hv' as <-.
  destruct (Hloop k v sv Hv Hsv)
    as (a & v_cols & pld & hid & sfc & Ha & Hvc & Hpld & Hint & _ & Hset).
  destruct (interpolate_table _ _ _ _ _ _ Hsh Hint) as [Hthid _].
  destruct (setitem_column0_ok _ _ _ _ _ Hthid Hset) as (_ & _ & _ & _ & Hframe).
  destruct (interpolate_row _ _ _ _ i _ _ Hsh Hint Hi)
    as (_ & xi & yi & Hxi & Hyi & Hvs).
  exists v_cols, pld, xi, yi.
  refine (conj Hvc (conj Hpld (conj Hxi (conj Hyi _)))).
  assert (Hget : get2 out i (k * length ls + j)
                 = interp_row (Z2float <$> ls) xi yi !! j).
  { rewrite (Hcell i k j a Hi Ha) by lia.
    rewrite (Hframe i j Hi Hj), <- Hvs.
    rewrite buf_row_lookup by lia. reflexivity. }
  rewrite Hget. unfold interp_row. split.
  - intros vs ->. reflexivity.
  - intros e ->. rewrite length_fmap. apply lookup_replicate_2. lia.
Qed.

Lemma convert_and_interpolate_layout_witness :
  exists out,
    convert_and_interpolate example_frame example_surface [1000; 900]%float
      (mkHeightLevels 0 1000 500) = ok out /\
    get2 out 1 (1 * 3 + 1) = Some 16.5%float.
Proof.
  destruct (convert_and_interpolate example_frame example_surface
              [1000; 900]%float (mkHeightLevels 0 1000 500)) as [e|out] eqn:E;
    [vm_compute in E; discriminate E|].
  exists out. split; [reflexivity|].
  destruct (convert_and_interpolate_layout _ _ _ _ _ E)
    as (ls & n & m & hgt_cols & height_data & Hls & Hhc & Hhd & Hsh & _ & Hcell).
  vm_compute in Hls. injection Hls as <-.
  vm_compute in Hhc. injection Hhc as <-.
  vm_compute in Hhd. injection Hhd as <-.
  simpl in Hsh. injection Hsh as <- <-.
  destruct (Hcell 1 "dpt" 1 1 eq_refl ltac:(lia) ltac:(simpl; lia))
    as (v_cols & pld & xi & yi & Hvc & Hpld & Hxi & Hyi & Hget & _).
  vm_compute in Hvc. injection Hvc as <-.
  vm_compute in Hpld. injection Hpld as <-.
  vm_compute in Hxi. injection Hxi as <-.
  vm_compute in Hyi. injection Hyi as <-.
  exact (Hget _ ltac:(vm_compute; reflexivity)).
Defined.

End Layout.

(* ================================================================== *)
(** ** [convert_and_interpolate]: surface rows and the level range *)
(* ================================================================== *)

Section SurfaceRows.



(** A call succeeds only on a range of target levels that is not empty:
    the interval is not zero, and [high + interval] lies beyond [low] in
    the direction of the interval.  (With no target level the arrays have
    no column 0 to assign the surface observations to.) *)
Theorem convert_and_interpolate_level_range (df : DataFrame)
    (surface_data : gmap string (list float)) (pressure_levels : list float)
    (height_levels : HeightLevels) (out : ndarray) :
  convert_and_interpolate df surface_data pressure_levels height_levels = ok out ->
  (0 < interval height_levels /\
   low height_levels < high height_levels + interval height_levels)%Z \/
  (interval height_levels < 0 /\
   high height_levels + interval height_levels < low height_levels)%Z.
Proof.
  intros H.
  destruct (convert_and_interpolate_inv _ _ _ _ _ H)
    as (ls & n & w & var_arrays & Hls & _ & _ & _ & Hpos & _).
  unfold target_levels in Hls.
  pose proof (np_arange_length _ _ _ _ Hls) as Hlen.
  unfold np_arange in Hls. case_decide as Hz; [discriminate|].
  destruct height_levels as [lo hi step]. simpl in *.
  unfold ceil_div in Hlen.
  assert (0 < - (- (hi + step - lo) / step))%Z as Hc by lia.
  destruct (Z.lt_trichotomy step 0) as [Hneg | [? | Hp]]; [right | lia | left].
  - split; [exact Hneg|].
    pose proof (Z.div_mod (- (hi + step - lo)) step Hz).
    pose proof (Z.mod_neg_bound (- (hi + step - lo)) step Hneg). nia.
  - split; [exact Hp|].
    pose proof (Z.div_mod (- (hi + step - lo)) step Hz).
    pose proof (Z.mod_pos_bound (- (hi + step - lo)) step Hp). nia.
Qed.

Lemma convert_and_interpolate_level_range_witness :
  (0 < 500 /\ 0 < 1000 + 500)%Z \/ (500 < 0 /\ 1000 + 500 < 0)%Z.
Proof.
  destruct (convert_and_interpolate example_frame example_surface
              [1000; 900]%float (mkHeightLevels 0 1000 500)) as [e|out] eqn:E;
    [vm_compute in E; discriminate E|].
  exact (convert_and_interpolate_level_range _ _ _ _ _ E).
Defined.

End SurfaceRows.

(* ================================================================== *)
(** ** From [df_flatten] to [convert_and_interpolate] *)
(* ================================================================== *)

Section Pipeline.

(** In a frame with distinct labels a label selects one column. *)
Lemma positions_unique (name : string) (cols : list string) (i0 c : nat) :
  NoDup cols -> cols !! c = Some name -> positions name cols i0 = [i0 + c].
Proof.
  revert i0 c. induction cols as [|c0 cols IH]; intros i0 c Hnd Hc; [discriminate|].
  apply NoDup_cons in Hnd as [Hnotin Hnd]. simpl.
  destruct c as [|c]; simpl in Hc.
  - injection Hc as ->. rewrite decide_True by reflexivity.
    rewrite (proj2 (positions_nil name cols (S i0)) Hnotin).
    rewrite Nat.add_0_r. reflexivity.
  - rewrite decide_False.
    2:{ intros ->. apply Hnotin. apply (list_elem_of_lookup_2 _ _ _ Hc). }
    rewrite (IH (S i0) c Hnd Hc). f_equal. lia.
Qed.

Lemma select_columns_unique (df : DataFrame) (names : list string)
    (cs : list nat) (n w : nat) :
  shape (values df) = [n; w] -> NoDup (columns df) ->
  Forall2 (fun name c => columns df !! c = Some name) names cs ->
  select_columns df names
  = ok (NDArray [n; length cs] (arr_dtype (values df))
          (flat_map (fun i =>
             (fun j => fget (buf_row w (data (values df)) i) (Z.of_nat j)) <$> cs)
             (seq 0 n))).
Proof.
  intros Hsh Hnd Hall. unfold select_columns.
  assert (mapR (fun name =>
                  match positions name (columns df) 0 with
                  | [] => raise (KeyError name)
                  | ps => ok ps
                  end) names = ok ((fun c => [c]) <$> cs)) as ->.
  { induction Hall as [|name c names cs Hc _ IH]; [reflexivity|].
    simpl. rewrite (positions_unique name (columns df) 0 c Hnd Hc). simpl.
    rewrite IH. reflexivity. }
  unfold rbind, ok. rewrite Hsh.
  assert (concat ((fun c => [c]) <$> cs) = cs) as ->.
  { clear. induction cs as [|c cs IH]; simpl; [reflexivity|]. f_equal. exact IH. }
  reflexivity.
Qed.

(** Row [i] of a selection of distinct-label columns at positions [cs]. *)
Lemma select_columns_row (df : DataFrame) (names : list string)
    (cs : list nat) (n w i l c : nat) (a : ndarray) :
  table n w (values df) -> NoDup (columns df) ->
  Forall2 (fun name c => columns df !! c = Some name) names cs ->
  select_columns df names = ok a ->
  i < n -> cs !! l = Some c -> c < w ->
  exists row, getrow a i = ok row /\ length row = length cs /\
              row !! l = get2 (values df) i c.
Proof.
  intros [Hsh Hlen] Hnd Hall Hsel Hi Hl Hc.
  rewrite (select_columns_unique df names cs n w Hsh Hnd Hall) in Hsel.
  injection Hsel as <-. unfold getrow. simpl.
  rewrite decide_True by exact Hi.
  eexists. split; [reflexivity|].
  rewrite buf_row_flat_map by (try exact Hi; intros; apply length_fmap).
  split; [apply length_fmap|].
  rewrite list_lookup_fmap, Hl. simpl.
  unfold get2. rewrite Hsh, decide_True by (split; assumption).
  rewrite <- (buf_row_lookup w (data (values df)) i c Hc).
  destruct (lookup_lt_is_Some_2 (buf_row w (data (values df)) i) c) as [x Hx].
  { rewrite (table_row_length n w (values df) i (conj Hsh Hlen) Hi). exact Hc. }
  rewrite Hx, (fget_lookup _ _ _ Hx). reflexivity.
Qed.

(** The labels [convert_and_interpolate] asks for, for the [vi]-th
    variable of a frame flattened over the same levels, sit at the
    positions [vi * L + l]. *)
Lemma flattened_labels (ds : Dataset) (varsP : list string) (df : DataFrame)
    (index : DataArray) (vi : nat) (v : string) (names : list string) :
  df_flatten ds varsP "isobaricInhPa" = ok df ->
  ds_variables ds !! "isobaricInhPa" = Some index ->
  varsP !! vi = Some v ->
  mapR (level_column v) (data (da_values index)) = ok names ->
  Forall2 (fun name c => columns df !! c = Some name) names
    ((fun l => vi * length (data (da_values index)) + l)
       <$> seq 0 (length (data (da_values index)))).
Proof.
  intros Hdf Hindex Hv Hnames.
  destruct (df_flatten_cells _ _ _ _ Hdf)
    as (levels & n & Hlevels & _ & _ & _ & _ & Hcols).
  unfold ds_getitem in Hlevels. rewrite Hindex in Hlevels. simpl in Hlevels.
  assert (levels = data (da_values index)) as ->.
  { unfold values_1d in Hlevels.
    destruct (shape (da_values index)) as [|? [|? ?]]; try discriminate.
    injection Hlevels as <-. reflexivity. }
  pose proof (mapR_length _ _ _ Hnames) as Hlen.
  apply Forall2_same_length_lookup_2.
  { rewrite length_fmap, length_seq. exact Hlen. }
  intros l name c Hname Hc.
  rewrite list_lookup_fmap in Hc.
  destruct (seq 0 (length (data (da_values index))) !! l) as [l'|] eqn:Hl; [|discriminate].
  apply lookup_seq in Hl as [-> Hl]. simpl in Hc. injection Hc as <-.
  destruct (lookup_lt_is_Some_2 (data (da_values index)) l Hl) as [p Hp].
  destruct (mapR_lookup _ _ _ _ _ Hnames Hp) as (name' & Hn' & Hlc).
  rewrite Hname in Hn'. injection Hn' as <-.
  destruct (Hcols vi l v p Hv Hp) as (col & _ & _ & Hcol & _ & _ & Hcl & _).
  rewrite Hlc in Hcol. injection Hcol as <-. exact Hcl.
Qed.

(** [load_data] flattens the five profile variables and [main] hands the
    frame, with the levels of the same dataset, to
    [convert_and_interpolate].  When the column labels are distinct and
    the call succeeds, the profile interpolated for point [i] and core
    variable [k] is row [i] of the frame: the abscissae are its columns
    [4 * L ..] (the heights above the surface, level by level), the
    ordinates its columns [k * L ..], and column [k * H + j] ([0 < j]) of
    the result is entry [j] of [np.interp] on them. *)
Theorem flatten_then_interpolate (ds : Dataset) (df : DataFrame)
    (index : DataArray) (surface_data : gmap string (list float))
    (height_levels : HeightLevels) (out : ndarray) :
  df_flatten ds profile_variables "isobaricInhPa" = ok df ->
  ds_variables ds !! "isobaricInhPa" = Some index ->
  NoDup (columns df) ->
  convert_and_interpolate df surface_data (data (da_values index)) height_levels
  = ok out ->
  exists (ls : list Z) (n : nat),
    target_levels height_levels = ok ls /\
    table n (5 * length (data (da_values index))) (values df) /\
    table n (4 * length ls) out /\
    forall k i j, k < 4 -> i < n -> 0 < j < length ls ->
      exists xi yi vs,
        length xi = length (data (da_values index)) /\
        length yi = length (data (da_values index)) /\
        (forall l, l < length (data (da_values index)) ->
           xi !! l = get2 (values df) i (4 * length (data (da_values index)) + l)) /\
        (forall l, l < length (data (da_values index)) ->
           yi !! l = get2 (values df) i (k * length (data (da_values index)) + l)) /\
        np_interp (Z2float <$> ls) xi yi = ok vs /\
        get2 out i (k * length ls + j) = vs !! j.
Proof.
  intros Hdf Hindex Hnd H.
  set (L := length (data (da_values index))).
  destruct (convert_and_interpolate_passes _ _ _ _ _ H)
    as (ls & n & m & hgt_cols & height_data & var_arrays
        & Hls & Hhc & Hhd & Hsh & Hcat & Hlen & Hloop).
  assert (HLpos : 0 < L).
  { destruct (df_flatten_cells _ _ _ _ Hdf)
      as (levels & n0 & Hlevels & _ & Hne & _).
    unfold ds_getitem in Hlevels. rewrite Hindex in Hlevels. simpl in Hlevels.
    unfold values_1d in Hlevels.
    destruct (shape (da_values index)) as [|? [|? ?]]; try discriminate.
    injection Hlevels as <-. unfold L.
    destruct (data (da_values index)); [congruence | simpl; lia]. }
  assert (Htab : table n (5 * L) (values df)).
  { destruct (df_flatten_cells _ _ _ _ Hdf)
      as (levels & n0 & Hlevels & _ & _ & _ & Ht & _).
    unfold ds_getitem in Hlevels. rewrite Hindex in Hlevels. simpl in Hlevels.
    assert (levels = data (da_values index)) as ->.
    { unfold values_1d in Hlevels.
      destruct (shape (da_values index)) as [|? [|? ?]]; try discriminate.
      injection Hlevels as <-. reflexivity. }
    destruct (select_columns_ok _ _ _ Hhd) as (n' & w & m' & Hdfs & Hsh' & _).
    rewrite Hsh in Hsh'. injection Hsh' as <- <-.
    destruct Ht as [Hs0 Hl0]. rewrite Hdfs in Hs0. injection Hs0 as <- ->.
    split; [exact Hdfs | exact Hl0]. }
  assert (forall k, k < 4 -> exists v sv, variables !! k = Some v /\
                                          surface_variables !! k = Some sv /\
                                          profile_variables !! k = Some v) as Hnames.
  { intros k Hk. destruct k as [|[|[|[|k]]]]; [eauto 6..|lia]. }
  assert (Hall : forall k a, var_arrays !! k = Some a -> table n (length ls) a).
  { intros k a Ha.
    destruct (Hnames k) as (v & sv & Hv & Hsv & _); [apply lookup_lt_Some in Ha; lia|].
    destruct (Hloop k v sv Hv Hsv) as (a' & ? & ? & hid & sfc & Ha' & _ & _ & Hi & _ & Hset).
    rewrite Ha in Ha'. injection Ha' as <-.
    destruct (interpolate_table _ _ _ _ _ _ Hsh Hi) as [Ht _].
    exact (proj1 (proj2 (setitem_column0_ok _ _ _ _ _ Ht Hset))). }
  destruct (convert_and_interpolate_blocks _ _ _ _ Hlen Hall Hcat) as [Ht Hcell].
  exists ls, n. split; [exact Hls|]. split; [exact Htab|]. split; [exact Ht|].
  intros k i j Hk Hi Hj.
  destruct (Hnames k Hk) as (v & sv & Hv & Hsv & Hpv).
  destruct (Hloop k v sv Hv Hsv)
    as (a & v_cols & pld & hid & sfc & Ha & Hvc & Hpld & Hint & _ & Hset).
  destruct (interpolate_table _ _ _ _ _ _ Hsh Hint) as [Hthid _].
  destruct (setitem_column0_ok _ _ _ _ _ Hthid Hset) as (_ & _ & _ & _ & Hframe).
  destruct (interpolate_row _ _ _ _ i _ _ Hsh Hint Hi)
    as (_ & xi & yi & Hxi & Hyi & Hvs).
  pose proof (flattened_labels ds profile_variables df index 4 "hgt_above_sfc"
                hgt_cols Hdf Hindex eq_refl Hhc) as Fh.
  pose proof (flattened_labels ds profile_variables df index k v
                v_cols Hdf Hindex Hpv Hvc) as Fv.
  fold L in Fh, Fv.
  assert (Hrow : forall (vi : nat) (names : list string) (sel : ndarray) (row : list float),
            vi < 5 ->
            Forall2 (fun name c => columns df !! c = Some name) names
                    ((fun l => vi * L + l) <$> seq 0 L) ->
            select_columns df names = ok sel -> getrow sel i = ok row ->
            length row = L /\
            forall l, l < L -> row !! l = get2 (values df) i (vi * L + l)).
  { intros vi names sel row Hvi HF Hsel Hrow.
    destruct (Nat.eq_dec L 0) as [HL0 | HL0].
    - rewrite (select_columns_unique df names _ n (5 * L) (proj1 Htab) Hnd HF) in Hsel.
      injection Hsel as <-. unfold getrow in Hrow. simpl in Hrow.
      rewrite decide_True in Hrow by exact Hi. injection Hrow as <-.
      rewrite buf_row_flat_map by (try exact Hi; intros; apply length_fmap).
      rewrite length_fmap, length_fmap, length_seq. split; [reflexivity | lia].
    - assert (HlenL : forall l, l < L ->
                exists row', getrow sel i = ok row' /\
                  length row' = length ((fun l => vi * L + l) <$> seq 0 L) /\
                  row' !! l = get2 (values df) i (vi * L + l)).
      { intros l Hl.
        apply (select_columns_row df names _ n (5 * L) i l (vi * L + l) sel
                 Htab Hnd HF Hsel Hi).
        - rewrite list_lookup_fmap, lookup_seq_lt by exact Hl. reflexivity.
        - nia. }
      split.
      + destruct (HlenL 0 ltac:(lia)) as (row' & Hr' & Hlr & _).
        rewrite Hrow in Hr'. injection Hr' as <-.
        rewrite Hlr, length_fmap, length_seq. reflexivity.
      + intros l Hl. destruct (HlenL l Hl) as (row' & Hr' & _ & Hget).
        rewrite Hrow in Hr'. injection Hr' as <-. exact Hget. }
  destruct (Hrow 4 hgt_cols height_data xi ltac:(lia) Fh Hhd Hxi) as [Hlx Hgx].
  destruct (Hrow k v_cols pld yi ltac:(lia) Fv Hpld Hyi) as [Hly Hgy].
  destruct (np_interp_ok (Z2float <$> ls) xi yi) as [vs Hnp]; [lia | lia |].
  exists xi, yi, vs.
  refine (conj Hlx (conj Hly (conj Hgx (conj Hgy (conj Hnp _))))).
  rewrite (Hcell i k j a Hi Ha) by lia.
  rewrite (Hframe i j Hi Hj).
  rewrite <- buf_row_lookup by lia. rewrite Hvs.
  unfold interp_row. rewrite Hnp. reflexivity.
Qed.

Lemma flatten_then_interpolate_witness :
  exists out xi yi vs,
    df_flatten example_profiles profile_variables "isobaricInhPa"
    = ok example_frame /\
    convert_and_interpolate example_frame example_surface [1000; 900]%float
      (mkHeightLevels 0 1000 500) = ok out /\
    xi !! 1 = Some 1200%float /\ yi !! 0 = Some 18%float /\
    np_interp (Z2float <$> [0; 500; 1000]%Z) xi yi = ok vs /\
    get2 out 1 (1 * 3 + 1) = vs !! 1.
Proof.
  pose (index := mkDataArray ["isobaricInhPa"]
                   (NDArray [2] float64 [1000; 900]%float) ∅).
  assert (Hdf : df_flatten example_profiles profile_variables "isobaricInhPa"
                = ok example_frame) by (vm_compute; reflexivity).
  assert (Hindex : ds_variables example_profiles !! "isobaricInhPa" = Some index)
    by (vm_compute; reflexivity).
  assert (Hnd : NoDup (columns example_frame))
    by (apply (bool_decide_unpack _); vm_compute; exact I).
  destruct (convert_and_interpolate example_frame example_surface
              [1000; 900]%float (mkHeightLevels 0 1000 500)) as [e|out] eqn:E;
    [vm_compute in E; discriminate E|].
  destruct (flatten_then_interpolate example_profiles example_frame index
              example_surface (mkHeightLevels 0 1000 500) out Hdf Hindex Hnd E)
    as (ls & n & Hls & Htab & _ & Hcell).
  vm_compute in Hls. injection Hls as <-.
  destruct Htab as [Hsh _]. simpl in Hsh. injection Hsh as <-.
  destruct (Hcell 1 1 1 ltac:(lia) ltac:(lia) ltac:(simpl; lia))
    as (xi & yi & vs & _ & _ & Hx & Hy & Hvs & Hget).
  exists out, xi, yi, vs.
  split; [exact Hdf|]. split; [reflexivity|].
  split; [exact (Hx 1 ltac:(simpl; lia))|].
  split; [exact (Hy 0 ltac:(simpl; lia))|].
  split; [exact Hvs | exact Hget].
Defined.

End Pipeline.

(* ================================================================== *)
(** ** Column labels *)
(* ================================================================== *)

Section Labels.

Lemma level_column_same_label (v : string) (p q : float) (c : string) :
  level_column v p = ok c ->
  (level_column v q = ok c <-> int_of_float q = int_of_float p).
Proof.
  unfold level_column. intros Hp.
  apply rbind_ok in Hp as (z & Hz & Hc). injection Hc as <-.
  split.
  - intros Hq. apply rbind_ok in Hq as (z' & Hz' & Hc).
    injection Hc as Hc.
    apply (inj (String.app v)) in Hc. apply (inj (String.app "_")) in Hc.
    apply (inj pretty) in Hc. congruence.
  - intros ->. rewrite Hz. reflexivity.
Qed.

(** The label [f"{v}_{int(p)}"] keeps only the integer part of the level:
    two levels get the same label for a variable exactly when [int]
    truncates them to the same integer, as it does 0.5 and 0.75. *)
Theorem level_column_collision (v : string) (p q : float) (c : string) :
  level_column v p = ok c ->
  (level_column v q = ok c <-> int_of_float q = int_of_float p).
Proof. exact (level_column_same_label v p q c). Qed.

Lemma level_column_collision_witness :
  level_column "t" 0.5%float = ok "t_0" /\
  level_column "t" 0.75%float = ok "t_0".
Proof.
  assert (H : level_column "t" 0.5%float = ok "t_0") by (vm_compute; reflexivity).
  split; [exact H|].
  apply (level_column_collision "t" 0.5%float 0.75%float "t_0" H).
  vm_compute. reflexivity.
Defined.

(** The five profile variables differ in their first character, so a
    label tells the variable. *)
Lemma profile_label_variable (vi vj : nat) (v w s t : string) :
  profile_variables !! vi = Some v -> profile_variables !! vj = Some w ->
  v +:+ s = w +:+ t -> vi = vj.
Proof.
  unfold profile_variables. intros Hv Hw H.
  destruct vi as [|[|[|[|[|vi]]]]]; simpl in Hv; try discriminate Hv;
    injection Hv as <-;
    destruct vj as [|[|[|[|[|vj]]]]]; simpl in Hw; try discriminate Hw;
      injection Hw as <-; try reflexivity;
      cbv [String.app] in H; discriminate H.
Qed.

(** The frame [load_data] builds, [df_flatten] over the five profile
    variables, has pairwise distinct column labels exactly when no two
    levels of the vertical axis have the same integer part. *)
Theorem df_flatten_distinct_labels (ds : Dataset) (name : string)
    (df : DataFrame) (levels : list float) :
  df_flatten ds profile_variables name = ok df ->
  (let* da := ds_getitem ds name in values_1d da) = ok levels ->
  (NoDup (columns df) <->
   forall i j p q, levels !! i = Some p -> levels !! j = Some q ->
     int_of_float p = int_of_float q -> i = j).
Proof.
  intros Hdf Hlevels.
  destruct (df_flatten_cells _ _ _ _ Hdf)
    as (levels' & n & Hlevels' & _ & Hne & Hlen & _ & Hcols).
  rewrite Hlevels in Hlevels'. injection Hlevels' as <-.
  set (L := length levels) in *.
  assert (HL : 0 < L) by (unfold L; destruct levels; [congruence | simpl; lia]).
  split.
  - intros Hnd i j p q Hi Hj Hint.
    destruct (Hcols 0 i "t" p eq_refl Hi) as (ci & _ & _ & Hci & _ & _ & Hli & _).
    destruct (Hcols 0 j "t" q eq_refl Hj) as (cj & _ & _ & Hcj & _ & _ & Hlj & _).
    assert (cj = ci) as ->.
    { pose proof (proj2 (level_column_same_label "t" p q ci Hci) (eq_sym Hint)) as Hq.
      rewrite Hcj in Hq. injection Hq as ->. reflexivity. }
    simpl in Hli, Hlj. exact (NoDup_lookup _ _ _ _ Hnd Hli Hlj).
  - intros Hdist. apply NoDup_alt. intros a b x Ha Hb.
    assert (Hdecomp : forall a, columns df !! a = Some x ->
              exists vi li v p z,
                a = vi * L + li /\ li < L /\
                profile_variables !! vi = Some v /\ levels !! li = Some p /\
                int_of_float p = ok z /\ x = v +:+ "_" +:+ pretty z).
    { intros a' Ha'.
      assert (a' < 5 * L) as Hlt.
      { apply lookup_lt_Some in Ha'. rewrite Hlen in Ha'. exact Ha'. }
      assert (a' / L < 5) as Hvi by (apply Nat.Div0.div_lt_upper_bound; lia).
      assert (a' mod L < L) as Hli by (apply Nat.mod_upper_bound; lia).
      destruct (lookup_lt_is_Some_2 profile_variables (a' / L) Hvi) as [v Hv].
      destruct (lookup_lt_is_Some_2 levels (a' mod L) Hli) as [p Hp].
      destruct (Hcols _ _ v p Hv Hp) as (col & _ & _ & Hcol & _ & _ & Hl & _).
      assert (a' = a' / L * L + a' mod L) as Hdm.
      { rewrite (Nat.mul_comm (a' / L) L). apply Nat.div_mod_eq. }
      rewrite <- Hdm, Ha' in Hl. injection Hl as <-.
      unfold level_column in Hcol.
      apply rbind_ok in Hcol as (z & Hz & Hc). injection Hc as Hc.
      exists (a' / L), (a' mod L), v, p, z. auto 10. }
    destruct (Hdecomp a Ha) as (vi & li & v & p & z & -> & Hli & Hv & Hp & Hz & Hx).
    destruct (Hdecomp b Hb) as (vj & lj & w & q & z' & -> & Hlj & Hw & Hq & Hz' & Hx').
    rewrite Hx in Hx'.
    pose proof (profile_label_variable vi vj v w _ _ Hv Hw Hx') as <-.
    rewrite Hv in Hw. injection Hw as <-.
    apply (inj (String.app v)) in Hx'. apply (inj (String.app "_")) in Hx'.
    apply (inj pretty) in Hx'. subst z'.
    rewrite (Hdist li lj p q Hp Hq) by congruence. reflexivity.
Qed.

Lemma df_flatten_distinct_labels_witness :
  NoDup (columns example_frame) <->
  forall i j p q, [1000; 900]%float !! i = Some p ->
    [1000; 900]%float !! j = Some q ->
    int_of_float p = int_of_float q -> i = j.
Proof.
  apply (df_flatten_distinct_labels example_profiles "isobaricInhPa"
           example_frame [1000; 900]%float);
    vm_compute; reflexivity.
Defined.

End Labels.

(* ================================================================== *)
(** ** [interpolate]: exceptions lost in the parallel loop *)
(* ================================================================== *)

Section InterpolateDomain.

(** [interpolate] never passes on an exception of [np.interp].  On a
    table of heights and a table of values over the same points it always
    returns a float64 table with one column per target level; when the
    two tables differ in their number of columns, or have none, every
    row makes [np.interp] raise, and the result is all zeros. *)
Theorem interpolate_lost_exception (x y : ndarray) (hl : list Z) (n w w' : nat) :
  table n w x -> table n w' y ->
  exists out,
    interpolate x y hl = ok out /\
    table n (length hl) out /\ arr_dtype out = float64 /\
    (w <> w' \/ w = 0 ->
     forall i j, i < n -> j < length hl -> get2 out i j = Some 0%float).
Proof.
  intros Hx Hy.
  destruct (interpolate_total x y hl n w w' Hx Hy)
    as (out & Hout & Hsh & Hlen & Hdt & Hrows).
  exists out. split; [exact Hout|]. split; [split; assumption|].
  split; [exact Hdt|].
  intros Hbad i j Hi Hj.
  rewrite (table_get2 n (length hl) out i j (conj Hsh Hlen) Hi Hj).
  rewrite <- buf_row_lookup by exact Hj. rewrite (Hrows i Hi).
  destruct (getrow_table x n w i Hx Hi) as [_ Hlx].
  destruct (getrow_table y n w' i Hy Hi) as [_ Hly].
  unfold interp_row.
  destruct (np_interp_raise (Z2float <$> hl) (buf_row w (data x) i)
              (buf_row w' (data y) i)) as [e ->].
  { rewrite Hlx, Hly. exact Hbad. }
  rewrite length_fmap. apply lookup_replicate_2. exact Hj.
Qed.

Lemma interpolate_lost_exception_witness :
  interpolate (NDArray [1; 3] float64 [500; 1500; 2500]%float)
              (NDArray [1; 2] float64 [10; 5]%float) [0; 1000]%Z
  = ok (NDArray [1; 2] float64 [0; 0]%float).
Proof.
  destruct (interpolate_lost_exception
              (NDArray [1; 3] float64 [500; 1500; 2500]%float)
              (NDArray [1; 2] float64 [10; 5]%float) [0; 1000]%Z 1 3 2
              ltac:(split; reflexivity) ltac:(split; reflexivity))
    as (out & Hout & _).
  reflexivity.
Defined.

End InterpolateDomain.

(* ================================================================== *)
(** ** [run_inference]: the forecast hours *)
(* ================================================================== *)

Section ForecastHours.

Lemma py_range_length_pos (start stop step : Z) (i : nat) :
  (0 < step)%Z ->
  (i < Z.to_nat (if (start <? stop)%Z then 1 + (stop - 1 - start) / step else 0)
   <-> (start + Z.of_nat i * step < stop)%Z).
Proof.
  intros Hstep. destruct (Z.ltb_spec start stop) as [Hlt|Hge].
  - pose proof (Z.div_mod (stop - 1 - start) step ltac:(lia)) as Hdm.
    pose proof (Z.mod_pos_bound (stop - 1 - start) step Hstep) as Hmod.
    assert (0 <= (stop - 1 - start) / step)%Z by (apply Z.div_pos; lia).
    split; intros H'; nia.
  - simpl. split; [lia|]. intros H'. nia.
Qed.

Lemma main_args_length {D} (dates : list D) (hs : list Z) :
  length (main_args dates hs) = length dates * length hs.
Proof.
  unfold main_args. induction dates as [|d dates IH]; [reflexivity|].
  simpl. rewrite length_app, IH, length_fmap. reflexivity.
Qed.

Lemma main_args_lookup {D} (dates : list D) (hs : list Z) (a b : nat)
    (d : D) (h : Z) :
  dates !! a = Some d -> hs !! b = Some h ->
  main_args dates hs !! (a * length hs + b) = Some (d, h).
Proof.
  unfold main_args. revert a. induction dates as [|d0 dates IH]; intros a Ha Hb.
  { discriminate. }
  pose proof (lookup_lt_Some _ _ _ Hb) as Hlt. simpl.
  destruct a as [|a]; simpl in Ha.
  - injection Ha as ->. rewrite lookup_app_l by (rewrite length_fmap; exact Hlt).
    simpl. rewrite list_lookup_fmap, Hb. reflexivity.
  - rewrite lookup_app_r by (rewrite length_fmap; lia).
    rewrite length_fmap.
    replace (S a * length hs + b - length hs) with (a * length hs + b)
      by (simpl; lia).
    exact (IH a Ha Hb).
Qed.

(** The forecast hours run from [start] in steps of a positive
    [interval] while they stay below [end + interval]: every hour
    [start + i * interval] below that bound is run, and no other.  For
    [start <= end] the last hour is the first one not below [end]; it is
    [end] only when the interval divides [end - start], and lies beyond
    [end] otherwise.  [main] is run on each date paired with every hour,
    date by date: run number [a * H + b] is date [a] with hour [b], [H]
    the number of hours, and there are no other runs. *)
Theorem forecast_hours_cover (fr : ForecastRange) :
  (0 < fr_interval fr)%Z ->
  exists hs,
    forecast_hours fr = ok hs /\
    (forall i : nat, (fr_start fr + Z.of_nat i * fr_interval fr
                      < fr_end fr + fr_interval fr)%Z ->
       hs !! i = Some (fr_start fr + Z.of_nat i * fr_interval fr)%Z) /\
    (forall i h, hs !! i = Some h ->
       h = (fr_start fr + Z.of_nat i * fr_interval fr)%Z /\
       (h < fr_end fr + fr_interval fr)%Z) /\
    ((fr_start fr <= fr_end fr)%Z ->
     exists top, last hs = Some top /\
       (fr_end fr <= top < fr_end fr + fr_interval fr)%Z /\
       (top = fr_end fr <-> (fr_interval fr | fr_end fr - fr_start fr)%Z)) /\
    forall D (dates : list D),
      length (main_args dates hs) = length dates * length hs /\
      forall a b d h, dates !! a = Some d -> hs !! b = Some h ->
        main_args dates hs !! (a * length hs + b) = Some (d, h).
Proof.
  destruct fr as [s e step]. simpl. intros Hstep.
  unfold forecast_hours, py_range. simpl.
  rewrite decide_False by lia.
  destruct (Z.ltb_spec 0 step) as [_|?]; [|lia].
  set (len := Z.to_nat (if (s <? e + step)%Z then 1 + (e + step - 1 - s) / step else 0)).
  assert (Hlen : forall i, i < len <-> (s + Z.of_nat i * step < e + step)%Z).
  { intros i. exact (py_range_length_pos s (e + step) step i Hstep). }
  eexists. split; [reflexivity|].
  assert (Hlook : forall i h,
            ((fun i => (s + Z.of_nat i * step)%Z) <$> seq 0 len) !! i = Some h ->
            h = (s + Z.of_nat i * step)%Z /\ i < len).
  { intros i h Hh. rewrite list_lookup_fmap in Hh.
    destruct (seq 0 len !! i) as [i'|] eqn:Hi; [|discriminate].
    apply lookup_seq in Hi as [-> Hi]. simpl in Hh. injection Hh as <-. auto. }
  split; [|split; [|split]].
  - intros i Hi. apply Hlen in Hi.
    rewrite list_lookup_fmap, lookup_seq_lt by exact Hi. reflexivity.
  - intros i h Hh. destruct (Hlook i h Hh) as [-> Hi].
    split; [reflexivity|]. apply Hlen. exact Hi.
  - intros Hse.
    assert (0 < len) as Hpos by (apply Hlen; simpl; lia).
    exists (s + Z.of_nat (len - 1) * step)%Z. split.
    { rewrite last_lookup, length_fmap, length_seq.
      replace (Init.Nat.pred len) with (len - 1) by lia.
      rewrite list_lookup_fmap, lookup_seq_lt by lia. reflexivity. }
    assert (Hin : (s + Z.of_nat (len - 1) * step < e + step)%Z) by (apply Hlen; lia).
    assert (Hout : ~ (s + Z.of_nat len * step < e + step)%Z).
    { intros H'. apply Hlen in H'. lia. }
    replace (Z.of_nat len) with (Z.of_nat (len - 1) + 1)%Z in Hout by lia.
    split; [lia|]. split.
    + intros Htop. exists (Z.of_nat (len - 1)). lia.
    + intros [k Hk].
      assert (k = Z.of_nat (len - 1)) by nia. lia.
  - intros D dates. split; [apply main_args_length|].
    intros a b d h. apply main_args_lookup.
Qed.

Lemma forecast_hours_cover_witness :
  exists hs,
    forecast_hours (mkForecastRange 1 18 3) = ok hs /\
    last hs = Some 19%Z /\ length (main_args ["a"; "b"] hs) = 14 /\
    main_args ["a"; "b"] hs !! (1 * 7 + 2) = Some ("b", 7%Z).
Proof.
  destruct (forecast_hours_cover (mkForecastRange 1 18 3) ltac:(simpl; lia))
    as (hs & Hhs & _ & _ & _ & Hargs).
  exists hs. split; [exact Hhs|].
  vm_compute in Hhs. injection Hhs as <-.
  split; [reflexivity|].
  destruct (Hargs string ["a"; "b"]) as [Hlen Hlook].
  split; [exact Hlen|].
  exact (Hlook 1 2 "b" 7%Z eq_refl eq_refl).
Defined.

End ForecastHours.

(* ================================================================== *)
(** ** [data.load_ptype_data] *)
(* ================================================================== *)

Section PtypeData.

Lemma string_length_app (a b : string) :
  String.length (a +:+ b) = String.length a + String.length b.
Proof. induction a as [|c a IH]; simpl; [reflexivity|]. rewrite IH. reflexivity. Qed.

Lemma substring_app_skip (a b : string) (n m : nat) :
  String.substring (String.length a + n) m (a +:+ b) = String.substring n m b.
Proof. induction a as [|c a IH]; simpl; [reflexivity | exact IH]. Qed.

Lemma substring_app_prefix (d e : string) :
  String.substring 0 (String.length d) (d +:+ e) = d.
Proof.
  induction d as [|c d IH]; simpl; [destruct e; reflexivity|].
  rewrite IH. reflexivity.
Qed.

(** The slice [x[-16:-8]] reads back the date from the name of the file
    that is opened for it, whatever the source, when the date has eight
    characters ([yyyymmdd]). *)
Theorem parquet_name_date (source date : string) :
  String.length date = 8 ->
  date_of_filename (parquet_name source date) = date.
Proof.
  intros Hd. unfold date_of_filename, parquet_name.
  rewrite !string_length_app, Hd. simpl String.length.
  replace (String.length source + (5 + (8 + 8)) - 16)
    with (String.length source + 5) by lia.
  replace (String.length source + (5 + (8 + 8)) - 8 - (String.length source + 5))
    with 8 by lia.
  rewrite substring_app_skip. simpl.
  change ("" +:+ date +:+ ".parquet") with (date +:+ ".parquet").
  rewrite <- Hd. apply substring_app_prefix.
Qed.

Lemma parquet_name_date_witness :
  date_of_filename (parquet_name "mPING" "20181109") = "20181109".
Proof. apply (parquet_name_date "mPING" "20181109"). reflexivity. Defined.

Lemma ascii_compare_trans_le (a b c : Ascii.ascii) :
  Ascii.compare a b <> Gt -> Ascii.compare b c <> Gt -> Ascii.compare a c <> Gt.
Proof.
  unfold Ascii.compare. rewrite !N.compare_gt_iff. lia.
Qed.

#[local] Instance str_le_trans : Transitive str_le.
Proof.
  unfold str_le, String.leb. intros s1.
  induction s1 as [|a s1 IH]; intros [|b s2] [|c s3]; simpl; try congruence.
  intros H12 H23.
  destruct (Ascii.compare a b) eqn:Eab; try discriminate;
    destruct (Ascii.compare b c) eqn:Ebc; try discriminate.
  - apply Ascii.compare_eq_iff in Eab, Ebc. subst.
    assert (Ascii.compare c c = Eq) as -> by (unfold Ascii.compare; apply N.compare_refl).
    exact (IH _ _ H12 H23).
  - apply Ascii.compare_eq_iff in Eab. subst. rewrite Ebc. reflexivity.
  - apply Ascii.compare_eq_iff in Ebc. subst. rewrite Eab. reflexivity.
  - assert (Ascii.compare a c = Lt) as ->; [|reflexivity].
    unfold Ascii.compare in *. rewrite N.compare_lt_iff in *. lia.
Qed.






Lemma list_index_elem_of (x : string) (l : list string) :
  x ∈ l -> exists i, list_index x l = ok i.
Proof.
  intros Hx. unfold list_index.
  destruct (list_find (fun y => y = x) l) as [[i y]|] eqn:E; [eauto|].
  apply list_find_None in E. rewrite Forall_forall in E.
  destruct (E x Hx eq_refl).
Qed.




End PtypeData.

(* ================================================================== *)
(** ** [data.reshape_data_1dCNN] *)
(* ================================================================== *)

Section Reshape1dCNN.

Lemma setitem_last_ok (arr arr' vals : ndarray) (i n L k n' m : nat) :
  cube n L k arr -> shape vals = [n'; m] ->
  setitem_last arr i vals = ok arr' ->
  i < k /\ (n' = n \/ n' = 1) /\ (m = L \/ m = 1) /\
  cube n L k arr' /\ arr_dtype arr' = arr_dtype arr /\
  forall r l c, r < n -> l < L -> c < k ->
    data arr' !! ((r * L + l) * k + c)
    = if decide (c = i) then
        Some (cast (arr_dtype arr)
                (fget (data vals)
                   (Z.of_nat ((if decide (n' = 1) then 0 else r) * m
                              + (if decide (m = 1) then 0 else l)))))
      else data arr !! ((r * L + l) * k + c).
Proof.
  intros [Hs Hl] Hv H. unfold setitem_last in H. rewrite Hs, Hv in H.
  case_decide as Hi; [discriminate|]. case_decide as Hb; [|discriminate].
  injection H as <-. destruct Hb as [Hn' Hm].
  assert (Hinner : forall r, Forall (fun l : nat =>
            length ((fun c =>
                      if decide (c = i) then
                        cast (arr_dtype arr)
                          (fget (data vals)
                             (Z.of_nat ((if decide (n' = 1) then 0 else r) * m
                                        + (if decide (m = 1) then 0 else l))))
                      else fget (data arr) (Z.of_nat ((r * L + l) * k + c)))
                   <$> seq 0 k) = k) (seq 0 L)).
  { intros r. apply Forall_forall. intros l _. rewrite length_fmap, length_seq.
    reflexivity. }
  assert (Houter : Forall (fun r : nat =>
            length (flat_map (fun l =>
                   (fun c =>
                      if decide (c = i) then
                        cast (arr_dtype arr)
                          (fget (data vals)
                             (Z.of_nat ((if decide (n' = 1) then 0 else r) * m
                                        + (if decide (m = 1) then 0 else l))))
                      else fget (data arr) (Z.of_nat ((r * L + l) * k + c)))
                   <$> seq 0 k) (seq 0 L)) = L * k) (seq 0 n)).
  { apply Forall_forall. intros r _.
    rewrite (length_flat_map_uniform _ _ k (Hinner r)), length_seq. reflexivity. }
  split; [lia|]. split; [exact Hn'|]. split; [exact Hm|]. split.
  { split; [reflexivity|]. simpl.
    rewrite (length_flat_map_uniform _ _ (L * k) Houter), length_seq. reflexivity. }
  split; [reflexivity|].
  intros r l c Hr Hl' Hc. simpl.
  replace ((r * L + l) * k + c) with (r * (L * k) + (l * k + c)) by nia.
  rewrite (flat_map_lookup_uniform _ _ (L * k) r (l * k + c) r Houter)
    by (try apply lookup_seq_lt; try assumption; nia).
  rewrite (flat_map_lookup_uniform _ _ k l c l (Hinner r))
    by (try apply lookup_seq_lt; assumption).
  rewrite list_lookup_fmap, lookup_seq_lt by exact Hc. simpl.
  destruct (decide (c = i)) as [Hci|Hci]; [reflexivity|].
  replace (r * (L * k) + (l * k + c)) with ((r * L + l) * k + c) by nia.
  destruct (lookup_lt_is_Some_2 (data arr) ((r * L + l) * k + c)) as [x Hx].
  { rewrite Hl. assert (r * L + l + 1 <= n * L) as Hq by nia.
    pose proof (Nat.mul_le_mono_r _ _ k Hq) as Hqk. nia. }
  rewrite Hx, (fget_lookup _ _ _ Hx). reflexivity.
Qed.

Lemma containing_labels (var : string) (pre cols : list string) :
  Forall2 (fun name c => (pre ++ cols) !! c = Some name)
    (List.filter (str_contains var) cols) (containing var cols (length pre)).
Proof.
  revert pre. induction cols as [|c cols IH]; intros pre; simpl; [constructor|].
  specialize (IH (pre ++ [c])).
  rewrite <- app_assoc, length_app, Nat.add_1_r in IH. simpl in IH.
  destruct (str_contains var c); [|exact IH].
  constructor; [|exact IH].
  rewrite lookup_app_r by lia. rewrite Nat.sub_diag. reflexivity.
Qed.

Variable df : DataFrame.
Variables n w L k : nat.
Hypothesis Htab : table n w (values df).
Hypothesis Hcols : length (columns df) = w.
Hypothesis Hnd : NoDup (columns df).

(** One pass of the loop: the values assigned for variable [var]. *)
Lemma reshape_pass (var : string) (i : nat) (arr arr' : ndarray) (sel : ndarray) :
  cube n L k arr -> arr_dtype arr = float32 ->
  select_columns df (List.filter (str_contains var) (columns df)) = ok sel ->
  setitem_last arr i (astype float32 sel) = ok arr' ->
  i < k /\ cube n L k arr' /\ arr_dtype arr' = float32 /\
  (forall r l c, r < n -> l < L -> c < k -> c <> i ->
     data arr' !! ((r * L + l) * k + c) = data arr !! ((r * L + l) * k + c)) /\
  (length (containing var (columns df) 0) = L \/
   length (containing var (columns df) 0) = 1) /\
  forall r l c, r < n -> l < L ->
    containing var (columns df) 0
      !! (if decide (length (containing var (columns df) 0) = 1) then 0 else l)
    = Some c ->
    exists x, get2 (values df) r c = Some x /\
      data arr' !! ((r * L + l) * k + i)
      = Some (round_float32 (round_float32 x)).
Proof using All.
  intros Hcube Hdt Hsel Hset.
  set (cs := containing var (columns df) 0) in *.
  pose proof (containing_labels var [] (columns df)) as HF. simpl in HF. fold cs in HF.
  rewrite (select_columns_unique df _ cs n w (proj1 Htab) Hnd HF) in Hsel.
  injection Hsel as <-.
  assert (Hshape : shape (astype float32
                           (NDArray [n; length cs] (arr_dtype (values df))
                              (flat_map (fun i =>
                                 (fun j => fget (buf_row w (data (values df)) i)
                                             (Z.of_nat j)) <$> cs) (seq 0 n))))
                   = [n; length cs]) by reflexivity.
  destruct (setitem_last_ok arr arr' _ i n L k n (length cs) Hcube Hshape Hset)
    as (Hi & _ & Hm & Hcube' & Hdt' & Hcell).
  split; [exact Hi|]. split; [exact Hcube'|]. split; [congruence|]. split.
  { intros r l c Hr Hl Hc Hci. rewrite (Hcell r l c Hr Hl Hc).
    rewrite decide_False by exact Hci. reflexivity. }
  split; [exact Hm|].
  intros r l c Hr Hl Hc.
  assert (c < w) as Hcw.
  { rewrite Forall2_lookup in HF.
    specialize (HF (if decide (length cs = 1) then 0 else l)). rewrite Hc in HF.
    inversion HF as [name c' Hname|]; subst.
    apply lookup_lt_Some in Hname. lia. }
  destruct (lookup_lt_is_Some_2 (data (values df)) (r * w + c)) as [x Hx].
  { rewrite (proj2 Htab).
    pose proof (Nat.mul_le_mono_r (r + 1) n w ltac:(lia)). lia. }
  exists x. split.
  { rewrite (table_get2 n w _ r c Htab Hr Hcw). exact Hx. }
  rewrite (Hcell r l i Hr Hl Hi), decide_True by reflexivity.
  rewrite Hdt. simpl. do 2 f_equal.
  assert ((if decide (n = 1) then 0 else r) = r) as ->
    by (destruct (decide (n = 1)); lia).
  apply fget_lookup. rewrite list_lookup_fmap.
  assert (Hidx : (if decide (length cs = 1) then 0 else l) < length cs)
    by (apply lookup_lt_Some in Hc; exact Hc).
  assert (HFcs : Forall (fun i0 : nat =>
            length ((fun j => fget (buf_row w (data (values df)) i0) (Z.of_nat j))
                      <$> cs) = length cs) (seq 0 n)).
  { apply Forall_forall. intros ? _. apply length_fmap. }
  rewrite (flat_map_lookup_uniform _ _ (length cs) r _ r HFcs
             (lookup_seq_lt _ _ _ Hr) Hidx).
  rewrite list_lookup_fmap, Hc. simpl. do 2 f_equal.
  apply fget_lookup. rewrite buf_row_lookup by exact Hcw. exact Hx.
Qed.

Lemma reshape_loop_spec (vars : list string) :
  forall (i : nat) (arr out : ndarray),
    cube n L k arr -> arr_dtype arr = float32 -> i + length vars = k ->
    reshape_loop df i vars arr = ok out ->
    cube n L k out /\ arr_dtype out = float32 /\
    (forall r l c, r < n -> l < L -> c < i ->
       data out !! ((r * L + l) * k + c) = data arr !! ((r * L + l) * k + c)) /\
    forall j var, vars !! j = Some var ->
      (length (containing var (columns df) 0) = L \/
       length (containing var (columns df) 0) = 1) /\
      forall r l c, r < n -> l < L ->
        containing var (columns df) 0
          !! (if decide (length (containing var (columns df) 0) = 1) then 0 else l)
        = Some c ->
        exists x, get2 (values df) r c = Some x /\
          data out !! ((r * L + l) * k + (i + j))
          = Some (round_float32 (round_float32 x)).
Proof using All.
  induction vars as [|var vars IH]; intros i arr out Hcube Hdt Hik Hloop.
  - simpl in Hloop. injection Hloop as <-.
    split; [exact Hcube|]. split; [exact Hdt|]. split; [reflexivity|].
    intros j var Hj. discriminate Hj.
  - simpl in Hloop, Hik.
    apply rbind_ok in Hloop as (sel & Hsel & Hloop).
    apply rbind_ok in Hloop as (arr' & Hset & Hloop).
    destruct (reshape_pass var i arr arr' sel Hcube Hdt Hsel Hset)
      as (Hi & Hcube' & Hdt' & Hframe & Hm & Hcell).
    destruct (IH (S i) arr' out Hcube' Hdt' ltac:(lia) Hloop)
      as (Hco & Hdo & Hkeep & Hrest).
    split; [exact Hco|]. split; [exact Hdo|]. split.
    { intros r l c Hr Hl Hc.
      rewrite (Hkeep r l c Hr Hl ltac:(lia)).
      apply (Hframe r l c Hr Hl); lia. }
    intros [|j] var' Hj; simpl in Hj.
    + injection Hj as <-. split; [exact Hm|].
      intros r l c Hr Hl Hc.
      destruct (Hcell r l c Hr Hl Hc) as (x & Hx & Hv).
      exists x. split; [exact Hx|].
      rewrite Nat.add_0_r, (Hkeep r l i Hr Hl ltac:(lia)). exact Hv.
    + destruct (Hrest j var' Hj) as [Hm' Hcell'].
      split; [exact Hm'|].
      intros r l c Hr Hl Hc.
      destruct (Hcell' r l c Hr Hl Hc) as (x & Hx & Hv).
      exists x. split; [exact Hx|].
      replace (i + S j) with (S i + j) by lia. exact Hv.
Qed.

End Reshape1dCNN.

(** On a frame with distinct labels, [reshape_data_1dCNN] returns a
    float32 array of shape (rows, n_levels, variables).  For each base
    variable the columns whose label contains its name as a substring are
    taken in the order of the frame; there must be [n_levels] of them, or
    exactly one, which numpy then repeats at every level.  Element
    [[r, l, i]] is the value of row [r] in the [l]-th of these columns
    for variable [i], after the two conversions to float32 ([astype] and
    the assignment). *)
Theorem reshape_data_1dCNN_cells (df : DataFrame) (base_variables : list string)
    (n_levels n w : nat) (out : ndarray) :
  table n w (values df) -> length (columns df) = w -> NoDup (columns df) ->
  reshape_data_1dCNN df base_variables n_levels = ok out ->
  shape out = [n; n_levels; length base_variables] /\
  arr_dtype out = float32 /\
  forall i var, base_variables !! i = Some var ->
    (length (containing var (columns df) 0) = n_levels \/
     length (containing var (columns df) 0) = 1) /\
    forall r l c, r < n -> l < n_levels ->
      containing var (columns df) 0
        !! (if decide (length (containing var (columns df) 0) = 1) then 0 else l)
      = Some c ->
      exists x, get2 (values df) r c = Some x /\
        get3 out r l i = Some (round_float32 (round_float32 x)).
Proof.
  intros Htab Hcols Hnd H. unfold reshape_data_1dCNN in H.
  rewrite (proj1 Htab) in H.
  set (k := length base_variables) in *.
  assert (Hinit : cube n n_levels k
            (astype float32
               (NDArray [n; n_levels; k] float64
                  (replicate (n * n_levels * k) 0%float)))).
  { split; [reflexivity|]. simpl.
    rewrite length_fmap, length_replicate. lia. }
  destruct (reshape_loop_spec df n w n_levels k Htab Hcols Hnd base_variables 0 _ out
              Hinit eq_refl eq_refl H) as (Hcube & Hdt & _ & Hcells).
  split; [exact (proj1 Hcube)|]. split; [exact Hdt|].
  intros i var Hi. destruct (Hcells i var Hi) as [Hm Hcell].
  split; [exact Hm|].
  intros r l c Hr Hl Hc.
  destruct (Hcell r l c Hr Hl Hc) as (x & Hx & Hv).
  exists x. split; [exact Hx|].
  unfold get3. rewrite (proj1 Hcube).
  rewrite decide_True; [exact Hv|].
  split; [exact Hr|]. split; [exact Hl|]. apply lookup_lt_Some in Hi. exact Hi.
Qed.

Lemma reshape_data_1dCNN_cells_witness :
  exists out,
    reshape_data_1dCNN example_soundings ["TEMP_C"; "UGRD_m/s"] 2 = ok out /\
    get3 out 1 1 1 = Some 8%float.
Proof.
  destruct (reshape_data_1dCNN example_soundings ["TEMP_C"; "UGRD_m/s"] 2)
    as [e|out] eqn:E; [vm_compute in E; discriminate E|].
  exists out. split; [reflexivity|].
  assert (Hnd : NoDup (columns example_soundings))
    by (apply (bool_decide_unpack _); vm_compute; exact I).
  destruct (reshape_data_1dCNN_cells example_soundings ["TEMP_C"; "UGRD_m/s"]
              2 2 4 out ltac:(split; reflexivity) eq_refl Hnd E)
    as (_ & _ & Hcells).
  destruct (Hcells 1 "UGRD_m/s" eq_refl) as [_ Hcell].
  destruct (Hcell 1 1 3 ltac:(lia) ltac:(lia) ltac:(vm_compute; reflexivity))
    as (x & Hx & Hv).
  vm_compute in Hx. injection Hx as <-.
  assert (Hr : round_float32 (round_float32 8) = 8%float) by (vm_compute; reflexivity).
  rewrite Hr in Hv. exact Hv.
Defined.

(* ================================================================== *)
(** ** [grid_predictions] on three probability columns *)
(* ================================================================== *)

Section ThreeClasses.

(** The loop of [grid_predictions] always runs over four classes and
    reads column [i] of the table extended by the class index.  On a table
    of three probability columns that matches the grid the call succeeds,
    and the field of the fourth class, [ML_frzr], is not a probability: it
    holds the index of the most probable class at every point; its
    categorical field [ML_cfrzr] is zero everywhere. *)
Theorem grid_predictions_three_classes (preds : ndarray) (ds : Dataset)
    (ny nx : nat) :
  table (ny * nx) 3 preds -> wf_dataset ds ->
  ds_dims ds !! "y" = Some ny -> ds_dims ds !! "x" = Some nx ->
  ds_size ds "y" = ok ny -> ds_size ds "x" = ok nx ->
  exists out s dp dc,
    grid_predictions preds ds = (ok out, s) /\
    ds_variables out !! "ML_frzr" = Some dp /\
    ds_variables out !! "ML_cfrzr" = Some dc /\
    forall r c, r < ny -> c < nx ->
      get2 (da_values dp) r c
      = Some (round_float32
                (nat2float (argmax_row (buf_row 3 (data preds) (r * nx + c))))) /\
      get2 (da_values dc) r c = Some 0%float.
Proof.
  intros Hpreds Hwf Hy Hx Hsy Hsx.
  destruct (grid_predictions_run preds ds ny nx 3 Hpreds ltac:(lia) Hwf Hy Hx Hsy Hsx)
    as (stacked & s3 & _ & Hst & Hrows & Hrun & _ & _ & _ & Hml & _).
  destruct (Hml 3 "freezing rain" "frzr" eq_refl) as [Hp Hcat].
  exists (ds_drop s3 (dropped_names s3)), s3,
         (ml_probability stacked ny nx (3 + 1) 3 "freezing rain"),
         (ml_categorical stacked ny nx (3 + 1) 3 "freezing rain").
  split; [exact Hrun|].
  destruct (class_names_ml 3 "freezing rain" "frzr" eq_refl) as (_ & M1 & M2).
  unfold ds_drop. cbn [ds_variables].
  rewrite !lookup_foldr_delete_not_elem_of by (apply dropped_names_not_ml; assumption).
  split; [exact Hp|]. split; [exact Hcat|].
  intros r c Hr Hc.
  assert (r * nx + c < ny * nx) as Hn by nia.
  set (n := r * nx + c) in *.
  set (row := buf_row 3 (data preds) n).
  assert (length row = 3) as Hrow by (apply (table_row_length (ny * nx)); assumption).
  assert (data stacked !! (n * 4 + 3) = Some (nat2float (argmax_row row))) as Hcell.
  { change 4 with (3 + 1).
    rewrite <- (buf_row_lookup (3 + 1) (data stacked) n 3) by lia.
    rewrite (Hrows n Hn). fold row. rewrite lookup_app_r by lia.
    rewrite Hrow. reflexivity. }
  unfold ml_probability, ml_categorical, where_eq, astype. cbn [da_values shape data].
  rewrite <- !list_fmap_compose.
  rewrite !(field_cell ny nx _ _ r c Hr Hc). cbn. fold n.
  change (3 + 1) with 4.
  rewrite (fget_lookup _ _ _ Hcell). split; [reflexivity|].
  f_equal.
  assert (argmax_row row < 3) as Hj.
  { rewrite <- Hrow. apply first_max_lt, argmax_row_first_max.
    intros E. rewrite E in Hrow. discriminate. }
  rewrite (nat2float_eqb 3 (argmax_row row) ltac:(lia) ltac:(lia)).
  rewrite bool_decide_eq_false_2 by lia. reflexivity.
Qed.

Lemma grid_predictions_three_classes_witness :
  exists out s dp,
    grid_predictions
      (NDArray [4; 3] float32
         [0.5; 0.25; 0.25;  0.25; 0.5; 0.25;  0; 0.25; 0.75;  1; 0; 0]%float)
      example_field = (ok out, s) /\
    ds_variables out !! "ML_frzr" = Some dp /\
    get2 (da_values dp) 1 0 = Some 2%float.
Proof.
  pose (P := NDArray [4; 3] float32
               [0.5; 0.25; 0.25;  0.25; 0.5; 0.25;  0; 0.25; 0.75;  1; 0; 0]%float).
  assert (Ht : table (2 * 2) 3 P) by (split; reflexivity).
  assert (Hv : round_float32
                 (nat2float (argmax_row (buf_row 3 (data P) (1 * 2 + 0))))
               = 2%float) by (vm_compute; reflexivity).
  destruct (grid_predictions_three_classes P example_field 2 2 Ht
              example_field_wf eq_refl eq_refl eq_refl eq_refl)
    as (out & s & dp & dc & Hrun & Hdp & _ & Hcells).
  exists out, s, dp. split; [exact Hrun|]. split; [exact Hdp|].
  destruct (Hcells 1 0 (Nat.lt_succ_diag_r 1) (Nat.lt_0_succ 1)) as [Hg _].
  rewrite Hg, Hv. reflexivity.
Defined.

End ThreeClasses.
